(** * Robin voice backend: the duplex streaming orchestrator

    A shallow embedding of [app/services/bedrock_streaming.py],
    [app/services/gateway.py], [app/services/dynamodb.py],
    [app/services/redis_cache.py] and [app/api/websocket.py].

    Python values that travel as JSON are modelled by the inductive type
    [json]; coroutines become functions in a small state-and-exception
    monad whose state is the history of calls made on the outside world
    (model transport, client socket, HTTP, Redis, DynamoDB, clock).  The
    outside world answers through the oracles of an [Env], each of which
    may look at the whole history. *)

From Stdlib Require Import List String Ascii ZArith NArith QArith Bool Lia.
From Stdlib.Strings Require Import Byte.
From Stdlib Require DecimalString.
Import ListNotations.
Set Warnings "-register-all".
Set Warnings "-automation".
Set Warnings "-notation-overridden,-notation-incompatible-prefix".
Local Close Scope Q_scope.
Local Open Scope string_scope.
Local Open Scope list_scope.

(* ===================================================================== *)
(** ** Python values and exceptions *)
(* ===================================================================== *)

Module Py.

(** A JSON-shaped Python value.  A [dict] is an association list in
    insertion order, looked up by first match; a [float] is carried by the
    decimal [m * 10^-scale] that its [repr] prints. *)
Inductive json :=
| JNull
| JBool (b : bool)
| JInt (n : Z)
| JFloat (m : Z) (scale : nat)
| JStr (s : string)
| JArr (xs : list json)
| JObj (kvs : list (string * json)).

(** The exception classes the code tells apart; everything else is an
    [Exception] carrying what [str(e)] would show. *)
Inductive exn :=
| StopAsyncIteration
| WebSocketDisconnect
| Exception (what : string).

Definition str_exn (e : exn) : string :=
  match e with
  | StopAsyncIteration => ""
  | WebSocketDisconnect => ""
  | Exception what => what
  end.

Inductive Result (A : Type) :=
| Ok (a : A)
| Raise (e : exn).
Arguments Ok {A} a.
Arguments Raise {A} e.

Definition KeyError : exn := Exception "KeyError".
Definition TypeError : exn := Exception "TypeError".
Definition AttributeError : exn := Exception "AttributeError".
Definition JSONDecodeError : exn := Exception "JSONDecodeError".
Definition UnicodeDecodeError : exn := Exception "UnicodeDecodeError".
Definition binascii_Error : exn := Exception "binascii.Error".

(** [bool(v)] *)
Definition truthy (v : json) : bool :=
  match v with
  | JNull => false
  | JBool b => b
  | JInt n => negb (n =? 0)%Z
  | JFloat m _ => negb (m =? 0)%Z
  | JStr s => negb (s =? "")
  | JArr xs => match xs with [] => false | _ :: _ => true end
  | JObj kvs => match kvs with [] => false | _ :: _ => true end
  end.

Fixpoint assoc (key : string) (kvs : list (string * json)) : option json :=
  match kvs with
  | [] => None
  | (k, v) :: rest => if k =? key then Some v else assoc key rest
  end.

Definition is_str (v : json) (s : string) : bool :=
  match v with
  | JStr t => t =? s
  | _ => false
  end.

(** [needle in hay] on two [str]: substring test. *)
Fixpoint str_contains (needle hay : string) : bool :=
  if prefix needle hay then true
  else match hay with
       | EmptyString => false
       | String _ rest => str_contains needle rest
       end.

(** [key in x] for a [str] key: membership in a dict's keys, in a list's
    elements, or as a substring of a str; a [TypeError] on anything else. *)
Definition contains (key : string) (x : json) : Result bool :=
  match x with
  | JObj kvs => Ok (match assoc key kvs with Some _ => true | None => false end)
  | JArr xs => Ok (existsb (fun v => is_str v key) xs)
  | JStr s => Ok (str_contains key s)
  | _ => Raise TypeError
  end.

(** [x[key]] for a [str] key. *)
Definition getitem (x : json) (key : string) : Result json :=
  match x with
  | JObj kvs => match assoc key kvs with
                | Some v => Ok v
                | None => Raise KeyError
                end
  | _ => Raise TypeError
  end.

(** [x.get(key, default)] *)
Definition dict_get (x : json) (key : string) (default : json) : Result json :=
  match x with
  | JObj kvs => Ok (match assoc key kvs with Some v => v | None => default end)
  | _ => Raise AttributeError
  end.

(** [int(x)] on a float, given by its exact value: truncation toward
    zero. *)
Definition py_int (q : Q) : Z := Z.quot (Qnum q) (Zpos (Qden q)).

End Py.
Export Py.

(* ===================================================================== *)
(** ** Float arithmetic *)
(* ===================================================================== *)

(** A Python [float] is an IEEE 754 binary64 number.  A finite one is
    carried by its exact value, a rational; [-] and [*] compute the exact
    result and round it to the nearest binary64 value, ties to the even
    mantissa, with gradual underflow.  Overflow to infinity is left out:
    the floats of the program are readings of [time.time()], their
    differences and their products with 1000. *)
Module Binary64.
Local Open Scope Z_scope.

(** [n / d] rounded to the nearest integer, ties to even; [0 <= n]. *)
Definition round_half_even (n : Z) (d : positive) : Z :=
  let q := n / Zpos d in
  let r := n mod Zpos d in
  match 2 * r ?= Zpos d with
  | Lt => q
  | Gt => q + 1
  | Eq => if Z.even q then q else q + 1
  end.

(** The integer part of the binary logarithm of [n / d]; [0 < n]. *)
Definition floor_log2 (n : Z) (d : positive) : Z :=
  let k := Z.log2 n - Z.log2 (Zpos d) in
  if (if 0 <=? k then Zpos d * 2 ^ k <=? n else Zpos d <=? n * 2 ^ (- k))
  then k else k - 1.

(** [n / d] rounded to a mantissa of 53 bits at an exponent that is not
    below -1074; [0 < n]. *)
Definition round_abs (n : Z) (d : positive) : Q :=
  let e := Z.max (floor_log2 n d - 52) (-1074) in
  if 0 <=? e
  then (round_half_even n (d * Z.to_pos (2 ^ e)) * 2 ^ e) # 1
  else round_half_even (n * 2 ^ (- e)) d # Z.to_pos (2 ^ (- e)).

Definition round (q : Q) : Q :=
  match Qnum q with
  | Z0 => 0 # 1
  | Zpos n => round_abs (Zpos n) (Qden q)
  | Zneg n => Qopp (round_abs (Zpos n) (Qden q))
  end.

(** [x - y] and [x * y] on floats. *)
Definition sub (x y : Q) : Q := round (Qminus x y).
Definition mul (x y : Q) : Q := round (Qmult x y).

End Binary64.

(* ===================================================================== *)
(** ** Library functions *)
(* ===================================================================== *)

(** [base64.b64encode(bs).decode('utf-8')] *)
Module Base64.

Definition alphabet : string :=
  "ABCDEFGHIJKLMNOPQRSTUVWXYZabcdefghijklmnopqrstuvwxyz0123456789+/".

Definition digit (n : N) : ascii :=
  match String.get (N.to_nat n) alphabet with
  | Some c => c
  | None => "="%char
  end.

Definition pad : ascii := "="%char.

Fixpoint b64encode (bs : list byte) : string :=
  match bs with
  | [] => ""
  | [a] =>
      let x := Byte.to_N a in
      String (digit (x / 4)) (String (digit ((x mod 4) * 16)) (String pad (String pad "")))
  | [a; b] =>
      let x := Byte.to_N a in
      let y := Byte.to_N b in
      String (digit (x / 4))
        (String (digit ((x mod 4) * 16 + y / 16))
           (String (digit ((y mod 16) * 4)) (String pad "")))
  | a :: b :: c :: rest =>
      let x := Byte.to_N a in
      let y := Byte.to_N b in
      let z := Byte.to_N c in
      String (digit (x / 4))
        (String (digit ((x mod 4) * 16 + y / 16))
           (String (digit ((y mod 16) * 4 + z / 64))
              (String (digit (z mod 64)) (b64encode rest))))
  end%N.

End Base64.

(** The remaining library functions are parameters of the model: parsing
    and printing JSON, decoding bytes as UTF-8, decoding base64, [str()]
    of a value and [str.lower()].  [None] stands for the library's
    exception. *)
Class PyLib := {
  json_loads : string -> option json;
  json_dumps : json -> string;
  bytes_decode : list byte -> option string;
  str_encode : string -> list byte;
  b64decode : string -> option (list byte);
  py_str : json -> string;
  py_lower : string -> string
}.

Section LibraryCalls.
Context {L : PyLib}.

(** [json.loads(v)]: a [TypeError] unless [v] is a [str]. *)
Definition loads_value (v : json) : Result json :=
  match v with
  | JStr s => match json_loads s with
              | Some j => Ok j
              | None => Raise JSONDecodeError
              end
  | _ => Raise TypeError
  end.

(** [base64.b64decode(v)] *)
Definition b64decode_value (v : json) : Result (list byte) :=
  match v with
  | JStr s => match b64decode s with
              | Some bs => Ok bs
              | None => Raise binascii_Error
              end
  | _ => Raise TypeError
  end.

(** [bs.decode('utf-8')] *)
Definition decode_utf8 (bs : list byte) : Result string :=
  match bytes_decode bs with
  | Some s => Ok s
  | None => Raise UnicodeDecodeError
  end.

(** [x.lower()] exists on [str] only. *)
Definition str_lower (x : json) : Result json :=
  match x with
  | JStr s => Ok (JStr (py_lower s))
  | _ => Raise AttributeError
  end.
End LibraryCalls.

(* ===================================================================== *)
(** ** The outside world *)
(* ===================================================================== *)

(** Calls that return nothing: they either go through or raise. *)
Inductive Call :=
| OpenStream (model_id : string)
| TxSend (payload : list byte)
| WsAccept
| WsSendBytes (data : list byte)
| WsSendJson (msg : json)
| RedisSetex (key : string) (ttl : json) (value : string)
| RedisDelete (key : string)
| DbPutItem (table : string) (item : json)
| DbUpdateItem (table : string) (key : json) (values : json).

(** One entry of the history: a call with its outcome, a value read from
    the world, or a log line. *)
Inductive Effect :=
| Did (c : Call) (raised : option exn)
| GotUuid (u : string)
| GotTime (t : Q)
| GotRedis (key : string) (r : Result (option string))
| GotHttp (url : string) (headers body : json) (r : Result json)
| GotQuery (table session_id : string) (r : Result json)
| Logged (level msg : string).

Definition History := list Effect.

(** The world's answers, each a function of everything that happened so
    far.  [http_post] stands for [httpx.post] followed by
    [raise_for_status()] and [.json()]. *)
Record Env := {
  raises : History -> Call -> option exn;
  uuid4 : History -> string;
  time_time : History -> Q;
  redis_get : History -> string -> Result (option string);
  http_post : History -> string -> json -> json -> Result json;
  db_query : History -> string -> string -> Result json
}.

(** [app/config.py] *)
Record Settings := {
  aws_region : string;
  bedrock_model_id : string;
  bedrock_voice : string;
  gateway_mcp_url : string;
  oauth_client_id : string;
  oauth_client_secret : string;
  oauth_token_url : string;
  dynamodb_sessions_table : string;
  dynamodb_messages_table : string;
  dynamodb_tools_table : string;
  session_ttl_hours : Z
}.

(** The defaults of [Settings]; the four gateway fields have none. *)
Definition default_settings (mcp_url client_id client_secret token_url : string) : Settings :=
  {| aws_region := "us-east-1";
     bedrock_model_id := "amazon.nova-sonic-v1:0";
     bedrock_voice := "tiffany";
     gateway_mcp_url := mcp_url;
     oauth_client_id := client_id;
     oauth_client_secret := client_secret;
     oauth_token_url := token_url;
     dynamodb_sessions_table := "RobinSessions";
     dynamodb_messages_table := "RobinSessionMessages";
     dynamodb_tools_table := "RobinToolCalls";
     session_ttl_hours := 24 |}.

(* ===================================================================== *)
(** ** The monad of coroutines *)
(* ===================================================================== *)

Definition M (A : Type) : Type := History -> Result A * History.

Definition ret {A} (a : A) : M A := fun h => (Ok a, h).

Definition raise {A} (e : exn) : M A := fun h => (Raise e, h).

Definition bind {A B} (m : M A) (k : A -> M B) : M B :=
  fun h =>
    match m h with
    | (Ok a, h') => k a h'
    | (Raise e, h') => (Raise e, h')
    end.

Definition lift {A} (r : Result A) : M A := fun h => (r, h).

(** [try: body / except Exception as e: handler e] *)
Definition try_except {A} (body : M A) (handler : exn -> M A) : M A :=
  fun h =>
    match body h with
    | (Ok a, h') => (Ok a, h')
    | (Raise e, h') => handler e h'
    end.

(** [try: body / finally: cleanup]: an exception of [cleanup] replaces
    the outcome of [body]. *)
Definition try_finally {A} (body : M A) (cleanup : M unit) : M A :=
  fun h =>
    match body h with
    | (r, h') =>
        match cleanup h' with
        | (Ok _, h'') => (r, h'')
        | (Raise e, h'') => (Raise e, h'')
        end
    end.

Declare Scope py_scope.
Delimit Scope py_scope with py.
Notation "x <- m ;; k" := (bind m (fun x => k))
  (at level 100, m at next level, right associativity) : py_scope.
Notation "m ;; k" := (bind m (fun _ => k))
  (at level 100, right associativity) : py_scope.
Local Open Scope py_scope.

Section World.
Context {L : PyLib} (E : Env) (settings : Settings).

Definition call (c : Call) : M unit :=
  fun h =>
    match raises E h c with
    | None => (Ok tt, h ++ [Did c None])
    | Some e => (Raise e, h ++ [Did c (Some e)])
    end.

(** [str(uuid.uuid4())] *)
Definition str_uuid4 : M string :=
  fun h => let u := uuid4 E h in (Ok u, h ++ [GotUuid u]).

(** [time.time()] *)
Definition time : M Q :=
  fun h => let t := time_time E h in (Ok t, h ++ [GotTime t]).

Definition logger_info (msg : string) : M unit :=
  fun h => (Ok tt, h ++ [Logged "info" msg]).

Definition logger_error (msg : string) : M unit :=
  fun h => (Ok tt, h ++ [Logged "error" msg]).

Definition client_get (key : string) : M (option string) :=
  fun h => let r := redis_get E h key in (r, h ++ [GotRedis key r]).

Definition httpx_post (url : string) (headers body : json) : M json :=
  fun h => let r := http_post E h url headers body in (r, h ++ [GotHttp url headers body r]).

Definition table_query (table session_id : string) : M json :=
  fun h => let r := db_query E h table session_id in (r, h ++ [GotQuery table session_id r]).

(* ------------------------------------------------------------------- *)
(** *** [app/services/redis_cache.py] *)

Definition cache_get (key : string) : M json :=
  try_except
    (value <- client_get key ;;
     match value with
     | Some s => if negb (s =? "")
                 then lift (loads_value (JStr s))
                 else ret JNull
     | None => ret JNull
     end)
    (fun e => logger_error "Redis get error" ;; ret JNull).

Definition cache_set (key : string) (value : json) (ttl_seconds : json) : M bool :=
  try_except
    (call (RedisSetex key ttl_seconds (json_dumps value)) ;; ret true)
    (fun e => logger_error "Redis set error" ;; ret false).

Definition cache_delete (key : string) : M bool :=
  try_except
    (call (RedisDelete key) ;; ret true)
    (fun e => logger_error "Redis delete error" ;; ret false).

(* ------------------------------------------------------------------- *)
(** *** [app/services/gateway.py] *)

(** [v - k] for an integer [k] *)
Definition sub_int (v : json) (k : Z) : Result json :=
  match v with
  | JInt n => Ok (JInt (n - k))
  | JBool b => Ok (JInt ((if b then 1 else 0) - k))
  | JFloat m scale => Ok (JFloat (m - k * 10 ^ Z.of_nat scale) scale)
  | _ => Raise TypeError
  end.

(** [len(v)] *)
Definition len (v : json) : Result Z :=
  match v with
  | JArr xs => Ok (Z.of_nat (List.length xs))
  | JObj kvs => Ok (Z.of_nat (List.length kvs))
  | JStr s => Ok (Z.of_nat (String.length s))
  | _ => Raise TypeError
  end.

Fixpoint chars (s : string) : list json :=
  match s with
  | EmptyString => []
  | String c rest => JStr (String c EmptyString) :: chars rest
  end.

(** The elements [for x in v] visits. *)
Definition iter (v : json) : Result (list json) :=
  match v with
  | JArr xs => Ok xs
  | JObj kvs => Ok (map (fun kv => JStr (fst kv)) kvs)
  | JStr s => Ok (chars s)
  | _ => Raise TypeError
  end.

Definition _get_oauth_token : M json :=
  cached_token <- cache_get "gateway_oauth_token" ;;
  if truthy cached_token then ret cached_token
  else
    try_except
      (token_data <- httpx_post (oauth_token_url settings)
          (JObj [("Content-Type", JStr "application/x-www-form-urlencoded")])
          (JObj [("grant_type", JStr "client_credentials");
                 ("client_id", JStr (oauth_client_id settings));
                 ("client_secret", JStr (oauth_client_secret settings))]) ;;
       access_token <- lift (getitem token_data "access_token") ;;
       expires_in <- lift (dict_get token_data "expires_in" (JInt 3600)) ;;
       ttl <- lift (sub_int expires_in 300) ;;
       cache_set "gateway_oauth_token" access_token ttl ;;
       logger_info "OAuth token obtained" ;;
       ret access_token)
      (fun e => logger_error "OAuth token fetch failed" ;; raise e).

Definition _call_mcp (method : string) (params : json) : M json :=
  token <- _get_oauth_token ;;
  now <- time ;;
  let payload :=
    JObj [("jsonrpc", JStr "2.0");
          ("method", JStr method);
          ("params", if truthy params then params else JObj []);
          ("id", JInt (py_int (Binary64.mul now (1000 # 1))))] in
  let headers :=
    JObj [("Authorization", JStr ("Bearer " ++ py_str token));
          ("Content-Type", JStr "application/json")] in
  try_except
    (result <- httpx_post (gateway_mcp_url settings) headers payload ;;
     has_error <- lift (contains "error" result) ;;
     if has_error : bool then
       logger_error "MCP error" ;;
       err <- lift (getitem result "error") ;;
       raise (Exception ("MCP error: " ++ py_str err))
     else
       lift (dict_get result "result" (JObj [])))
    (fun e => logger_error "MCP call failed" ;; raise e).

Definition list_tools : M json :=
  cached_tools <- cache_get "gateway_tools_list" ;;
  if truthy cached_tools then ret cached_tools
  else
    result <- _call_mcp "tools/list" JNull ;;
    tools <- lift (dict_get result "tools" (JArr [])) ;;
    cache_set "gateway_tools_list" tools (JInt 3600) ;;
    count <- lift (len tools) ;;
    logger_info "Tools listed" ;;
    ret tools.

(** The latency both branches of [invoke_tool] compute:
    [int((time.time() - start_time) * 1000)]. *)
Definition latency_ms_of (start_time end_time : Q) : Z :=
  py_int (Binary64.mul (Binary64.sub end_time start_time) (1000 # 1)).

Definition invoke_tool (tool_name : json) (arguments : json) : M json :=
  start_time <- time ;;
  try_except
    (result <- _call_mcp "tools/invoke"
                 (JObj [("name", tool_name); ("arguments", arguments)]) ;;
     end_time <- time ;;
     let latency_ms := latency_ms_of start_time end_time in
     logger_info "Tool invoked" ;;
     ret (JObj [("success", JBool true);
                ("result", result);
                ("latency_ms", JInt latency_ms)]))
    (fun e =>
       end_time <- time ;;
       let latency_ms := latency_ms_of start_time end_time in
       logger_error "Tool invocation failed" ;;
       ret (JObj [("success", JBool false);
                  ("error", JStr (str_exn e));
                  ("latency_ms", JInt latency_ms)])).

Definition bedrock_tool (tool : json) : Result json :=
  match getitem tool "name" with
  | Raise e => Raise e
  | Ok name =>
      match dict_get tool "description" (JStr "") with
      | Raise e => Raise e
      | Ok description =>
          match dict_get tool "inputSchema" (JObj []) with
          | Raise e => Raise e
          | Ok schema =>
              Ok (JObj [("toolSpec",
                         JObj [("name", name);
                               ("description", description);
                               ("inputSchema", JObj [("json", schema)])])])
          end
      end
  end.

Fixpoint bedrock_tools (tools : list json) : Result (list json) :=
  match tools with
  | [] => Ok []
  | tool :: rest =>
      match bedrock_tool tool with
      | Raise e => Raise e
      | Ok t => match bedrock_tools rest with
                | Raise e => Raise e
                | Ok ts => Ok (t :: ts)
                end
      end
  end.

Definition get_tool_definitions : M json :=
  tools <- list_tools ;;
  items <- lift (iter tools) ;;
  converted <- lift (bedrock_tools items) ;;
  ret (JArr converted).

(* ------------------------------------------------------------------- *)
(** *** [app/services/dynamodb.py] *)

(** [items[0]] *)
Definition first_item (items : json) : Result json :=
  match items with
  | JArr (x :: _) => Ok x
  | JArr [] => Raise (Exception "IndexError")
  | JStr (String c _) => Ok (JStr (String c EmptyString))
  | JStr EmptyString => Raise (Exception "IndexError")
  | JObj _ => Raise KeyError
  | _ => Raise TypeError
  end.

Definition get_session (session_id : string) : M json :=
  try_except
    (response <- table_query (dynamodb_sessions_table settings) session_id ;;
     items <- lift (dict_get response "Items" (JArr [])) ;;
     if truthy items then lift (first_item items) else ret JNull)
    (fun e => logger_error "Get session error" ;; ret JNull).

Definition update_session_state (session_id state : string) : M unit :=
  session <- get_session session_id ;;
  start_time <- lift (getitem session "start_time") ;;
  now <- time ;;
  call (DbUpdateItem (dynamodb_sessions_table settings)
          (JObj [("session_id", JStr session_id); ("start_time", start_time)])
          (JObj [(":state", JStr state);
                 (":ts", JInt (py_int (Binary64.mul now (1000 # 1))))])).

Definition add_message (session_id : string) (role text tool_call : json) : M unit :=
  t1 <- time ;;
  let ts_message := py_int (Binary64.mul t1 (1000 # 1)) in
  t2 <- time ;;
  let expires_at := (py_int t2 + session_ttl_hours settings * 3600)%Z in
  let item :=
    [("session_id", JStr session_id);
     ("ts_message", JInt ts_message);
     ("role", role);
     ("text", text);
     ("expires_at", JInt expires_at)] in
  let item := if truthy tool_call then item ++ [("tool_call", tool_call)] else item in
  call (DbPutItem (dynamodb_messages_table settings) (JObj item)).

Definition add_tool_call (session_id : string) (tool_name input_data output_data : json)
    (latency_ms : json) (status : string) : M unit :=
  t1 <- time ;;
  let ts_toolcall := py_int (Binary64.mul t1 (1000 # 1)) in
  t2 <- time ;;
  let expires_at := (py_int t2 + session_ttl_hours settings * 3600)%Z in
  call (DbPutItem (dynamodb_tools_table settings)
          (JObj [("session_id", JStr session_id);
                 ("ts_toolcall", JInt ts_toolcall);
                 ("tool_name", tool_name);
                 ("input", input_data);
                 ("output", output_data);
                 ("latency_ms", latency_ms);
                 ("status", JStr status);
                 ("expires_at", JInt expires_at)])).

(* ------------------------------------------------------------------- *)
(** *** [app/services/bedrock_streaming.py]: the lifecycle events *)

Definition dq : string := String (ascii_of_nat 34) EmptyString.

Definition get_system_prompt : string :=
  "You are Robin, an AI voice assistant for enterprise productivity.

You help users manage their Gmail, Google Calendar, and Slack through natural conversation.

Core Capabilities:
- Email: Search, read, compose, and send emails via Gmail
- Calendar: Query schedule, create events, update meetings
- Slack: Send messages, search conversations, list channels

Personality:
- Professional but friendly
- Concise and action-oriented
- Proactive in suggesting next steps
- Clear about what you're doing (announce tool usage)

Guidelines:
- Always confirm before sending emails or messages
- Announce when you're checking emails, calendar, or Slack
- Provide clear summaries of results
- Ask clarifying questions if intent is unclear
- Be conversational and natural in speech

When using tools:
1. Announce what you're doing: " ++ dq ++ "Let me check your emails..." ++ dq ++ "
2. Execute the tool
3. Summarize results clearly
4. Suggest next actions if relevant

Remember: You communicate through voice. Keep responses concise and natural for spoken conversation.".

Definition event (kind : string) (body : json) : json :=
  JObj [("event", JObj [(kind, body)])].

Definition session_start_event : json :=
  event "sessionStart"
    (JObj [("inferenceConfiguration",
            JObj [("maxTokens", JInt 1024);
                  ("topP", JFloat 9 1);
                  ("temperature", JFloat 7 1)])]).

Definition prompt_start_event (prompt_name : string) (tools : json) : json :=
  event "promptStart"
    (JObj [("promptName", JStr prompt_name);
           ("textOutputConfiguration", JObj [("mediaType", JStr "text/plain")]);
           ("audioOutputConfiguration",
            JObj [("mediaType", JStr "audio/lpcm");
                  ("sampleRateHertz", JInt 24000);
                  ("sampleSizeBits", JInt 16);
                  ("channelCount", JInt 1);
                  ("voiceId", JStr (bedrock_voice settings));
                  ("encoding", JStr "base64");
                  ("audioType", JStr "SPEECH")]);
           ("toolUseOutputConfiguration", JObj [("mediaType", JStr "application/json")]);
           ("toolConfiguration", JObj [("tools", tools)])]).

Definition text_content_start_event (prompt_name content_name : string) : json :=
  event "contentStart"
    (JObj [("promptName", JStr prompt_name);
           ("contentName", JStr content_name);
           ("type", JStr "TEXT");
           ("role", JStr "SYSTEM");
           ("interactive", JBool true);
           ("textInputConfiguration", JObj [("mediaType", JStr "text/plain")])]).

Definition text_input_event (prompt_name content_name content : string) : json :=
  event "textInput"
    (JObj [("promptName", JStr prompt_name);
           ("contentName", JStr content_name);
           ("content", JStr content)]).

Definition content_end_event (prompt_name content_name : string) : json :=
  event "contentEnd"
    (JObj [("promptName", JStr prompt_name);
           ("contentName", JStr content_name)]).

Definition audio_content_start_event (prompt_name content_name : string) : json :=
  event "contentStart"
    (JObj [("promptName", JStr prompt_name);
           ("contentName", JStr content_name);
           ("type", JStr "AUDIO");
           ("interactive", JBool true);
           ("role", JStr "USER");
           ("audioInputConfiguration",
            JObj [("mediaType", JStr "audio/lpcm");
                  ("sampleRateHertz", JInt 16000);
                  ("sampleSizeBits", JInt 16);
                  ("channelCount", JInt 1);
                  ("audioType", JStr "SPEECH");
                  ("encoding", JStr "base64")])]).

Definition audio_input_event (prompt_name content_name audio_b64 : string) : json :=
  event "audioInput"
    (JObj [("promptName", JStr prompt_name);
           ("contentName", JStr content_name);
           ("content", JStr audio_b64)]).

Definition tool_content_start_event (prompt_name content_name : string) (tool_use_id : json) : json :=
  event "contentStart"
    (JObj [("promptName", JStr prompt_name);
           ("contentName", JStr content_name);
           ("interactive", JBool false);
           ("type", JStr "TOOL");
           ("role", JStr "TOOL");
           ("toolResultInputConfiguration",
            JObj [("toolUseId", tool_use_id);
                  ("type", JStr "TEXT");
                  ("textInputConfiguration", JObj [("mediaType", JStr "text/plain")])])]).

Definition tool_result_event (prompt_name content_name : string) (result : json) : json :=
  event "toolResult"
    (JObj [("promptName", JStr prompt_name);
           ("contentName", JStr content_name);
           ("content", JStr (json_dumps result))]).

Definition prompt_end_event (prompt_name : string) : json :=
  event "promptEnd" (JObj [("promptName", JStr prompt_name)]).

Definition session_end_event : json :=
  event "sessionEnd" (JObj []).

(* ------------------------------------------------------------------- *)
(** *** [BedrockStreaming]: sending *)

Definition _send_raw_event (event_json : string) : M unit :=
  call (TxSend (str_encode event_json)).

Definition _send_session_start : M unit :=
  _send_raw_event (json_dumps session_start_event).

Definition _send_prompt_start (prompt_name : string) (tools : json) : M unit :=
  _send_raw_event (json_dumps (prompt_start_event prompt_name tools)).

Definition _send_system_prompt (prompt_name content_name : string) : M unit :=
  _send_raw_event (json_dumps (text_content_start_event prompt_name content_name)) ;;
  _send_raw_event (json_dumps (text_input_event prompt_name content_name get_system_prompt)) ;;
  _send_raw_event (json_dumps (content_end_event prompt_name content_name)).

Definition _send_audio_content_start (prompt_name content_name : string) : M unit :=
  _send_raw_event (json_dumps (audio_content_start_event prompt_name content_name)).

Definition _send_tool_result (prompt_name content_name : string) (tool_use_id result : json) : M unit :=
  _send_raw_event (json_dumps (tool_content_start_event prompt_name content_name tool_use_id)) ;;
  _send_raw_event (json_dumps (tool_result_event prompt_name content_name result)) ;;
  _send_raw_event (json_dumps (content_end_event prompt_name content_name)).

Definition _send_audio_content_end (prompt_name content_name : string) : M unit :=
  _send_raw_event (json_dumps (content_end_event prompt_name content_name)).

Definition _send_prompt_end (prompt_name : string) : M unit :=
  _send_raw_event (json_dumps (prompt_end_event prompt_name)).

Definition _send_session_end : M unit :=
  _send_raw_event (json_dumps session_end_event).

(* ------------------------------------------------------------------- *)
(** *** The client's frames and the generator [audio_input_stream] *)

(** What [websocket.receive()] returns: a dict in which the keys
    ['bytes'] and ['text'] may be absent ([None]) or present with a value
    that may itself be Python's [None]. *)
Record WsMessage := {
  ws_bytes : option (option (list byte));
  ws_text : option (option string)
}.

Inductive WsIn :=
| WsData (data : WsMessage)
| WsRaises (e : exn).

Definition binary_frame (bs : list byte) : WsIn :=
  WsData {| ws_bytes := Some (Some bs); ws_text := None |}.

Definition text_frame (s : string) : WsIn :=
  WsData {| ws_bytes := None; ws_text := Some (Some s) |}.

(** An async generator, as the steps its consumer observes. *)
Inductive AsyncGen :=
| GenYield (chunk : option (list byte)) (next : AsyncGen)
| GenLog (msg : string) (next : AsyncGen)
| GenStop.

(** [control = json.loads(data['text']); control.get('type') == 'end'] *)
Definition is_end_control (text : option string) : Result bool :=
  match text with
  | None => Raise TypeError
  | Some s =>
      match loads_value (JStr s) with
      | Raise e => Raise e
      | Ok control =>
          match dict_get control "type" JNull with
          | Raise e => Raise e
          | Ok ty => Ok (is_str ty "end")
          end
      end
  end.

(** The generator defined inside [handle_audio_stream], run on the
    frames the client will deliver; past the end of the script the
    socket is closed and [receive()] raises. *)
Fixpoint audio_input_stream (client_in : list WsIn) : AsyncGen :=
  match client_in with
  | [] => GenLog "Audio receive error" GenStop
  | WsRaises WebSocketDisconnect :: _ => GenStop
  | WsRaises _ :: _ => GenLog "Audio receive error" GenStop
  | WsData data :: rest =>
      match ws_bytes data with
      | Some chunk => GenYield chunk (audio_input_stream rest)
      | None =>
          match ws_text data with
          | Some text =>
              match is_end_control text with
              | Ok true => GenStop
              | Ok false => audio_input_stream rest
              | Raise WebSocketDisconnect => GenStop
              | Raise _ => GenLog "Audio receive error" GenStop
              end
          | None => audio_input_stream rest
          end
      end
  end.

(* ------------------------------------------------------------------- *)
(** *** [BedrockStreaming._process_audio_input] *)

(** The body of the [async for]. *)
Definition forward_audio_chunk (audio_chunk : option (list byte))
    (prompt_name content_name : string) : M unit :=
  match audio_chunk with
  | Some (b :: bs) =>
      let audio_b64 := Base64.b64encode (b :: bs) in
      _send_raw_event (json_dumps (audio_input_event prompt_name content_name audio_b64))
  | _ => ret tt
  end.

Fixpoint _process_audio_input (audio_stream : AsyncGen)
    (prompt_name content_name : string) : M unit :=
  match audio_stream with
  | GenStop => ret tt
  | GenLog msg next =>
      logger_error msg ;;
      _process_audio_input next prompt_name content_name
  | GenYield audio_chunk next =>
      forward_audio_chunk audio_chunk prompt_name content_name ;;
      _process_audio_input next prompt_name content_name
  end.

(* ------------------------------------------------------------------- *)
(** *** [BedrockStreaming._process_output_events] *)

(** The three locals [tool_use_id], [tool_name], [tool_content];
    [JNull] is Python's [None]. *)
Record ToolUseState := {
  tool_use_id : json;
  tool_name : json;
  tool_content : json
}.

Definition no_tool : ToolUseState :=
  {| tool_use_id := JNull; tool_name := JNull; tool_content := JNull |}.

(** What one turn of the loop gets from
    [await stream_response.await_output()] and [.receive()]: an
    exception, or a result whose [value.bytes_] may be missing. *)
Inductive ModelOutput :=
| OutRaises (e : exn)
| OutResult (bytes_ : option (list byte)).

Inductive Ctl := Continue | Break.

(** [# Audio output] *)
Definition on_audio_output (event : json) : M unit :=
  audio <- lift (getitem event "audioOutput") ;;
  audio_b64 <- lift (getitem audio "content") ;;
  audio_bytes <- lift (b64decode_value audio_b64) ;;
  call (WsSendBytes audio_bytes).

(** [# Tool use] *)
Definition on_tool_use (event : json) : M ToolUseState :=
  tool_use <- lift (getitem event "toolUse") ;;
  tool_use_id <- lift (getitem tool_use "toolUseId") ;;
  tool_name <- lift (getitem tool_use "toolName") ;;
  let tool_content := tool_use in
  logger_info "Tool use detected" ;;
  content <- lift (dict_get tool_content "content" (JStr "{}")) ;;
  input <- lift (loads_value content) ;;
  call (WsSendJson (JObj [("type", JStr "tool_call_start");
                            ("tool", tool_name);
                            ("input", input)])) ;;
  ret {| tool_use_id := tool_use_id; tool_name := tool_name; tool_content := tool_content |}.

(** [result.get("result", {})], [result["latency_ms"]] and the status
    chosen from [result["success"]]. *)
Definition status_of (success : json) : string :=
  if truthy success then "success" else "failed".

(** [# Content end with tool] *)
Definition on_tool_content_end (session_id prompt_name : string) (st : ToolUseState) : M unit :=
  if andb (truthy (tool_name st)) (truthy (tool_content st)) then
    content <- lift (dict_get (tool_content st) "content" (JStr "{}")) ;;
    tool_input <- lift (loads_value content) ;;
    result <- invoke_tool (tool_name st) tool_input ;;
    output_data <- lift (dict_get result "result" (JObj [])) ;;
    latency_ms <- lift (getitem result "latency_ms") ;;
    success <- lift (getitem result "success") ;;
    add_tool_call session_id (tool_name st) tool_input output_data
      latency_ms (status_of success) ;;
    tool_result_content_name <- str_uuid4 ;;
    model_result <- lift (dict_get result "result" (JObj [])) ;;
    _send_tool_result prompt_name tool_result_content_name (tool_use_id st) model_result ;;
    client_result <- lift (dict_get result "result" (JObj [])) ;;
    client_latency <- lift (getitem result "latency_ms") ;;
    call (WsSendJson (JObj [("type", JStr "tool_call_end");
                              ("tool", tool_name st);
                              ("result", client_result);
                              ("latency_ms", client_latency)]))
  else ret tt.

(** [# Text output] *)
Definition on_text_output (session_id : string) (event : json) : M unit :=
  text_output <- lift (getitem event "textOutput") ;;
  text <- lift (getitem text_output "content") ;;
  role <- lift (getitem text_output "role") ;;
  role_lower <- lift (str_lower role) ;;
  add_message session_id role_lower text JNull.

(** ['contentEnd' in event and event['contentEnd'].get('type') == 'TOOL'] *)
Definition is_tool_content_end (event : json) : Result bool :=
  match contains "contentEnd" event with
  | Raise e => Raise e
  | Ok false => Ok false
  | Ok true =>
      match getitem event "contentEnd" with
      | Raise e => Raise e
      | Ok content_end =>
          match dict_get content_end "type" JNull with
          | Raise e => Raise e
          | Ok ty => Ok (is_str ty "TOOL")
          end
      end
  end.

(** The [if]/[elif] chain on a decoded event. *)
Definition dispatch_event (session_id prompt_name : string) (st : ToolUseState)
    (event : json) : M (Ctl * ToolUseState) :=
  is_audio <- lift (contains "audioOutput" event) ;;
  if is_audio : bool then on_audio_output event ;; ret (Continue, st)
  else
    is_tool_use <- lift (contains "toolUse" event) ;;
    if is_tool_use : bool then st' <- on_tool_use event ;; ret (Continue, st')
    else
      is_tool_end <- lift (is_tool_content_end event) ;;
      if is_tool_end : bool then
        on_tool_content_end session_id prompt_name st ;; ret (Continue, st)
      else
        is_text <- lift (contains "textOutput" event) ;;
        if is_text : bool then on_text_output session_id event ;; ret (Continue, st)
        else
          is_completion_end <- lift (contains "completionEnd" event) ;;
          if is_completion_end : bool then ret (Break, st)
          else ret (Continue, st).

(** The body of the [try] inside [while True]. *)
Definition process_output (session_id prompt_name : string) (st : ToolUseState)
    (output : ModelOutput) : M (Ctl * ToolUseState) :=
  match output with
  | OutRaises e => raise e
  | OutResult (Some (b :: bs)) =>
      response_data <- lift (decode_utf8 (b :: bs)) ;;
      json_data <- lift (loads_value (JStr response_data)) ;;
      has_event <- lift (contains "event" json_data) ;;
      if has_event : bool then
        event <- lift (getitem json_data "event") ;;
        dispatch_event session_id prompt_name st event
      else ret (Continue, st)
  | OutResult _ => ret (Continue, st)
  end.

(** One turn of [while True], with its two [except] clauses. *)
Definition output_iteration (session_id prompt_name : string) (st : ToolUseState)
    (output : ModelOutput) : M (Ctl * ToolUseState) :=
  try_except
    (process_output session_id prompt_name st output)
    (fun e =>
       match e with
       | StopAsyncIteration => ret (Break, st)
       | _ => logger_error "Output processing error" ;; ret (Break, st)
       end).

(** The loop, on the outputs the model stream will deliver; past the
    end of the script the stream is exhausted. *)
Fixpoint process_output_events_from (st : ToolUseState) (outputs : list ModelOutput)
    (session_id prompt_name : string) : M unit :=
  match outputs with
  | [] => ret tt
  | output :: rest =>
      r <- output_iteration session_id prompt_name st output ;;
      match r with
      | (Break, _) => ret tt
      | (Continue, st') => process_output_events_from st' rest session_id prompt_name
      end
  end.

Definition _process_output_events (outputs : list ModelOutput)
    (session_id prompt_name : string) : M unit :=
  process_output_events_from no_tool outputs session_id prompt_name.

(* ------------------------------------------------------------------- *)
(** *** [BedrockStreaming.stream_conversation] *)

(** [await asyncio.gather(input_task, output_task)]: the event loop
    interleaves the two tasks, one loop turn at a time, as the schedule
    says ([true]: the input task runs a turn).  A task that has
    finished leaves the other to run to its end; an exception of the
    input task is raised by [gather] at once, and the output task, which
    is cancelled in the [finally], runs no further.  When the schedule
    is used up the input task runs to its end, then the output task. *)
Fixpoint gather (schedule : list bool) (audio_stream : AsyncGen)
    (st : ToolUseState) (outputs : list ModelOutput)
    (session_id prompt_name audio_content_name : string) : M unit :=
  match schedule with
  | [] =>
      _process_audio_input audio_stream prompt_name audio_content_name ;;
      process_output_events_from st outputs session_id prompt_name
  | true :: schedule' =>
      match audio_stream with
      | GenStop => process_output_events_from st outputs session_id prompt_name
      | GenLog msg next =>
          logger_error msg ;;
          gather schedule' next st outputs session_id prompt_name audio_content_name
      | GenYield audio_chunk next =>
          forward_audio_chunk audio_chunk prompt_name audio_content_name ;;
          gather schedule' next st outputs session_id prompt_name audio_content_name
      end
  | false :: schedule' =>
      match outputs with
      | [] => _process_audio_input audio_stream prompt_name audio_content_name
      | output :: rest =>
          r <- output_iteration session_id prompt_name st output ;;
          match r with
          | (Break, _) => _process_audio_input audio_stream prompt_name audio_content_name
          | (Continue, st') =>
              gather schedule' audio_stream st' rest session_id prompt_name audio_content_name
          end
      end
  end.

(** The four sends before the two tasks are created. *)
Definition send_initialization (prompt_name content_name audio_content_name : string)
    (tools : json) : M unit :=
  _send_session_start ;;
  _send_prompt_start prompt_name tools ;;
  _send_system_prompt prompt_name content_name ;;
  _send_audio_content_start prompt_name audio_content_name.

(** The body of the [finally]. *)
Definition end_stream (prompt_name audio_content_name : string) : M unit :=
  _send_audio_content_end prompt_name audio_content_name ;;
  _send_prompt_end prompt_name ;;
  _send_session_end.

Definition stream_conversation (session_id : string) (audio_input_stream : AsyncGen)
    (outputs : list ModelOutput) (schedule : list bool) : M unit :=
  prompt_name <- str_uuid4 ;;
  content_name <- str_uuid4 ;;
  audio_content_name <- str_uuid4 ;;
  tools <- get_tool_definitions ;;
  call (OpenStream (bedrock_model_id settings)) ;;
  send_initialization prompt_name content_name audio_content_name tools ;;
  try_finally
    (try_except
       (gather schedule audio_input_stream no_tool outputs
          session_id prompt_name audio_content_name)
       (fun e => logger_error "Streaming error"))
    (end_stream prompt_name audio_content_name).

(* ------------------------------------------------------------------- *)
(** *** [app/api/websocket.py]: [WebSocketHandler.handle_audio_stream] *)

Definition session_active_key (session_id : string) : string :=
  "session_active:" ++ session_id.

Definition handle_audio_stream (session_id : string) (client_in : list WsIn)
    (outputs : list ModelOutput) (schedule : list bool) : M unit :=
  call WsAccept ;;
  logger_info "WebSocket connected" ;;
  cache_set (session_active_key session_id) (JBool true) (JInt 600) ;;
  try_finally
    (try_except
       (stream_conversation session_id (audio_input_stream client_in) outputs schedule)
       (fun e =>
          match e with
          | WebSocketDisconnect => logger_info "Client disconnected"
          | _ =>
              logger_error "WebSocket error" ;;
              call (WsSendJson (JObj [("type", JStr "error");
                                      ("message", JStr (str_exn e))]))
          end))
    (update_session_state session_id "ended" ;;
     cache_delete (session_active_key session_id) ;;
     logger_info "Session ended").

End World.


(* ===================================================================== *)
(** ** A reference instance of the library functions *)
(* ===================================================================== *)

(** Executable stand-ins for [json], [base64] and [bytes.decode], used to
    run the model on examples.  They follow CPython on ASCII text, on
    integers and on decimals without an exponent; the theorems below hold
    for every [PyLib]. *)
Module Ref.
Local Open Scope string_scope.

Definition quote : ascii := ascii_of_nat 34.
Definition backslash : ascii := ascii_of_nat 92.

Definition string_of_Z (n : Z) : string :=
  DecimalString.NilZero.string_of_int (Z.to_int n).

Fixpoint zeros (n : nat) : string :=
  match n with
  | O => ""
  | S k => String "0" (zeros k)
  end.

(** [repr] of the float [m * 10^-scale]. *)
Definition float_repr (m : Z) (scale : nat) : string :=
  let p := (10 ^ Z.of_nat scale)%Z in
  let a := Z.abs m in
  let whole := string_of_Z (a / p) in
  let frac := string_of_Z (a mod p) in
  let digits :=
    match scale with
    | O => "0"
    | _ => zeros (scale - String.length frac) ++ frac
    end in
  (if (m <? 0)%Z then "-" else "") ++ whole ++ "." ++ digits.

Definition hex_digit (n : nat) : ascii :=
  match String.get n "0123456789abcdef" with
  | Some c => c
  | None => "0"%char
  end.

Definition escape_char (c : ascii) : string :=
  let n := nat_of_ascii c in
  if (n =? 34)%nat then String backslash (String quote "")
  else if (n =? 92)%nat then String backslash (String backslash "")
  else if (n =? 10)%nat then String backslash "n"
  else if (n =? 13)%nat then String backslash "r"
  else if (n =? 9)%nat then String backslash "t"
  else if (n =? 8)%nat then String backslash "b"
  else if (n =? 12)%nat then String backslash "f"
  else if (n <? 32)%nat then
    String backslash ("u00" ++ String (hex_digit (n / 16)) (String (hex_digit (n mod 16)) ""))
  else String c "".

Fixpoint escape (s : string) : string :=
  match s with
  | EmptyString => ""
  | String c rest => escape_char c ++ escape rest
  end.

Definition quoted (s : string) : string :=
  String quote (escape s ++ String quote "").

(** [json.dumps] with its default separators. *)
Fixpoint dumps (j : json) : string :=
  match j with
  | JNull => "null"
  | JBool true => "true"
  | JBool false => "false"
  | JInt n => string_of_Z n
  | JFloat m scale => float_repr m scale
  | JStr s => quoted s
  | JArr xs =>
      "[" ++ (fix items (l : list json) : string :=
                match l with
                | [] => ""
                | x :: r => dumps x ++ match r with [] => "" | _ :: _ => ", " ++ items r end
                end) xs ++ "]"
  | JObj kvs =>
      "{" ++ (fix members (l : list (string * json)) : string :=
                match l with
                | [] => ""
                | (k, v) :: r =>
                    quoted k ++ ": " ++ dumps v
                    ++ match r with [] => "" | _ :: _ => ", " ++ members r end
                end) kvs ++ "}"
  end.

(** [str(v)]: a [str] is itself, anything else prints as its [repr]. *)
Fixpoint repr (j : json) : string :=
  match j with
  | JNull => "None"
  | JBool true => "True"
  | JBool false => "False"
  | JInt n => string_of_Z n
  | JFloat m scale => float_repr m scale
  | JStr s => "'" ++ s ++ "'"
  | JArr xs =>
      "[" ++ (fix items (l : list json) : string :=
                match l with
                | [] => ""
                | x :: r => repr x ++ match r with [] => "" | _ :: _ => ", " ++ items r end
                end) xs ++ "]"
  | JObj kvs =>
      "{" ++ (fix members (l : list (string * json)) : string :=
                match l with
                | [] => ""
                | (k, v) :: r =>
                    "'" ++ k ++ "': " ++ repr v
                    ++ match r with [] => "" | _ :: _ => ", " ++ members r end
                end) kvs ++ "}"
  end.

Definition str (j : json) : string :=
  match j with
  | JStr s => s
  | _ => repr j
  end.

(** *** Parsing *)

Definition is_ws (c : ascii) : bool :=
  let n := nat_of_ascii c in
  orb (orb (n =? 32)%nat (n =? 9)%nat) (orb (n =? 10)%nat (n =? 13)%nat).

Fixpoint skip_ws (s : string) : string :=
  match s with
  | String c rest => if is_ws c then skip_ws rest else s
  | EmptyString => s
  end.

Definition digit_value (c : ascii) : option Z :=
  let n := nat_of_ascii c in
  if andb (48 <=? n)%nat (n <=? 57)%nat then Some (Z.of_nat (n - 48)) else None.

(** Digits at the head of [s]: their value, their number, and the rest. *)
Fixpoint digits (acc : Z) (count : nat) (s : string) : Z * nat * string :=
  match s with
  | String c rest =>
      match digit_value c with
      | Some d => digits (acc * 10 + d) (S count) rest
      | None => (acc, count, s)
      end
  | EmptyString => (acc, count, s)
  end.

(** Drop the trailing zeros of a fraction. *)
Fixpoint normalize (fuel : nat) (m : Z) (scale : nat) : Z * nat :=
  match fuel, scale with
  | S f, S k => if (m mod 10 =? 0)%Z then normalize f (m / 10)%Z k else (m, scale)
  | _, _ => (m, scale)
  end.

Definition starts_with_zero (s : string) : bool :=
  match s with
  | String c _ => (nat_of_ascii c =? 48)%nat
  | EmptyString => false
  end.

Definition parse_number (negative : bool) (s : string) : option (json * string) :=
  match digits 0 0 s with
  | (_, O, _) => None
  | (whole, S n, rest) =>
      if andb (starts_with_zero s) (negb (n =? 0)%nat) then None
      else
        let sign := if negative then (-1)%Z else 1%Z in
        match rest with
        | String "." rest' =>
            match digits 0 0 rest' with
            | (_, O, _) => None
            | (frac, S k, rest'') =>
                match rest'' with
                | String "e" _ => None
                | String "E" _ => None
                | _ =>
                    let '(m, scale) :=
                      normalize (S k) (whole * 10 ^ Z.of_nat (S k) + frac) (S k) in
                    Some (JFloat (sign * m) scale, rest'')
                end
            end
        | String "e" _ => None
        | String "E" _ => None
        | _ => Some (JInt (sign * whole), rest)
        end
  end.

Definition unescape (c : ascii) : option ascii :=
  let n := nat_of_ascii c in
  if (n =? 34)%nat then Some quote
  else if (n =? 92)%nat then Some backslash
  else if (n =? 47)%nat then Some "/"%char
  else if (n =? 110)%nat then Some (ascii_of_nat 10)
  else if (n =? 114)%nat then Some (ascii_of_nat 13)
  else if (n =? 116)%nat then Some (ascii_of_nat 9)
  else if (n =? 98)%nat then Some (ascii_of_nat 8)
  else if (n =? 102)%nat then Some (ascii_of_nat 12)
  else None.

(** The text after an opening quote, up to the closing one. *)
Fixpoint parse_string (s : string) : option (string * string) :=
  match s with
  | EmptyString => None
  | String c rest =>
      let n := nat_of_ascii c in
      if (n =? 34)%nat then Some ("", rest)
      else if (n =? 92)%nat then
        match rest with
        | EmptyString => None
        | String e rest' =>
            match unescape e, parse_string rest' with
            | Some ch, Some (body, tail) => Some (String ch body, tail)
            | _, _ => None
            end
        end
      else if (n <? 32)%nat then None
      else
        match parse_string rest with
        | Some (body, tail) => Some (String c body, tail)
        | None => None
        end
  end.

(** [d[k] = v] on an insertion-ordered dict. *)
Fixpoint dict_set (kvs : list (string * json)) (k : string) (v : json) : list (string * json) :=
  match kvs with
  | [] => [(k, v)]
  | (k', v') :: rest => if k' =? k then (k', v) :: rest else (k', v') :: dict_set rest k v
  end.

Fixpoint parse_value (fuel : nat) (s : string) : option (json * string) :=
  match fuel with
  | O => None
  | S f =>
      match skip_ws s with
      | EmptyString => None
      | String c rest =>
          let n := nat_of_ascii c in
          if (n =? 123)%nat then
            match skip_ws rest with
            | String "}" tail => Some (JObj [], tail)
            | _ => parse_members f [] rest
            end
          else if (n =? 91)%nat then
            match skip_ws rest with
            | String "]" tail => Some (JArr [], tail)
            | _ => parse_elements f [] rest
            end
          else if (n =? 34)%nat then
            match parse_string rest with
            | Some (body, tail) => Some (JStr body, tail)
            | None => None
            end
          else if (n =? 45)%nat then parse_number true rest
          else if prefix "null" (String c rest) then Some (JNull, substring 4 (String.length rest) (String c rest))
          else if prefix "true" (String c rest) then Some (JBool true, substring 4 (String.length rest) (String c rest))
          else if prefix "false" (String c rest) then Some (JBool false, substring 5 (String.length rest) (String c rest))
          else parse_number false (String c rest)
      end
  end
with parse_elements (fuel : nat) (acc : list json) (s : string) : option (json * string) :=
  match fuel with
  | O => None
  | S f =>
      match parse_value f s with
      | None => None
      | Some (v, tail) =>
          match skip_ws tail with
          | String "," tail' => parse_elements f (acc ++ [v])%list tail'
          | String "]" tail' => Some (JArr (acc ++ [v])%list, tail')
          | _ => None
          end
      end
  end
with parse_members (fuel : nat) (acc : list (string * json)) (s : string) : option (json * string) :=
  match fuel with
  | O => None
  | S f =>
      match skip_ws s with
      | String c rest =>
          if (nat_of_ascii c =? 34)%nat then
            match parse_string rest with
            | None => None
            | Some (k, tail) =>
                match skip_ws tail with
                | String ":" tail' =>
                    match parse_value f tail' with
                    | None => None
                    | Some (v, tail'') =>
                        match skip_ws tail'' with
                        | String "," tail3 => parse_members f (dict_set acc k v) tail3
                        | String "}" tail3 => Some (JObj (dict_set acc k v), tail3)
                        | _ => None
                        end
                    end
                | _ => None
                end
            end
          else None
      | EmptyString => None
      end
  end.

Definition loads (s : string) : option json :=
  match parse_value (S (String.length s)) s with
  | Some (j, tail) =>
      match skip_ws tail with
      | EmptyString => Some j
      | String _ _ => None
      end
  | None => None
  end.

(** *** UTF-8 and base64 *)

Definition between (lo hi : N) (b : byte) : bool :=
  andb (lo <=? Byte.to_N b)%N (Byte.to_N b <=? hi)%N.

Definition continuation : byte -> bool := between 128 191.

(** Well-formed UTF-8, as the strict decoder accepts it. *)
Fixpoint utf8_valid (bs : list byte) : bool :=
  match bs with
  | [] => true
  | a :: rest =>
      if between 0 127 a then utf8_valid rest
      else
        match rest with
        | b :: rest2 =>
            if between 194 223 a then andb (continuation b) (utf8_valid rest2)
            else
              match rest2 with
              | c :: rest3 =>
                  let second :=
                    if between 224 224 a then between 160 191 b
                    else if between 237 237 a then between 128 159 b
                    else if between 225 239 a then continuation b
                    else false in
                  if second then andb (continuation c) (utf8_valid rest3)
                  else
                    match rest3 with
                    | d :: rest4 =>
                        let second4 :=
                          if between 240 240 a then between 144 191 b
                          else if between 244 244 a then between 128 143 b
                          else if between 241 243 a then continuation b
                          else false in
                        andb second4 (andb (continuation c) (andb (continuation d) (utf8_valid rest4)))
                    | [] => false
                    end
              | [] => false
              end
        | [] => false
        end
  end.

Definition decode (bs : list byte) : option string :=
  if utf8_valid bs then Some (string_of_list_byte bs) else None.

Fixpoint index_of (c : ascii) (s : string) (i : N) : option N :=
  match s with
  | EmptyString => None
  | String d rest => if Ascii.eqb c d then Some i else index_of c rest (i + 1)%N
  end.

Definition sextet (c : ascii) : option N := index_of c Base64.alphabet 0.

Definition byte_of (n : N) : byte :=
  match Byte.of_N (n mod 256) with
  | Some b => b
  | None => Byte.x00
  end.

(** Strict base64 decoding: groups of four characters, padding only at
    the end. *)
Fixpoint b64decode_strict (s : string) : option (list byte) :=
  match s with
  | EmptyString => Some []
  | String c1 (String c2 (String c3 (String c4 rest))) =>
      match sextet c1, sextet c2 with
      | Some a, Some b =>
          let first := byte_of (a * 4 + b / 16) in
          if andb (Ascii.eqb c3 Base64.pad) (Ascii.eqb c4 Base64.pad) then
            match rest with
            | EmptyString => Some [first]
            | String _ _ => None
            end
          else
            match sextet c3 with
            | None => None
            | Some c =>
                let second := byte_of ((b mod 16) * 16 + c / 4) in
                if Ascii.eqb c4 Base64.pad then
                  match rest with
                  | EmptyString => Some [first; second]
                  | String _ _ => None
                  end
                else
                  match sextet c4, b64decode_strict rest with
                  | Some d, Some tail =>
                      Some (first :: second :: byte_of ((c mod 4) * 64 + d) :: tail)
                  | _, _ => None
                  end
            end
      | _, _ => None
      end
  | _ => None
  end.

(** [str.lower()] on ASCII text. *)
Definition lower_ascii (c : ascii) : ascii :=
  let n := nat_of_ascii c in
  if andb (65 <=? n)%nat (n <=? 90)%nat then ascii_of_nat (n + 32) else c.

Fixpoint lower (s : string) : string :=
  match s with
  | EmptyString => EmptyString
  | String c rest => String (lower_ascii c) (lower rest)
  end.

#[export] Instance lib : PyLib := {|
  json_loads := loads;
  json_dumps := dumps;
  bytes_decode := decode;
  str_encode := list_byte_of_string;
  b64decode := b64decode_strict;
  py_str := str;
  py_lower := lower
|}.

End Ref.

(* ===================================================================== *)
(** ** Reading a history *)
(* ===================================================================== *)

(** Payloads that went out on the model transport, in order. *)
Definition tx_sent (h : History) : list (list byte) :=
  flat_map (fun e => match e with Did (TxSend p) None => [p] | _ => [] end) h.

(** Payloads whose send was attempted, whether or not it raised. *)
Definition tx_attempted (h : History) : list (list byte) :=
  flat_map (fun e => match e with Did (TxSend p) _ => [p] | _ => [] end) h.

(** JSON messages and binary frames delivered to the client. *)
Definition ws_json_sent (h : History) : list json :=
  flat_map (fun e => match e with Did (WsSendJson m) None => [m] | _ => [] end) h.

Definition ws_bytes_sent (h : History) : list (list byte) :=
  flat_map (fun e => match e with Did (WsSendBytes b) None => [b] | _ => [] end) h.

(** Items written with [put_item], with their table. *)
Definition db_put (h : History) : list (string * json) :=
  flat_map (fun e => match e with Did (DbPutItem t i) None => [(t, i)] | _ => [] end) h.

(** Calls of [redis.delete], attempted on a key. *)
Definition redis_deletes (h : History) : list string :=
  flat_map (fun e => match e with Did (RedisDelete k) _ => [k] | _ => [] end) h.

(** Requests posted to the gateway's MCP endpoint. *)
Definition http_posts (url : string) (h : History) : list json :=
  flat_map (fun e => match e with
                     | GotHttp u _ body _ => if u =? url then [body] else []
                     | _ => []
                     end) h.

(** Effects of the gateway client: Redis reads and writes of its cache,
    HTTP, the clock and the log. *)
Definition gateway_side (e : Effect) : Prop :=
  match e with
  | GotRedis _ _ | GotHttp _ _ _ _ | GotTime _ | Logged _ _ => True
  | Did (RedisSetex _ _ _) _ => True
  | _ => False
  end.

(** Everything but a [redis.delete]. *)
Definition keeps_marker (e : Effect) : Prop :=
  match e with
  | Did (RedisDelete _) _ => False
  | _ => True
  end.

(** Everything but a send on the model transport. *)
Definition off_transport (e : Effect) : Prop :=
  match e with
  | Did (TxSend _) _ => False
  | _ => True
  end.

(** [m] only appends to the history, and what it appends satisfies [P]. *)
Definition emits (P : Effect -> Prop) {A} (m : M A) : Prop :=
  forall h, exists t, snd (m h) = h ++ t /\ Forall P t.

(* ===================================================================== *)
(** ** Concrete worlds *)
(* ===================================================================== *)

Module Scenario.
Import Ref.

Definition settings0 : Settings :=
  default_settings "https://gateway.example/mcp" "client" "secret" "https://auth.example/token".

(** What the gateway and its token endpoint answer when all is well. *)
Definition http_ok : json :=
  JObj [("access_token", JStr "token");
        ("expires_in", JInt 3600);
        ("result", JObj [("tools", JArr []); ("answer", JInt 42)])].

Definition session_row : json :=
  JObj [("Items", JArr [JObj [("session_id", JStr "s1"); ("start_time", JInt 0)]])].

(** A world in which no call raises; the clock advances by a millisecond
    with every effect and identifiers are numbered by the history. *)
Definition quiet : Env := {|
  raises := fun _ _ => None;
  uuid4 := fun h => ("uuid-" ++ string_of_Z (Z.of_nat (List.length h)))%string;
  time_time := fun h => (Z.of_nat (List.length h) # 1000)%Q;
  redis_get := fun _ _ => Ok None;
  http_post := fun _ _ _ _ => Ok http_ok;
  db_query := fun _ _ _ => Ok session_row
|}.

(** The gateway's MCP endpoint is unreachable. *)
Definition gateway_down : Env := {|
  raises := raises quiet;
  uuid4 := uuid4 quiet;
  time_time := time_time quiet;
  redis_get := redis_get quiet;
  http_post := fun _ url _ _ =>
    if url =? gateway_mcp_url settings0 then Raise (Exception "ConnectError") else Ok http_ok;
  db_query := db_query quiet
|}.

(** The model transport stops accepting sends once [n] have gone out. *)
Definition transport_closes_after (n : nat) : Env := {|
  raises := fun h c =>
    match c with
    | TxSend _ => if (n <=? List.length (tx_sent h))%nat
                  then Some (Exception "stream closed") else None
    | _ => None
    end;
  uuid4 := uuid4 quiet;
  time_time := time_time quiet;
  redis_get := redis_get quiet;
  http_post := http_post quiet;
  db_query := db_query quiet
|}.

(** The sessions table has no row for the session. *)
Definition no_session_row : Env := {|
  raises := raises quiet;
  uuid4 := uuid4 quiet;
  time_time := time_time quiet;
  redis_get := redis_get quiet;
  http_post := http_post quiet;
  db_query := fun _ _ _ => Ok (JObj [("Items", JArr [])])
|}.

(** The wall clock reads 100 s until the first HTTP request has been made
    and 90 s afterwards: it was set back by ten seconds in between. *)
Definition clock_set_back : Env := {|
  raises := raises quiet;
  uuid4 := uuid4 quiet;
  time_time := fun h =>
    if existsb (fun e => match e with GotHttp _ _ _ _ => true | _ => false end) h
    then (90 # 1)%Q else (100 # 1)%Q;
  redis_get := redis_get quiet;
  http_post := http_post quiet;
  db_query := db_query quiet
|}.

(** A model output carrying the JSON text of an event. *)
Definition out_json (j : json) : ModelOutput :=
  OutResult (Some (list_byte_of_string (dumps j))).

Definition out_event (kind : string) (body : json) : ModelOutput :=
  out_json (JObj [("event", JObj [(kind, body)])]).

Definition tool_use_output (id name content : string) : ModelOutput :=
  out_event "toolUse"
    (JObj [("toolUseId", JStr id); ("toolName", JStr name); ("content", JStr content)]).

Definition tool_content_end_output : ModelOutput :=
  out_event "contentEnd" (JObj [("type", JStr "TOOL")]).

Definition audio_output (b64 : string) : ModelOutput :=
  out_event "audioOutput" (JObj [("content", JStr b64)]).

Definition completion_end_output : ModelOutput :=
  out_event "completionEnd" (JObj []).

Definition end_control : WsIn :=
  text_frame (dumps (JObj [("type", JStr "end")])).

End Scenario.

(* ===================================================================== *)
(** ** Vocabulary of the statements *)
(* ===================================================================== *)

(** The two shapes of the dict [invoke_tool] returns. *)
Definition tool_success (result : json) (latency_ms : Z) : json :=
  JObj [("success", JBool true); ("result", result); ("latency_ms", JInt latency_ms)].

Definition tool_failure (error : string) (latency_ms : Z) : json :=
  JObj [("success", JBool false); ("error", JStr error); ("latency_ms", JInt latency_ms)].

(** The persistence layer, the model transport and the client socket
    accept what a tool round trip hands them. *)
Definition accepts_round_trip (E : Env) : Prop :=
  forall h c,
    match c with
    | DbPutItem _ _ | TxSend _ | WsSendJson _ => raises E h c = None
    | _ => True
    end.

(** The model transport accepts every send. *)
Definition transport_accepts (E : Env) : Prop :=
  forall h payload, raises E h (TxSend payload) = None.

(** The event kinds that open and close a session, a prompt or a content
    block; [audioInput] and [toolResult] are the other two. *)
Definition lifecycle_kinds : list string :=
  ["sessionStart"; "promptStart"; "contentStart"; "textInput";
   "contentEnd"; "promptEnd"; "sessionEnd"].

(** The model stream opens and accepts every lifecycle event. *)
Definition accepts_lifecycle {L : PyLib} (E : Env) : Prop :=
  (forall h model_id, raises E h (OpenStream model_id) = None)
  /\ (forall h kind body, In kind lifecycle_kinds ->
        raises E h (TxSend (str_encode (json_dumps (event kind body)))) = None).

Definition wire {L : PyLib} (ev : json) : list byte := str_encode (json_dumps ev).

(** The six events of the handshake and the three of the teardown. *)
Definition handshake_events {L : PyLib} (settings : Settings)
    (prompt_name content_name audio_content_name : string) (tools : json) : list json :=
  [session_start_event;
   prompt_start_event settings prompt_name tools;
   text_content_start_event prompt_name content_name;
   text_input_event prompt_name content_name get_system_prompt;
   content_end_event prompt_name content_name;
   audio_content_start_event prompt_name audio_content_name].

Definition closing_events (prompt_name audio_content_name : string) : list json :=
  [content_end_event prompt_name audio_content_name;
   prompt_end_event prompt_name;
   session_end_event].

Section RoundTrip.
Context {L : PyLib} (E : Env) (settings : Settings).
Variables (session_id prompt_name : string) (st : ToolUseState).
Variables (tool_input output latency : json) (status : string).
Variable h1 : History.

(** The two clock readings of [add_tool_call], taken after the bridge
    has returned with history [h1]. *)
Definition put_time : Q := time_time E h1.
Definition expiry_time : Q := time_time E (h1 ++ [GotTime put_time]).

(** The ToolInvocationRecord written for the round trip. *)
Definition tool_call_item : json :=
  JObj [("session_id", JStr session_id);
        ("ts_toolcall", JInt (py_int (Binary64.mul put_time (1000 # 1))));
        ("tool_name", tool_name st);
        ("input", tool_input);
        ("output", output);
        ("latency_ms", latency);
        ("status", JStr status);
        ("expires_at", JInt (py_int expiry_time + session_ttl_hours settings * 3600))].

Definition persisted : History :=
  [GotTime put_time; GotTime expiry_time;
   Did (DbPutItem (dynamodb_tools_table settings) tool_call_item) None].

Definition result_content_name : string := uuid4 E (h1 ++ persisted).

(** The result block injected into the model transport. *)
Definition result_block : list json :=
  [tool_content_start_event prompt_name result_content_name (tool_use_id st);
   tool_result_event prompt_name result_content_name output;
   content_end_event prompt_name result_content_name].

(** The notice sent to the client. *)
Definition tool_call_end_notice : json :=
  JObj [("type", JStr "tool_call_end");
        ("tool", tool_name st);
        ("result", output);
        ("latency_ms", latency)].

(** Everything a round trip appends once the bridge has returned. *)
Definition round_trip_effects : History :=
  persisted
  ++ [GotUuid result_content_name]
  ++ map (fun ev => Did (TxSend (wire ev)) None) result_block
  ++ [Did (WsSendJson tool_call_end_notice) None].
End RoundTrip.

(** A decoded event that is a [contentEnd] of type TOOL and nothing the
    dispatcher looks at earlier. *)
Definition tool_content_end_event (kvs : list (string * json)) : Prop :=
  assoc "audioOutput" kvs = None
  /\ assoc "toolUse" kvs = None
  /\ exists ce, assoc "contentEnd" kvs = Some (JObj ce)
                /\ assoc "type" ce = Some (JStr "TOOL").

(** A tool use has been announced and its payload parses to [tool_input]. *)
Definition pending_tool {L : PyLib} (st : ToolUseState) (tool_input : json) : Prop :=
  truthy (tool_name st) = true
  /\ truthy (tool_content st) = true
  /\ exists content, dict_get (tool_content st) "content" (JStr "{}") = Ok content
                     /\ loads_value content = Ok tool_input.

(** Pieces of the scenarios the statements below are run on. *)
Module Cases.
Import Ref Scenario.

(** The state after [toolUse] announced tool [search] with id [t1]. *)
Definition announced : ToolUseState :=
  {| tool_use_id := JStr "t1";
     tool_name := JStr "search";
     tool_content := JObj [("toolUseId", JStr "t1");
                           ("toolName", JStr "search");
                           ("content", JStr "{}")] |}.

Definition tool_end_fields : list (string * json) :=
  [("contentEnd", JObj [("type", JStr "TOOL")])].

(** The dispatcher on a script of outputs, from an empty history. *)
Definition dispatch (E : Env) (outputs : list ModelOutput) : Result unit * History :=
  _process_output_events E settings0 outputs "s1" "p1" [].

(** The relay on a script of client frames, from an empty history. *)
Definition relay (E : Env) (client_in : list WsIn) : Result unit * History :=
  _process_audio_input E (audio_input_stream client_in) "p1" "a1" [].

(** A whole session. *)
Definition session (E : Env) (client_in : list WsIn) (outputs : list ModelOutput)
    (schedule : list bool) : Result unit * History :=
  handle_audio_stream E settings0 "s1" client_in outputs schedule [].

Definition conversation (E : Env) (client_in : list WsIn) (outputs : list ModelOutput)
    (schedule : list bool) : Result unit * History :=
  stream_conversation E settings0 "s1" (audio_input_stream client_in) outputs schedule [].

Definition abc : list byte := list_byte_of_string "abc".

End Cases.

(** No branch of the dispatcher's [if]/[elif] chain takes the event. *)
Definition unrecognised (event : json) : Prop :=
  contains "audioOutput" event = Ok false
  /\ contains "toolUse" event = Ok false
  /\ is_tool_content_end event = Ok false
  /\ contains "textOutput" event = Ok false
  /\ contains "completionEnd" event = Ok false.

(** [if audio_chunk:] on a binary frame. *)
Definition nonempty (chunk : list byte) : bool :=
  match chunk with
  | [] => false
  | _ :: _ => true
  end.

(** A frame of the client protocol: raw audio, or the text of a JSON
    control message. *)
Inductive ClientFrame :=
| Audio (pcm : list byte)
| Control (text : string).

Definition received (f : ClientFrame) : WsIn :=
  match f with
  | Audio pcm => binary_frame pcm
  | Control text => text_frame text
  end.

(** The audio frames among the client's frames, in arrival order. *)
Definition audio_of (frames : list ClientFrame) : list (list byte) :=
  flat_map (fun f => match f with Audio pcm => [pcm] | Control _ => [] end) frames.

(** A frame after which the relay keeps reading: audio, or a control
    message that parses and is not of kind [end]. *)
Definition keeps_reading {L : PyLib} (f : ClientFrame) : Prop :=
  match f with
  | Audio _ => True
  | Control text => is_end_control (Some text) = Ok false
  end.

(** The [audioInput] event forwarded for a chunk, as a history entry. *)
Definition forwarded {L : PyLib} (prompt_name content_name : string) (chunk : list byte) : Effect :=
  Did (TxSend (wire (audio_input_event prompt_name content_name (Base64.b64encode chunk)))) None.

(** The gateway hands out tool definitions whenever it is asked. *)
Definition tools_available {L : PyLib} (E : Env) (settings : Settings) : Prop :=
  forall h, exists tools h', get_tool_definitions E settings h = (Ok tools, h').

(** Marking a session ended in the sessions table goes through. *)
Definition session_can_end {L : PyLib} (E : Env) (settings : Settings) (session_id : string) : Prop :=
  forall h, exists h', update_session_state E settings session_id "ended" h = (Ok tt, h').

(** The closing events, as entries of a history in which each was sent. *)
Definition closing_sends {L : PyLib} (prompt_name audio_content_name : string) : History :=
  map (fun ev => Did (TxSend (wire ev)) None) (closing_events prompt_name audio_content_name).

(* ===================================================================== *)
(** ** The rest of the persistence layer and the REST routes *)
(* ===================================================================== *)

Section Routes.
Context {L : PyLib} (E : Env) (settings : Settings).

(** [fastapi.HTTPException(status_code, detail)]; its [str] is the status
    code, a colon and the detail. *)
Definition HTTPException (status_code : Z) (detail : string) : exn :=
  Exception (Ref.string_of_Z status_code ++ ": " ++ detail).

(** [DynamoDBService.create_session]; [user_id] is [JNull] for [None]. *)
Definition create_session (session_id : string) (user_id : json) : M json :=
  t1 <- time E ;;
  let start_time := py_int (Binary64.mul t1 (1000 # 1)) in
  t2 <- time E ;;
  let expires_at := (py_int t2 + session_ttl_hours settings * 3600)%Z in
  let item :=
    JObj [("session_id", JStr session_id);
          ("start_time", JInt start_time);
          ("user_id", if truthy user_id then user_id else JStr "anonymous");
          ("state", JStr "active");
          ("expires_at", JInt expires_at);
          ("last_updated", JInt start_time);
          ("metadata", JObj [])] in
  call E (DbPutItem (dynamodb_sessions_table settings) item) ;;
  logger_info "Session created" ;;
  ret item.

Definition session_key (session_id : string) : string :=
  "session:" ++ session_id.

(** [POST /sessions/start]: the fields of the [SessionStartResponse]. *)
Definition start_session (user_id : json) : M json :=
  session_id <- str_uuid4 E ;;
  session <- create_session session_id user_id ;;
  cache_set E (session_key session_id) session (JInt 3600) ;;
  logger_info "Session started" ;;
  created_at <- lift (getitem session "start_time") ;;
  ret (JObj [("session_id", JStr session_id);
             ("websocket_url",
              JStr ("ws://localhost:8000/ws/audio?session_id=" ++ session_id));
             ("created_at", created_at)]).

(** [POST /sessions/{session_id}/end] *)
Definition end_session (session_id : string) : M json :=
  session <- get_session E settings session_id ;;
  if negb (truthy session) then raise (HTTPException 404 "Session not found")
  else
    update_session_state E settings session_id "ended" ;;
    cache_delete E (session_key session_id) ;;
    cache_delete E (session_active_key session_id) ;;
    logger_info "Session ended via API" ;;
    ret (JObj [("status", JStr "ended"); ("session_id", JStr session_id)]).

End Routes.

(** Writes to Redis, attempted: key, time to live and value. *)
Definition redis_writes (h : History) : list (string * json * string) :=
  flat_map (fun e => match e with
                     | Did (RedisSetex k ttl v) _ => [(k, ttl, v)]
                     | _ => []
                     end) h.

(** Calls of [update_item], attempted: key and new values. *)
Definition db_updates (h : History) : list (json * json) :=
  flat_map (fun e => match e with
                     | Did (DbUpdateItem _ k v) _ => [(k, v)]
                     | _ => []
                     end) h.

(** HTTP requests made, with their URL. *)
Definition http_requests (h : History) : list string :=
  flat_map (fun e => match e with GotHttp u _ _ _ => [u] | _ => [] end) h.

(** Streams opened on the model, attempted. *)
Definition streams_opened (h : History) : list string :=
  flat_map (fun e => match e with Did (OpenStream m) _ => [m] | _ => [] end) h.

(** The body and the headers of a JSON-RPC request to the gateway. *)
Definition mcp_payload (method : string) (params : json) (now : Q) : json :=
  JObj [("jsonrpc", JStr "2.0");
        ("method", JStr method);
        ("params", if truthy params then params else JObj []);
        ("id", JInt (py_int (Binary64.mul now (1000 # 1))))].

Definition mcp_headers {L : PyLib} (token : json) : json :=
  JObj [("Authorization", JStr ("Bearer " ++ py_str token));
        ("Content-Type", JStr "application/json")].

(** What [cache.get] makes of Redis' answer. *)
Definition cached_value {L : PyLib} (r : Result (option string)) : json :=
  match r with
  | Ok (Some s) =>
      if s =? "" then JNull
      else match json_loads s with
           | Some j => j
           | None => JNull
           end
  | _ => JNull
  end.

(** More worlds. *)
Module Worlds.
Import Ref Scenario.

(** Redis holds [value] under [key] and nothing else. *)
Definition redis_holds (key value : string) : Env := {|
  raises := raises quiet;
  uuid4 := uuid4 quiet;
  time_time := time_time quiet;
  redis_get := fun _ k => if k =? key then Ok (Some value) else Ok None;
  http_post := http_post quiet;
  db_query := db_query quiet
|}.

(** Redis is down: every command raises. *)
Definition redis_down : Env := {|
  raises := fun _ c =>
    match c with
    | RedisSetex _ _ _ | RedisDelete _ => Some (Exception "ConnectionError")
    | _ => None
    end;
  uuid4 := uuid4 quiet;
  time_time := time_time quiet;
  redis_get := fun _ _ => Raise (Exception "ConnectionError");
  http_post := http_post quiet;
  db_query := db_query quiet
|}.

(** The token endpoint is unreachable. *)
Definition token_endpoint_down : Env := {|
  raises := raises quiet;
  uuid4 := uuid4 quiet;
  time_time := time_time quiet;
  redis_get := redis_get quiet;
  http_post := fun _ url _ _ =>
    if url =? oauth_token_url settings0 then Raise (Exception "ConnectError") else Ok http_ok;
  db_query := db_query quiet
|}.

(** The gateway answers every request with [response]. *)
Definition gateway_answers (response : json) : Env := {|
  raises := raises quiet;
  uuid4 := uuid4 quiet;
  time_time := time_time quiet;
  redis_get := redis_get quiet;
  http_post := fun _ url _ _ =>
    if url =? gateway_mcp_url settings0 then Ok response else Ok http_ok;
  db_query := db_query quiet
|}.

(** DynamoDB is down: every query raises. *)
Definition dynamo_down : Env := {|
  raises := raises quiet;
  uuid4 := uuid4 quiet;
  time_time := time_time quiet;
  redis_get := redis_get quiet;
  http_post := http_post quiet;
  db_query := fun _ _ _ => Raise (Exception "EndpointConnectionError")
|}.

(** The model transport refuses every send. *)
Definition transport_refuses : Env := transport_closes_after 0.

(** DynamoDB refuses every write. *)
Definition dynamo_refuses_writes : Env := {|
  raises := fun _ c =>
    match c with
    | DbPutItem _ _ | DbUpdateItem _ _ _ => Some (Exception "ClientError")
    | _ => None
    end;
  uuid4 := uuid4 quiet;
  time_time := time_time quiet;
  redis_get := redis_get quiet;
  http_post := http_post quiet;
  db_query := db_query quiet
|}.

Definition search_tool : json :=
  JObj [("name", JStr "search"); ("description", JStr "Search mail")].

Definition unnamed_tool : json :=
  JObj [("description", JStr "No name")].

End Worlds.

(** The form and the headers posted to the token endpoint. *)
Definition token_form (settings : Settings) : json :=
  JObj [("grant_type", JStr "client_credentials");
        ("client_id", JStr (oauth_client_id settings));
        ("client_secret", JStr (oauth_client_secret settings))].

Definition token_headers : json :=
  JObj [("Content-Type", JStr "application/x-www-form-urlencoded")].

(** The name inside a converted tool definition. *)
Definition tool_spec_name (converted : json) : Result json :=
  match getitem converted "toolSpec" with
  | Ok spec => getitem spec "name"
  | Raise e => Raise e
  end.

(** Effects of the persistence layer: queries and updates of DynamoDB,
    the clock and the log. *)
Definition persistence_side (e : Effect) : Prop :=
  match e with
  | GotQuery _ _ _ | GotTime _ | Logged _ _ => True
  | Did (DbUpdateItem _ _ _) _ | Did (DbPutItem _ _) _ => True
  | _ => False
  end.

(** The gateway cannot hand out tool definitions. *)
Definition tools_unavailable {L : PyLib} (E : Env) (settings : Settings) : Prop :=
  forall h, exists what h',
    get_tool_definitions E settings h = (Raise (Exception what), h').

(* ===================================================================== *)
(** ** Vocabulary of the handshake and of the dispatcher's cases *)
(* ===================================================================== *)


(** The event reaches the last [elif] and has a [completionEnd] key. *)
Definition completion_end (event : json) : Prop :=
  contains "audioOutput" event = Ok false
  /\ contains "toolUse" event = Ok false
  /\ is_tool_content_end event = Ok false
  /\ contains "textOutput" event = Ok false
  /\ contains "completionEnd" event = Ok true.

(** [outer[key][field]] cannot be read although [outer] has [key]. *)
Definition unreadable_field (outer : json) (key field : string) : Prop :=
  exists inner e, getitem outer key = Ok inner /\ getitem inner field = Raise e.

(** The event is of a kind the dispatcher knows, and the first field
    that its branch needs and cannot read: [content] of an [audioOutput],
    [toolUseId] or [toolName] of a [toolUse], [content] or [role] of a
    [textOutput]. *)
Definition lacks_required_field (event : json) : Prop :=
  (contains "audioOutput" event = Ok true
   /\ unreadable_field event "audioOutput" "content")
  \/ (contains "audioOutput" event = Ok false
      /\ contains "toolUse" event = Ok true
      /\ (unreadable_field event "toolUse" "toolUseId"
          \/ unreadable_field event "toolUse" "toolName"))
  \/ (contains "audioOutput" event = Ok false
      /\ contains "toolUse" event = Ok false
      /\ is_tool_content_end event = Ok false
      /\ contains "textOutput" event = Ok true
      /\ (unreadable_field event "textOutput" "content"
          \/ unreadable_field event "textOutput" "role")).

(** What the loop leaves in the history when its body raised [e] at [h]:
    [StopAsyncIteration] is not logged, every other exception is. *)
Definition after_exception (e : exn) (h : History) : History :=
  match e with
  | StopAsyncIteration => h
  | _ => h ++ [Logged "error" "Output processing error"]
  end.

Module FloatClock.
Import Ref Scenario.

(** The wall clock reads 0.0 until the first HTTP request has been made
    and the float 0.009 afterwards. *)
Definition nine_ms_later : Env := {|
  raises := raises quiet;
  uuid4 := uuid4 quiet;
  time_time := fun h =>
    if existsb (fun e => match e with GotHttp _ _ _ _ => true | _ => false end) h
    then Binary64.round (9 # 1000)%Q else (0 # 1)%Q;
  redis_get := redis_get quiet;
  http_post := http_post quiet;
  db_query := db_query quiet
|}.

End FloatClock.

(* ===================================================================== *)
(** ** Lemmas *)
(* ===================================================================== *)

Example b64encode_Man :
  Base64.b64encode (list_byte_of_string "Man") = "TWFu".
Proof. reflexivity. Qed.

Example b64encode_padding :
  Base64.b64encode (list_byte_of_string "Ma") = "TWE="
  /\ Base64.b64encode (list_byte_of_string "M") = "TQ==".
Proof. split; reflexivity. Qed.

Section Emits.
Variable P : Effect -> Prop.

Lemma emits_ret {A} (a : A) : emits P (ret a).
Proof. intro h. exists []. rewrite app_nil_r. split; [reflexivity | constructor]. Qed.

Lemma emits_raise {A} (e : exn) : emits P (@raise A e).
Proof. intro h. exists []. rewrite app_nil_r. split; [reflexivity | constructor]. Qed.

Lemma emits_lift {A} (r : Result A) : emits P (lift r).
Proof. intro h. exists []. rewrite app_nil_r. split; [reflexivity | constructor]. Qed.

Lemma emits_bind {A B} (m : M A) (k : A -> M B) :
  emits P m -> (forall a, emits P (k a)) -> emits P (bind m k).
Proof.
  intros Hm Hk h. unfold bind.
  destruct (Hm h) as [t [Et Ft]]. destruct (m h) as [[a | e] h1]; simpl in Et; subst h1.
  - destruct (Hk a (h ++ t)) as [u [Eu Fu]].
    exists (t ++ u). rewrite Eu, app_assoc. split; [reflexivity | now apply Forall_app].
  - exists t. now split.
Qed.

Lemma emits_try_except {A} (body : M A) (handler : exn -> M A) :
  emits P body -> (forall e, emits P (handler e)) -> emits P (try_except body handler).
Proof.
  intros Hm Hk h. unfold try_except.
  destruct (Hm h) as [t [Et Ft]]. destruct (body h) as [[a | e] h1]; simpl in Et; subst h1.
  - exists t. now split.
  - destruct (Hk e (h ++ t)) as [u [Eu Fu]].
    exists (t ++ u). rewrite Eu, app_assoc. split; [reflexivity | now apply Forall_app].
Qed.

Lemma emits_try_finally {A} (body : M A) (cleanup : M unit) :
  emits P body -> emits P cleanup -> emits P (try_finally body cleanup).
Proof.
  intros Hm Hc h. unfold try_finally.
  destruct (Hm h) as [t [Et Ft]]. destruct (body h) as [r h1]; simpl in Et; subst h1.
  destruct (Hc (h ++ t)) as [u [Eu Fu]].
  destruct (cleanup (h ++ t)) as [[[] | e] h2]; simpl in Eu; subst h2;
    exists (t ++ u); rewrite app_assoc; (split; [reflexivity | now apply Forall_app]).
Qed.

Lemma emits_one {A} (m : M A) :
  (forall h, exists e, snd (m h) = h ++ [e] /\ P e) -> emits P m.
Proof.
  intros H h. destruct (H h) as [e [Ee Pe]]. exists [e]. split; [assumption | now constructor].
Qed.

Lemma emits_call E c : (forall r, P (Did c r)) -> emits P (call E c).
Proof.
  intros H. apply emits_one. intro h. unfold call.
  destruct (raises E h c); eexists; (split; [reflexivity | apply H]).
Qed.

Lemma emits_str_uuid4 E : (forall u, P (GotUuid u)) -> emits P (str_uuid4 E).
Proof. intros H. apply emits_one. intro h. eexists; split; [reflexivity | apply H]. Qed.

Lemma emits_time E : (forall t, P (GotTime t)) -> emits P (time E).
Proof. intros H. apply emits_one. intro h. eexists; split; [reflexivity | apply H]. Qed.

Lemma emits_logger_info msg : (forall l m, P (Logged l m)) -> emits P (logger_info msg).
Proof. intros H. apply emits_one. intro h. eexists; split; [reflexivity | apply H]. Qed.

Lemma emits_logger_error msg : (forall l m, P (Logged l m)) -> emits P (logger_error msg).
Proof. intros H. apply emits_one. intro h. eexists; split; [reflexivity | apply H]. Qed.

Lemma emits_client_get E key : (forall k r, P (GotRedis k r)) -> emits P (client_get E key).
Proof. intros H. apply emits_one. intro h. eexists; split; [reflexivity | apply H]. Qed.

Lemma emits_httpx_post E url hd body :
  (forall u a b r, P (GotHttp u a b r)) -> emits P (httpx_post E url hd body).
Proof. intros H. apply emits_one. intro h. eexists; split; [reflexivity | apply H]. Qed.

Lemma emits_table_query E t s :
  (forall a b r, P (GotQuery a b r)) -> emits P (table_query E t s).
Proof. intros H. apply emits_one. intro h. eexists; split; [reflexivity | apply H]. Qed.
End Emits.

Lemma emits_weaken (P Q : Effect -> Prop) {A} (m : M A) :
  (forall e, P e -> Q e) -> emits P m -> emits Q m.
Proof.
  intros PQ H h. destruct (H h) as [t [Et Ft]]. exists t. split; [assumption |].
  eapply Forall_impl; eauto.
Qed.

Lemma gateway_side_keeps_marker e : gateway_side e -> keeps_marker e.
Proof. destruct e as [[] ?| | | | | |]; simpl; tauto. Qed.

Lemma gateway_side_off_transport e : gateway_side e -> off_transport e.
Proof. destruct e as [[] ?| | | | | |]; simpl; tauto. Qed.

Create HintDb emits.

(** One step of a proof that a coroutine only appends effects of a given
    kind: peel a combinator, split on a scrutinee, or close a primitive. *)
Ltac emits_step :=
  match goal with
  | |- emits _ (bind _ _) => apply emits_bind; [ | intros ]
  | |- emits _ (try_except _ _) => apply emits_try_except; [ | intros ]
  | |- emits _ (try_finally _ _) => apply emits_try_finally
  | |- emits _ (ret _) => apply emits_ret
  | |- emits _ (raise _) => apply emits_raise
  | |- emits _ (lift _) => apply emits_lift
  | |- emits _ (call _ _) => apply emits_call; intros; exact I
  | |- emits _ (str_uuid4 _) => apply emits_str_uuid4; intros; exact I
  | |- emits _ (time _) => apply emits_time; intros; exact I
  | |- emits _ (logger_info _) => apply emits_logger_info; intros; exact I
  | |- emits _ (logger_error _) => apply emits_logger_error; intros; exact I
  | |- emits _ (client_get _ _) => apply emits_client_get; intros; exact I
  | |- emits _ (httpx_post _ _ _ _) => apply emits_httpx_post; intros; exact I
  | |- emits _ (table_query _ _ _) => apply emits_table_query; intros; exact I
  | |- emits _ (if ?b then _ else _) => destruct b
  | |- emits _ (match ?x with _ => _ end) => destruct x
  | |- emits _ _ => solve [auto with emits]
  end.

Ltac emits_tac := repeat emits_step.

Section GatewayEffects.
Context {L : PyLib} (E : Env) (settings : Settings).

Lemma cache_get_gateway key : emits gateway_side (cache_get E key).
Proof. unfold cache_get. emits_tac. Qed.

Lemma cache_set_gateway key v ttl : emits gateway_side (cache_set E key v ttl).
Proof. unfold cache_set. emits_tac. Qed.

Hint Resolve cache_get_gateway cache_set_gateway : emits.

Lemma get_oauth_token_gateway : emits gateway_side (_get_oauth_token E settings).
Proof. unfold _get_oauth_token. emits_tac. Qed.

Hint Resolve get_oauth_token_gateway : emits.

Lemma call_mcp_gateway method params : emits gateway_side (_call_mcp E settings method params).
Proof. unfold _call_mcp. emits_tac. Qed.

Hint Resolve call_mcp_gateway : emits.

Lemma list_tools_gateway : emits gateway_side (list_tools E settings).
Proof. unfold list_tools. emits_tac. Qed.

Hint Resolve list_tools_gateway : emits.

Lemma get_tool_definitions_gateway : emits gateway_side (get_tool_definitions E settings).
Proof. unfold get_tool_definitions. emits_tac. Qed.

Lemma invoke_tool_gateway name args : emits gateway_side (invoke_tool E settings name args).
Proof. unfold invoke_tool. emits_tac. Qed.
End GatewayEffects.

#[export] Hint Resolve cache_get_gateway cache_set_gateway get_oauth_token_gateway
  call_mcp_gateway list_tools_gateway get_tool_definitions_gateway invoke_tool_gateway : emits.

Section SessionEffects.
Context {L : PyLib} (E : Env) (settings : Settings).

Lemma get_tool_definitions_keeps : emits keeps_marker (get_tool_definitions E settings).
Proof.
  eapply emits_weaken; [apply gateway_side_keeps_marker | apply get_tool_definitions_gateway].
Qed.

Lemma invoke_tool_keeps name args : emits keeps_marker (invoke_tool E settings name args).
Proof.
  eapply emits_weaken; [apply gateway_side_keeps_marker | apply invoke_tool_gateway].
Qed.

Lemma cache_set_keeps key v ttl : emits keeps_marker (cache_set E key v ttl).
Proof.
  eapply emits_weaken; [apply gateway_side_keeps_marker | apply cache_set_gateway].
Qed.

Hint Resolve get_tool_definitions_keeps invoke_tool_keeps cache_set_keeps : emits.

Lemma add_tool_call_keeps sid name i o l s :
  emits keeps_marker (add_tool_call E settings sid name i o l s).
Proof. unfold add_tool_call. emits_tac. Qed.

Lemma add_message_keeps sid role text tc :
  emits keeps_marker (add_message E settings sid role text tc).
Proof. unfold add_message. emits_tac. Qed.

Lemma send_raw_event_keeps s : emits keeps_marker (_send_raw_event E s).
Proof. unfold _send_raw_event. emits_tac. Qed.

Hint Resolve add_tool_call_keeps add_message_keeps send_raw_event_keeps : emits.

Lemma send_tool_result_keeps p c i r : emits keeps_marker (_send_tool_result E p c i r).
Proof. unfold _send_tool_result. emits_tac. Qed.

Hint Resolve send_tool_result_keeps : emits.

Lemma output_iteration_keeps sid p st o :
  emits keeps_marker (output_iteration E settings sid p st o).
Proof.
  unfold output_iteration, process_output, dispatch_event, on_audio_output, on_tool_use,
    on_tool_content_end, on_text_output.
  emits_tac.
Qed.

Hint Resolve output_iteration_keeps : emits.

Lemma process_output_events_from_keeps outs : forall st sid p,
  emits keeps_marker (process_output_events_from E settings st outs sid p).
Proof.
  induction outs as [| o rest IH]; intros; simpl; emits_tac.
Qed.

Lemma forward_audio_chunk_keeps c p n : emits keeps_marker (forward_audio_chunk E c p n).
Proof. unfold forward_audio_chunk. emits_tac. Qed.

Hint Resolve process_output_events_from_keeps forward_audio_chunk_keeps : emits.

Lemma process_audio_input_keeps g : forall p n,
  emits keeps_marker (_process_audio_input E g p n).
Proof.
  induction g as [c next IH | msg next IH |]; intros; simpl; emits_tac.
Qed.

Hint Resolve process_audio_input_keeps : emits.

Lemma gather_keeps sched : forall g st outs sid p n,
  emits keeps_marker (gather E settings sched g st outs sid p n).
Proof.
  induction sched as [| b rest IH]; intros; simpl.
  - emits_tac.
  - destruct b.
    + destruct g; emits_tac.
    + destruct outs; emits_tac.
Qed.

Hint Resolve gather_keeps : emits.

Lemma send_initialization_keeps p c a tools :
  emits keeps_marker (send_initialization E settings p c a tools).
Proof.
  unfold send_initialization, _send_session_start, _send_prompt_start,
    _send_system_prompt, _send_audio_content_start.
  emits_tac.
Qed.

Lemma end_stream_keeps p a : emits keeps_marker (end_stream E p a).
Proof.
  unfold end_stream, _send_audio_content_end, _send_prompt_end, _send_session_end.
  emits_tac.
Qed.

Hint Resolve send_initialization_keeps end_stream_keeps : emits.

Lemma stream_conversation_keeps sid g outs sched :
  emits keeps_marker (stream_conversation E settings sid g outs sched).
Proof. unfold stream_conversation. emits_tac. Qed.

Lemma update_session_state_keeps sid state :
  emits keeps_marker (update_session_state E settings sid state).
Proof. unfold update_session_state, get_session. emits_tac. Qed.
End SessionEffects.

(* --------------------------------------------------------------------- *)
(** *** Running primitive calls *)

Lemma call_accepted E c h :
  raises E h c = None -> call E c h = (Ok tt, h ++ [Did c None]).
Proof. intros H. unfold call. now rewrite H. Qed.

Lemma call_refused E c h e :
  raises E h c = Some e -> call E c h = (Raise e, h ++ [Did c (Some e)]).
Proof. intros H. unfold call. now rewrite H. Qed.

Lemma bind_ok {A B} (m : M A) (k : A -> M B) h a h' :
  m h = (Ok a, h') -> bind m k h = k a h'.
Proof. intros H. unfold bind. now rewrite H. Qed.

Lemma bind_raise {A B} (m : M A) (k : A -> M B) h e h' :
  m h = (Raise e, h') -> bind m k h = (Raise e, h').
Proof. intros H. unfold bind. now rewrite H. Qed.

Lemma bind_lift {A B} (a : A) (k : A -> M B) h : bind (lift (Ok a)) k h = k a h.
Proof. reflexivity. Qed.

Lemma bind_assoc {A B C} (m : M A) (f : A -> M B) (g : B -> M C) h :
  bind (bind m f) g h = bind m (fun a => bind (f a) g) h.
Proof. unfold bind. destruct (m h) as [[a | e] h']; reflexivity. Qed.

Lemma bind_ret {A B} (a : A) (k : A -> M B) h : bind (ret a) k h = k a h.
Proof. reflexivity. Qed.

Lemma bind_time {B} E (k : Q -> M B) h :
  bind (time E) k h = k (time_time E h) (h ++ [GotTime (time_time E h)]).
Proof. reflexivity. Qed.

Lemma bind_str_uuid4 {B} E (k : string -> M B) h :
  bind (str_uuid4 E) k h = k (uuid4 E h) (h ++ [GotUuid (uuid4 E h)]).
Proof. reflexivity. Qed.

Lemma bind_logger_info {B} msg (k : unit -> M B) h :
  bind (logger_info msg) k h = k tt (h ++ [Logged "info" msg]).
Proof. reflexivity. Qed.

Lemma bind_logger_error {B} msg (k : unit -> M B) h :
  bind (logger_error msg) k h = k tt (h ++ [Logged "error" msg]).
Proof. reflexivity. Qed.

Lemma bind_call_accepted {B} E c (k : unit -> M B) h :
  raises E h c = None -> bind (call E c) k h = k tt (h ++ [Did c None]).
Proof. intros H. unfold bind. now rewrite (call_accepted _ _ _ H). Qed.

Lemma bind_call_refused {B} E c (k : unit -> M B) h e :
  raises E h c = Some e -> bind (call E c) k h = (Raise e, h ++ [Did c (Some e)]).
Proof. intros H. unfold bind. now rewrite (call_refused _ _ _ _ H). Qed.

(** Run the next statement of a coroutine whose calls are accepted;
    [solver] proves that the world accepts a call. *)
Ltac run_with solver :=
  repeat first
    [ rewrite bind_assoc
    | rewrite bind_lift
    | rewrite bind_ret
    | rewrite bind_time
    | rewrite bind_str_uuid4
    | rewrite bind_logger_info
    | rewrite bind_logger_error
    | rewrite bind_call_accepted by solver
    | rewrite call_accepted by solver ].

Lemma tx_sent_app h t : tx_sent (h ++ t) = tx_sent h ++ tx_sent t.
Proof. apply flat_map_app. Qed.

Lemma ws_json_sent_app h t : ws_json_sent (h ++ t) = ws_json_sent h ++ ws_json_sent t.
Proof. apply flat_map_app. Qed.

Lemma db_put_app h t : db_put (h ++ t) = db_put h ++ db_put t.
Proof. apply flat_map_app. Qed.

Lemma redis_deletes_app h t : redis_deletes (h ++ t) = redis_deletes h ++ redis_deletes t.
Proof. apply flat_map_app. Qed.

Lemma tx_attempted_app h t : tx_attempted (h ++ t) = tx_attempted h ++ tx_attempted t.
Proof. apply flat_map_app. Qed.

Lemma off_transport_tx_sent t : Forall off_transport t -> tx_sent t = [].
Proof.
  induction 1 as [| e t He _ IH]; [reflexivity |].
  destruct e as [[] ?| | | | | |]; simpl in *; try assumption; contradiction.
Qed.

Lemma keeps_marker_redis_deletes t : Forall keeps_marker t -> redis_deletes t = [].
Proof.
  induction 1 as [| e t He _ IH]; [reflexivity |].
  destruct e as [[] ?| | | | | |]; simpl in *; try assumption; contradiction.
Qed.

(* --------------------------------------------------------------------- *)
(** *** The bridge *)

Section Bridge.
Context {L : PyLib} (E : Env) (settings : Settings).

(** [invoke_tool] reads the clock, calls the gateway, reads the clock
    again and returns a dict in either case. *)
Lemma invoke_tool_run (name args : json) (h : History) :
  let t0 := time_time E h in
  let g := _call_mcp E settings "tools/invoke"
             (JObj [("name", name); ("arguments", args)]) (h ++ [GotTime t0]) in
  let t1 := time_time E (snd g) in
  invoke_tool E settings name args h =
    match fst g with
    | Ok result =>
        (Ok (tool_success result (latency_ms_of t0 t1)),
         snd g ++ [GotTime t1; Logged "info" "Tool invoked"])
    | Raise e =>
        (Ok (tool_failure (str_exn e) (latency_ms_of t0 t1)),
         snd g ++ [GotTime t1; Logged "error" "Tool invocation failed"])
    end.
Proof.
  cbv zeta. unfold invoke_tool, bind, try_except, time, logger_info, logger_error, ret.
  destruct (_call_mcp E settings "tools/invoke" _ _) as [[result | e] hg]; simpl;
    now rewrite <- app_assoc.
Qed.


(** The round trip after the bridge has returned [r]. *)
Lemma on_tool_content_end_run sid p st tool_input r h h1 output latency success :
  pending_tool st tool_input ->
  accepts_round_trip E ->
  invoke_tool E settings (tool_name st) tool_input h = (Ok r, h1) ->
  dict_get r "result" (JObj []) = Ok output ->
  getitem r "latency_ms" = Ok latency ->
  getitem r "success" = Ok success ->
  on_tool_content_end E settings sid p st h =
    (Ok tt, h1 ++ round_trip_effects E settings sid p st tool_input output latency
                    (status_of success) h1).
Proof.
  intros (Hn & Hc & content & Hget & Hload) Hacc Hinv Hout Hlat Hsuc.
  unfold on_tool_content_end. rewrite Hn, Hc. cbn [andb].
  rewrite Hget, bind_lift. rewrite Hload, bind_lift.
  rewrite (bind_ok _ _ _ _ _ Hinv).
  rewrite Hout, Hlat, Hsuc. repeat rewrite bind_lift.
  unfold add_tool_call, _send_tool_result, _send_raw_event.
  run_with ltac:(first [ apply (Hacc _ (DbPutItem _ _))
                       | apply (Hacc _ (TxSend _))
                       | apply (Hacc _ (WsSendJson _)) ]).
  cbv [round_trip_effects result_block persisted result_content_name
       tool_call_item tool_call_end_notice expiry_time put_time wire].
  simpl map. repeat rewrite <- app_assoc. simpl app. reflexivity.
Qed.

(** The [elif] chain reaches the tool branch on a TOOL content end. *)
Lemma dispatch_tool_content_end sid p st kvs h :
  tool_content_end_event kvs ->
  dispatch_event E settings sid p st (JObj kvs) h =
    bind (on_tool_content_end E settings sid p st) (fun _ => ret (Continue, st)) h.
Proof.
  intros (Ha & Ht & ce & Hce & Hty).
  unfold dispatch_event, is_tool_content_end, contains, getitem, dict_get.
  unfold bind at 1. unfold lift at 1. rewrite Ha.
  unfold bind at 1. unfold lift at 1. rewrite Ht.
  unfold bind at 1. unfold lift at 1. rewrite Hce, Hty. simpl. reflexivity.
Qed.
End Bridge.

Section RoundTripFacts.
Context {L : PyLib} (E : Env) (settings : Settings).

Lemma dispatch_round_trip sid p st kvs tool_input r h h1 output latency success :
  tool_content_end_event kvs ->
  pending_tool st tool_input ->
  accepts_round_trip E ->
  invoke_tool E settings (tool_name st) tool_input h = (Ok r, h1) ->
  dict_get r "result" (JObj []) = Ok output ->
  getitem r "latency_ms" = Ok latency ->
  getitem r "success" = Ok success ->
  dispatch_event E settings sid p st (JObj kvs) h =
    (Ok (Continue, st),
     h1 ++ round_trip_effects E settings sid p st tool_input output latency
             (status_of success) h1).
Proof.
  intros Hev Hpend Hacc Hinv Hout Hlat Hsuc.
  rewrite dispatch_tool_content_end by assumption.
  erewrite bind_ok by (eapply on_tool_content_end_run; eassumption).
  reflexivity.
Qed.



End RoundTripFacts.

(** The truncated millisecond difference of two clock readings is not
    negative when the clock has not gone back between them. *)
Lemma round_half_even_nonneg n d : (0 <= n)%Z -> (0 <= Binary64.round_half_even n d)%Z.
Proof.
  intros H. unfold Binary64.round_half_even.
  assert (0 <= n / Zpos d)%Z by (apply Z.div_pos; lia).
  destruct (2 * (n mod Zpos d) ?= Zpos d)%Z; [destruct (Z.even _) | |]; lia.
Qed.

Lemma round_abs_nonneg n d : (0 <= n)%Z -> (0 <= Qnum (Binary64.round_abs n d))%Z.
Proof.
  intros H. unfold Binary64.round_abs.
  destruct (0 <=? _)%Z; cbn [Qnum].
  - apply Z.mul_nonneg_nonneg; [now apply round_half_even_nonneg |].
    apply Z.pow_nonneg. lia.
  - apply round_half_even_nonneg. apply Z.mul_nonneg_nonneg; [lia |].
    apply Z.pow_nonneg. lia.
Qed.

(** Rounding to binary64 keeps the sign of what is not negative. *)
Lemma round_nonneg q : (0 <= Qnum q)%Z -> (0 <= Qnum (Binary64.round q))%Z.
Proof.
  intros H. unfold Binary64.round. destruct (Qnum q) as [| n | n].
  - simpl. lia.
  - apply round_abs_nonneg. lia.
  - lia.
Qed.

(** The truncated millisecond difference of two clock readings is not
    negative when the clock has not gone back between them. *)
Lemma latency_ms_of_nonneg (t0 t1 : Q) :
  Qle t0 t1 -> (0 <= latency_ms_of t0 t1)%Z.
Proof.
  intros H. unfold latency_ms_of, py_int.
  apply Z.quot_pos; [| reflexivity].
  unfold Binary64.mul, Binary64.sub. apply round_nonneg.
  cbn [Qmult Qnum]. apply Z.mul_nonneg_nonneg; [| lia].
  apply round_nonneg.
  unfold Qle in H. destruct t0 as [n0 d0], t1 as [n1 d1]. simpl in *. nia.
Qed.

(* ===================================================================== *)
(** ** The tool round trip *)
(* ===================================================================== *)

Section ToolRoundTrip.
Context {L : PyLib} (E : Env) (settings : Settings).

(** Claim C1, as the code has it.  A [contentEnd] of type TOOL that is
    dispatched while a tool name and payload are captured runs the bridge
    once and then persists exactly one record, injects exactly one result
    block whose [contentStart] carries the captured tool-use identifier,
    and sends one [tool_call_end] notice, all before the next event is
    read; the bridge itself touches only the gateway, its cache, the
    clock and the log.  The captured state is returned unchanged: nothing
    clears it, so the same round trip runs again on the next TOOL content
    end. *)
Theorem round_trip_per_tool_content_end sid p st kvs tool_input h :
  tool_content_end_event kvs ->
  pending_tool st tool_input ->
  accepts_round_trip E ->
  exists r h1 output latency status,
    invoke_tool E settings (tool_name st) tool_input h = (Ok r, h1)
    /\ dispatch_event E settings sid p st (JObj kvs) h =
         (Ok (Continue, st),
          h1 ++ round_trip_effects E settings sid p st tool_input output latency status h1)
    /\ db_put (round_trip_effects E settings sid p st tool_input output latency status h1)
       = [(dynamodb_tools_table settings,
           tool_call_item E settings sid st tool_input output latency status h1)]
    /\ tx_sent (round_trip_effects E settings sid p st tool_input output latency status h1)
       = map wire
           (let name := result_content_name E settings sid st tool_input output latency status h1 in
            [tool_content_start_event p name (tool_use_id st);
             tool_result_event p name output;
             content_end_event p name])
    /\ ws_json_sent (round_trip_effects E settings sid p st tool_input output latency status h1)
       = [tool_call_end_notice st output latency]
    /\ exists g, h1 = h ++ g /\ Forall gateway_side g.
Proof.
  intros Hev Hpend Hacc.
  pose proof (invoke_tool_run E settings (tool_name st) tool_input h) as Hrun.
  cbv zeta in Hrun.
  destruct (invoke_tool_gateway E settings (tool_name st) tool_input h) as [g [Eg Fg]].
  destruct (fst (_call_mcp E settings "tools/invoke" _ _)) as [result | e];
    rewrite Hrun in Eg; simpl in Eg;
    (do 5 eexists; split; [exact Hrun |]; split;
     [ eapply dispatch_round_trip; try eassumption; reflexivity
     | split; [reflexivity |]; split; [reflexivity |]; split; [reflexivity |];
       exists g; split; assumption ]).
Qed.


(** Claim C10.  After a gateway failure the result dict has an [error]
    key and no [result] key, so the record is persisted with status
    [failed] and the empty object as output, the [toolResult] sent to the
    model carries the serialized empty object (the error text is in none
    of the three events), and the client's [tool_call_end] has the empty
    object as result. *)
Theorem failed_round_trip_carries_empty_object sid p st kvs tool_input h e hg :
  tool_content_end_event kvs ->
  pending_tool st tool_input ->
  accepts_round_trip E ->
  _call_mcp E settings "tools/invoke"
    (JObj [("name", tool_name st); ("arguments", tool_input)])
    (h ++ [GotTime (time_time E h)]) = (Raise e, hg) ->
  exists latency_ms h1 t item name,
    let r := tool_failure (str_exn e) latency_ms in
    invoke_tool E settings (tool_name st) tool_input h = (Ok r, h1)
    /\ contains "error" r = Ok true
    /\ contains "result" r = Ok false
    /\ dispatch_event E settings sid p st (JObj kvs) h = (Ok (Continue, st), h1 ++ t)
    /\ db_put t = [(dynamodb_tools_table settings, item)]
    /\ getitem item "status" = Ok (JStr "failed")
    /\ getitem item "output" = Ok (JObj [])
    /\ tx_sent t = map wire [tool_content_start_event p name (tool_use_id st);
                             tool_result_event p name (JObj []);
                             content_end_event p name]
    /\ tool_result_event p name (JObj [])
       = event "toolResult" (JObj [("promptName", JStr p);
                                   ("contentName", JStr name);
                                   ("content", JStr (json_dumps (JObj [])))])
    /\ ws_json_sent t = [JObj [("type", JStr "tool_call_end");
                               ("tool", tool_name st);
                               ("result", JObj []);
                               ("latency_ms", JInt latency_ms)]].
Proof.
  intros Hev Hpend Hacc Hmcp.
  pose proof (invoke_tool_run E settings (tool_name st) tool_input h) as Hrun.
  cbv zeta in Hrun. rewrite Hmcp in Hrun. cbn [fst snd] in Hrun.
  do 5 eexists. cbv zeta. split; [exact Hrun |].
  split; [reflexivity |]. split; [reflexivity |]. split.
  - eapply dispatch_round_trip; try eassumption; reflexivity.
  - repeat split; reflexivity.
Qed.

(** Claim C8, as the code has it.  On success and on failure alike the
    latency in the bridge's result is [int((t1 - t0) * 1000)] for the
    clock readings [t0] before and [t1] after the gateway call, the
    difference and the product rounded as binary64 floats and the result
    truncated; the same number is persisted in the record and reported to
    the client; and it is not negative when the wall clock has not been
    set back between the two readings. *)
Theorem latency_is_clock_difference sid p st kvs tool_input h :
  tool_content_end_event kvs ->
  pending_tool st tool_input ->
  accepts_round_trip E ->
  let t0 := time_time E h in
  let g := _call_mcp E settings "tools/invoke"
             (JObj [("name", tool_name st); ("arguments", tool_input)])
             (h ++ [GotTime t0]) in
  let t1 := time_time E (snd g) in
  let latency := py_int (Binary64.mul (Binary64.sub t1 t0) (1000 # 1)) in
  exists r h1 t item notice,
    invoke_tool E settings (tool_name st) tool_input h = (Ok r, h1)
    /\ getitem r "latency_ms" = Ok (JInt latency)
    /\ dispatch_event E settings sid p st (JObj kvs) h = (Ok (Continue, st), h1 ++ t)
    /\ db_put t = [(dynamodb_tools_table settings, item)]
    /\ getitem item "latency_ms" = Ok (JInt latency)
    /\ ws_json_sent t = [notice]
    /\ getitem notice "latency_ms" = Ok (JInt latency)
    /\ (Qle t0 t1 -> (0 <= latency)%Z).
Proof.
  intros Hev Hpend Hacc. cbv zeta.
  pose proof (invoke_tool_run E settings (tool_name st) tool_input h) as Hrun.
  cbv zeta in Hrun.
  destruct (fst (_call_mcp E settings "tools/invoke" _ _)) as [result | e];
    (do 5 eexists; split; [exact Hrun |]; split; [reflexivity |]; split;
     [ eapply dispatch_round_trip; try eassumption; reflexivity
     | repeat split; try reflexivity; apply latency_ms_of_nonneg ]).
Qed.
End ToolRoundTrip.

(* --------------------------------------------------------------------- *)
(** *** The round trip on concrete worlds *)

Import Ref Scenario Cases.

Lemma tool_end_fields_event : tool_content_end_event tool_end_fields.
Proof.
  split; [reflexivity |]. split; [reflexivity |].
  exists [("type", JStr "TOOL")]. split; reflexivity.
Qed.

Lemma announced_pending : pending_tool announced (JObj []).
Proof.
  split; [reflexivity |]. split; [reflexivity |].
  exists (JStr "{}"). split; reflexivity.
Qed.

Lemma quiet_accepts_round_trip : accepts_round_trip quiet.
Proof. intros h c. destruct c; exact I || reflexivity. Qed.

Lemma gateway_down_accepts_round_trip : accepts_round_trip gateway_down.
Proof. intros h c. destruct c; exact I || reflexivity. Qed.

Lemma gateway_down_call_mcp :
  fst (_call_mcp gateway_down settings0 "tools/invoke"
         (JObj [("name", JStr "search"); ("arguments", JObj [])])
         [GotTime (time_time gateway_down [])])
  = Raise (Exception "ConnectError").
Proof. vm_compute. reflexivity. Qed.

(** Claim C1 fails as stated: one [toolUse] announcement followed by two
    TOOL content ends gives one [tool_call_start] but two gateway calls,
    two persisted records and two result blocks, both for [t1]. *)
Lemma second_tool_content_end_runs_the_tool_again :
  let h := snd (dispatch quiet [tool_use_output "t1" "search" "{}";
                                tool_content_end_output;
                                tool_content_end_output]) in
  map (fun m => getitem m "type") (ws_json_sent h)
  = [Ok (JStr "tool_call_start"); Ok (JStr "tool_call_end"); Ok (JStr "tool_call_end")]
  /\ List.length (http_posts (gateway_mcp_url settings0) h) = 2%nat
  /\ List.length (db_put h) = 2%nat
  /\ tx_sent h
     = map wire [tool_content_start_event "p1" "uuid-14" (JStr "t1");
                 tool_result_event "p1" "uuid-14" (JObj [("tools", JArr []); ("answer", JInt 42)]);
                 content_end_event "p1" "uuid-14";
                 tool_content_start_event "p1" "uuid-31" (JStr "t1");
                 tool_result_event "p1" "uuid-31" (JObj [("tools", JArr []); ("answer", JInt 42)]);
                 content_end_event "p1" "uuid-31"].
Proof. vm_compute. repeat split; reflexivity. Qed.

Lemma round_trip_per_tool_content_end_witness :
  exists r h1 t,
    invoke_tool quiet settings0 (JStr "search") (JObj []) [] = (Ok r, h1)
    /\ dispatch_event quiet settings0 "s1" "p1" announced (JObj tool_end_fields) []
       = (Ok (Continue, announced), h1 ++ t)
    /\ List.length (db_put t) = 1%nat.
Proof.
  destruct (round_trip_per_tool_content_end quiet settings0 "s1" "p1" announced
              tool_end_fields (JObj []) [])
    as (r & h1 & o & l & s & Hr & Hd & Hp & _).
  - exact tool_end_fields_event.
  - exact announced_pending.
  - exact quiet_accepts_round_trip.
  - exists r, h1, (round_trip_effects quiet settings0 "s1" "p1" announced (JObj []) o l s h1).
    split; [exact Hr |]. split; [exact Hd |]. rewrite Hp. reflexivity.
Defined.

(** Claim C5 fails as stated: no failure notice reaches the client.
    After a gateway call that raised, the client gets the same two
    messages, with the same fields, as after a call that returned the
    empty object: a [tool_call_start] and a [tool_call_end] with result
    [{}] and neither [success] nor [error]. *)
Lemma failure_is_not_told_to_the_client :
  let script := [tool_use_output "t1" "search" "{}"; tool_content_end_output] in
  let shown := fun m => (getitem m "type", getitem m "tool", getitem m "result",
                         contains "success" m, contains "error" m) in
  let failed := ws_json_sent (snd (dispatch gateway_down script)) in
  let succeeded :=
    ws_json_sent (snd (dispatch (Worlds.gateway_answers (JObj [("result", JObj [])]))
                         script)) in
  map shown failed
  = [(Ok (JStr "tool_call_start"), Ok (JStr "search"), Raise KeyError, Ok false, Ok false);
     (Ok (JStr "tool_call_end"), Ok (JStr "search"), Ok (JObj []), Ok false, Ok false)]
  /\ map shown succeeded = map shown failed
  /\ map (fun ti => getitem (snd ti) "status") (db_put (snd (dispatch gateway_down script)))
     = [Ok (JStr "failed")].
Proof. vm_compute. repeat split; reflexivity. Qed.


Lemma failed_round_trip_carries_empty_object_witness :
  exists latency_ms h1 t,
    invoke_tool gateway_down settings0 (JStr "search") (JObj []) []
    = (Ok (tool_failure "ConnectError" latency_ms), h1)
    /\ ws_json_sent t = [JObj [("type", JStr "tool_call_end");
                               ("tool", JStr "search");
                               ("result", JObj []);
                               ("latency_ms", JInt latency_ms)]].
Proof.
  destruct (failed_round_trip_carries_empty_object gateway_down settings0 "s1" "p1" announced
              tool_end_fields (JObj []) [] (Exception "ConnectError")
              (snd (_call_mcp gateway_down settings0 "tools/invoke"
                      (JObj [("name", JStr "search"); ("arguments", JObj [])])
                      [GotTime (time_time gateway_down [])])))
    as (l & h1 & t & item & name & Hr & _ & _ & _ & _ & _ & _ & _ & _ & Hw).
  - exact tool_end_fields_event.
  - exact announced_pending.
  - exact gateway_down_accepts_round_trip.
  - rewrite <- gateway_down_call_mcp. apply surjective_pairing.
  - exists l, h1, t. split; [exact Hr | exact Hw].
Defined.

(** Claim C8 fails as stated: with the wall clock set back by ten seconds
    during the gateway call, the latency persisted and reported is
    -10000 ms. *)
Lemma clock_set_back_gives_negative_latency :
  let h := snd (dispatch clock_set_back [tool_use_output "t1" "search" "{}";
                                         tool_content_end_output]) in
  map (fun ti => getitem (snd ti) "latency_ms") (db_put h) = [Ok (JInt (-10000))]
  /\ map (fun m => getitem m "latency_ms") (ws_json_sent h)
     = [Raise KeyError; Ok (JInt (-10000))].
Proof. vm_compute. split; reflexivity. Qed.

(** Binary64 arithmetic, not exact arithmetic: between the readings 0.0
    and 0.009 the code measures 9 ms, although the float 0.009 is below
    9/1000. *)
Example latency_is_rounded_as_floats :
  latency_ms_of (0 # 1) (Binary64.round (9 # 1000)) = 9%Z
  /\ py_int (Qmult (Qminus (Binary64.round (9 # 1000)) (0 # 1)) (1000 # 1)) = 8%Z
  /\ Qeq (Binary64.round (1 # 10)) (3602879701896397 # 36028797018963968).
Proof. vm_compute. repeat split; reflexivity. Qed.

(** The same for a timestamp: the reading 1778331461.629, a float just
    below that decimal, gives 1778331461629 ms. *)
Example timestamp_is_rounded_as_floats :
  let t := (7458862762836361 # 4194304)%Q in
  Qeq (Binary64.round t) t
  /\ py_int (Binary64.mul t (1000 # 1)) = 1778331461629%Z
  /\ py_int (Qmult t (1000 # 1)) = 1778331461628%Z.
Proof. vm_compute. repeat split; reflexivity. Qed.

Lemma nine_ms_later_accepts_round_trip : accepts_round_trip FloatClock.nine_ms_later.
Proof. intros h c. destruct c; exact I || reflexivity. Qed.

Lemma latency_is_clock_difference_witness :
  exists r h1 t,
    invoke_tool FloatClock.nine_ms_later settings0 (JStr "search") (JObj []) [] = (Ok r, h1)
    /\ getitem r "latency_ms" = Ok (JInt 9)
    /\ dispatch_event FloatClock.nine_ms_later settings0 "s1" "p1" announced
         (JObj tool_end_fields) []
       = (Ok (Continue, announced), h1 ++ t).
Proof.
  destruct (latency_is_clock_difference FloatClock.nine_ms_later settings0 "s1" "p1"
              announced tool_end_fields (JObj []) [])
    as (r & h1 & t & item & notice & Hr & Hl & Hd & _).
  - exact tool_end_fields_event.
  - exact announced_pending.
  - exact nine_ms_later_accepts_round_trip.
  - exists r, h1, t. split; [exact Hr |]. split; [exact Hl | exact Hd].
Defined.

(* ===================================================================== *)
(** ** The dispatcher's loop *)
(* ===================================================================== *)

Section DispatcherLoop.
Context {L : PyLib} (E : Env) (settings : Settings).

(** An exception in the body of the loop ends the loop: what is left of
    the stream is not read. *)
Lemma loop_stops_when_body_raises sid p st o rest h e h' :
  process_output E settings sid p st o h = (Raise e, h') ->
  process_output_events_from E settings st (o :: rest) sid p h
  = (Ok tt, match e with
            | StopAsyncIteration => h'
            | _ => h' ++ [Logged "error" "Output processing error"]
            end).
Proof.
  intros H. simpl. unfold output_iteration, try_except, bind. rewrite H.
  destruct e; reflexivity.
Qed.

Lemma loop_goes_on_when_body_continues sid p st st' o rest h h' :
  process_output E settings sid p st o h = (Ok (Continue, st'), h') ->
  process_output_events_from E settings st (o :: rest) sid p h
  = process_output_events_from E settings st' rest sid p h'.
Proof.
  intros H. simpl. unfold output_iteration, try_except, bind. rewrite H. reflexivity.
Qed.

Lemma dispatch_unrecognised sid p st event h :
  unrecognised event ->
  dispatch_event E settings sid p st event h = (Ok (Continue, st), h).
Proof.
  intros (Ha & Ht & Hc & Hx & Hd). unfold dispatch_event.
  rewrite Ha, bind_lift. rewrite Ht, bind_lift. rewrite Hc, bind_lift.
  rewrite Hx, bind_lift. rewrite Hd, bind_lift. reflexivity.
Qed.

Lemma getitem_raise_logged x key e h :
  getitem x key = Raise e ->
  after_exception e h = h ++ [Logged "error" "Output processing error"].
Proof.
  destruct x; simpl; try (intros [= <-]; reflexivity).
  destruct (assoc key kvs); intros [= <-]; reflexivity.
Qed.

Lemma contains_raise_logged x key e h :
  contains key x = Raise e ->
  after_exception e h = h ++ [Logged "error" "Output processing error"].
Proof. destruct x; simpl; intros [= <-]; reflexivity. Qed.

(** The body on a payload that decodes, parses and has an [event] entry. *)
Lemma process_output_event sid p st b bs s json_data event h :
  bytes_decode (b :: bs) = Some s ->
  json_loads s = Some json_data ->
  contains "event" json_data = Ok true ->
  getitem json_data "event" = Ok event ->
  process_output E settings sid p st (OutResult (Some (b :: bs))) h
  = dispatch_event E settings sid p st event h.
Proof.
  intros Hdec Hload Hin Hget. unfold process_output, decode_utf8, loads_value.
  rewrite Hdec, bind_lift. rewrite Hload, bind_lift. rewrite Hin, bind_lift.
  rewrite Hget, bind_lift. reflexivity.
Qed.

(** A recognised event whose branch cannot read a field it needs makes
    the branch raise before it has done anything. *)
Lemma dispatch_lacking_field sid p st event h :
  lacks_required_field event ->
  exists e, dispatch_event E settings sid p st event h = (Raise e, h)
            /\ after_exception e h = h ++ [Logged "error" "Output processing error"].
Proof.
  unfold lacks_required_field, unreadable_field, dispatch_event.
  intros [(Ha & audio & e & Hg & Hf)
         | [(Ha & Ht & Hu) | (Ha & Ht & Hc & Hx & Hu)]].
  - exists e. split; [| eapply getitem_raise_logged; exact Hf].
    rewrite Ha, bind_lift. unfold on_audio_output.
    rewrite Hg, !bind_assoc, bind_lift. rewrite Hf. reflexivity.
  - rewrite Ha, bind_lift. rewrite Ht, bind_lift. unfold on_tool_use.
    destruct Hu as [(tu & e & Hg & Hf) | (tu & e & Hg & Hf)];
      rewrite Hg, !bind_assoc, bind_lift.
    + exists e. split; [| eapply getitem_raise_logged; exact Hf].
      rewrite Hf. reflexivity.
    + destruct (getitem tu "toolUseId") as [id | e'] eqn:Hid.
      * exists e. split; [| eapply getitem_raise_logged; exact Hf].
        rewrite !bind_assoc, bind_lift. rewrite Hf. reflexivity.
      * exists e'. split; [| eapply getitem_raise_logged; exact Hid]. reflexivity.
  - rewrite Ha, bind_lift. rewrite Ht, bind_lift. rewrite Hc, bind_lift.
    rewrite Hx, bind_lift. unfold on_text_output.
    destruct Hu as [(tx & e & Hg & Hf) | (tx & e & Hg & Hf)];
      rewrite Hg, !bind_assoc, bind_lift.
    + exists e. split; [| eapply getitem_raise_logged; exact Hf].
      rewrite Hf. reflexivity.
    + destruct (getitem tx "content") as [text | e'] eqn:Hid.
      * exists e. split; [| eapply getitem_raise_logged; exact Hf].
        rewrite !bind_assoc, bind_lift. rewrite Hf. reflexivity.
      * exists e'. split; [| eapply getitem_raise_logged; exact Hid]. reflexivity.
Qed.

Lemma dispatch_completion_end sid p st event h :
  completion_end event ->
  dispatch_event E settings sid p st event h = (Ok (Break, st), h).
Proof.
  intros (Ha & Ht & Hc & Hx & Hd). unfold dispatch_event.
  rewrite Ha, bind_lift. rewrite Ht, bind_lift. rewrite Hc, bind_lift.
  rewrite Hx, bind_lift. rewrite Hd, bind_lift. reflexivity.
Qed.

Lemma loop_ends_when_body_breaks sid p st st' o rest h h' :
  process_output E settings sid p st o h = (Ok (Break, st'), h') ->
  process_output_events_from E settings st (o :: rest) sid p h = (Ok tt, h').
Proof.
  intros H. simpl. unfold output_iteration, try_except, bind. rewrite H. reflexivity.
Qed.

(** Claim C4, as the code has it.  What one output does to the loop, by
    cases.  Skipped, the loop going on with the next output from the same
    state and history: an output without a payload, a payload without an
    [event] key, an event of no recognised kind.  Logged and the end of
    the loop, the outputs that follow unread: a [receive] that raises
    (the transport is unreadable), bytes that are not UTF-8, text that is
    not JSON, a value that cannot hold an [event] key or whose [event]
    cannot be read, a recognised event that lacks a field its branch
    reads, and any other exception of a branch.  The end of the loop
    without a log: [StopAsyncIteration] and a [completionEnd] event. *)
Theorem dispatcher_skips_or_stops sid p st o rest h :
  let loop := process_output_events_from E settings in
  let skips := loop st (o :: rest) sid p h = loop st rest sid p h in
  let stops :=
    loop st (o :: rest) sid p h = (Ok tt, h ++ [Logged "error" "Output processing error"]) in
  let ends := loop st (o :: rest) sid p h = (Ok tt, h) in
  match o with
  | OutRaises StopAsyncIteration => ends
  | OutRaises _ => stops
  | OutResult None => skips
  | OutResult (Some []) => skips
  | OutResult (Some (b :: bs)) =>
      match bytes_decode (b :: bs) with
      | None => stops
      | Some s =>
          match json_loads s with
          | None => stops
          | Some json_data =>
              match contains "event" json_data with
              | Raise _ => stops
              | Ok false => skips
              | Ok true =>
                  match getitem json_data "event" with
                  | Raise _ => stops
                  | Ok event =>
                      (unrecognised event -> skips)
                      /\ (completion_end event -> ends)
                      /\ (lacks_required_field event -> stops)
                      /\ (forall e h',
                            dispatch_event E settings sid p st event h = (Raise e, h') ->
                            loop st (o :: rest) sid p h = (Ok tt, after_exception e h'))
                  end
              end
          end
      end
  end.
Proof.
  cbv zeta.
  destruct o as [e | [[| b bs] |]].
  - rewrite (loop_stops_when_body_raises sid p st (OutRaises e) rest h e h) by reflexivity.
    destruct e; reflexivity.
  - now apply loop_goes_on_when_body_continues.
  - assert (Hbody : process_output E settings sid p st (OutResult (Some (b :: bs))) h
                    = bind (lift (decode_utf8 (b :: bs)))
                        (fun response_data =>
                           bind (lift (loads_value (JStr response_data)))
                             (fun json_data =>
                                bind (lift (contains "event" json_data))
                                  (fun has_event : bool =>
                                     if has_event
                                     then bind (lift (getitem json_data "event"))
                                            (fun event =>
                                               dispatch_event E settings sid p st event)
                                     else ret (Continue, st)))) h) by reflexivity.
    unfold decode_utf8 in Hbody.
    destruct (bytes_decode (b :: bs)) as [s |] eqn:Hdec.
    2:{ now rewrite (loop_stops_when_body_raises _ _ _ _ _ _ UnicodeDecodeError h)
          by exact Hbody. }
    rewrite bind_lift in Hbody. unfold loads_value in Hbody.
    destruct (json_loads s) as [json_data |] eqn:Hload.
    2:{ now rewrite (loop_stops_when_body_raises _ _ _ _ _ _ JSONDecodeError h)
          by exact Hbody. }
    rewrite bind_lift in Hbody.
    destruct (contains "event" json_data) as [[|] | e] eqn:Hin.
    + destruct (getitem json_data "event") as [event | e] eqn:Hget.
      * clear Hbody.
        pose proof (process_output_event sid p st b bs s json_data event h
                      Hdec Hload Hin Hget) as Hbody.
        split; [| split; [| split]].
        -- intros Hun. rewrite dispatch_unrecognised in Hbody by assumption.
           now apply loop_goes_on_when_body_continues.
        -- intros Hend. rewrite dispatch_completion_end in Hbody by assumption.
           now apply (loop_ends_when_body_breaks _ _ _ st).
        -- intros Hlack.
           destruct (dispatch_lacking_field sid p st event h Hlack) as (e & Hd & Hlog).
           rewrite Hd in Hbody.
           rewrite (loop_stops_when_body_raises _ _ _ _ _ _ e h) by exact Hbody.
           fold (after_exception e h). now rewrite Hlog.
        -- intros e h' Hd. rewrite Hd in Hbody.
           now rewrite (loop_stops_when_body_raises _ _ _ _ _ _ e h') by exact Hbody.
      * rewrite bind_lift in Hbody.
        rewrite (loop_stops_when_body_raises _ _ _ _ _ _ e h) by exact Hbody.
        fold (after_exception e h). now rewrite (getitem_raise_logged _ _ _ h Hget).
    + rewrite bind_lift in Hbody. now apply loop_goes_on_when_body_continues.
    + rewrite (loop_stops_when_body_raises _ _ _ _ _ _ e h) by exact Hbody.
      fold (after_exception e h). now rewrite (contains_raise_logged _ _ _ h Hin).
  - now apply loop_goes_on_when_body_continues.
Qed.
End DispatcherLoop.

(** Claim C4 fails as stated: after a payload that is not JSON, or an
    [audioOutput] event without its [content] field, the audio that
    follows is never forwarded; alone, it is. *)
Lemma malformed_payload_ends_the_dispatcher :
  ws_bytes_sent (snd (dispatch quiet [OutResult (Some (list_byte_of_string "{"));
                                      audio_output "TWFu"])) = []
  /\ ws_bytes_sent (snd (dispatch quiet [out_event "audioOutput" (JObj []);
                                         audio_output "TWFu"])) = []
  /\ ws_bytes_sent (snd (dispatch quiet [audio_output "TWFu"])) = [list_byte_of_string "Man"].
Proof. vm_compute. repeat split; reflexivity. Qed.

Lemma dispatcher_skips_or_stops_witness :
  process_output_events_from quiet settings0 no_tool
    [OutResult (Some (list_byte_of_string "{")); audio_output "TWFu"] "s1" "p1" []
  = (Ok tt, [Logged "error" "Output processing error"])
  /\ dispatch quiet [out_event "toolUse" (JObj [("toolUseId", JStr "t1")]);
                     audio_output "TWFu"]
     = (Ok tt, [Logged "error" "Output processing error"])
  /\ dispatch quiet [completion_end_output; audio_output "TWFu"] = (Ok tt, [])
  /\ dispatch quiet [OutRaises (Exception "stream reset"); audio_output "TWFu"]
     = (Ok tt, [Logged "error" "Output processing error"])
  /\ dispatch quiet [OutRaises StopAsyncIteration; audio_output "TWFu"] = (Ok tt, []).
Proof.
  split; [| split; [| split; [| split]]].
  - exact (dispatcher_skips_or_stops quiet settings0 "s1" "p1" no_tool
             (OutResult (Some (list_byte_of_string "{"))) [audio_output "TWFu"] []).
  - refine (proj1 (proj2 (proj2
              (dispatcher_skips_or_stops quiet settings0 "s1" "p1" no_tool
                 (out_event "toolUse" (JObj [("toolUseId", JStr "t1")]))
                 [audio_output "TWFu"] []))) _).
    right. left. split; [reflexivity |]. split; [reflexivity |]. right.
    exists (JObj [("toolUseId", JStr "t1")]), KeyError. split; reflexivity.
  - refine (proj1 (proj2
              (dispatcher_skips_or_stops quiet settings0 "s1" "p1" no_tool
                 completion_end_output [audio_output "TWFu"] [])) _).
    repeat split; reflexivity.
  - exact (dispatcher_skips_or_stops quiet settings0 "s1" "p1" no_tool
             (OutRaises (Exception "stream reset")) [audio_output "TWFu"] []).
  - exact (dispatcher_skips_or_stops quiet settings0 "s1" "p1" no_tool
             (OutRaises StopAsyncIteration) [audio_output "TWFu"] []).
Defined.

(** An event of a kind the dispatcher does not know is skipped. *)
Example unknown_kind_is_skipped :
  dispatch quiet [out_event "usageEvent" (JObj []); audio_output "TWFu"]
  = dispatch quiet [audio_output "TWFu"].
Proof. vm_compute. reflexivity. Qed.

(* ===================================================================== *)
(** ** The input relay *)
(* ===================================================================== *)

Section InputRelay.
Context {L : PyLib} (E : Env).

Lemma audio_input_stream_binary chunk rest :
  audio_input_stream (binary_frame chunk :: rest)
  = GenYield (Some chunk) (audio_input_stream rest).
Proof. reflexivity. Qed.

Lemma audio_input_stream_end text rest :
  is_end_control (Some text) = Ok true ->
  audio_input_stream (text_frame text :: rest) = GenStop.
Proof. intros H. cbn -[is_end_control]. now rewrite H. Qed.

Lemma forward_audio_chunk_run p c chunk h :
  transport_accepts E ->
  forward_audio_chunk E (Some chunk) p c h
  = (Ok tt, h ++ (if nonempty chunk then [forwarded p c chunk] else [])).
Proof.
  intros Hacc. destruct chunk as [| b bs]; simpl.
  - unfold ret. now rewrite app_nil_r.
  - unfold _send_raw_event. now rewrite call_accepted by apply Hacc.
Qed.

Lemma audio_input_stream_control text rest :
  is_end_control (Some text) = Ok false ->
  audio_input_stream (text_frame text :: rest) = audio_input_stream rest.
Proof. intros H. cbn -[is_end_control]. now rewrite H. Qed.

(** Claim C6, as the code has it.  When the transport accepts the sends,
    a sequence of audio frames and control messages that ends with an
    [end] control message makes the relay forward one [audioInput] event
    for each audio frame that is not empty, in arrival order, its content
    the base64 text of the frame; nothing else is sent, an empty frame is
    dropped, and no frame after the [end] message is forwarded. *)
Theorem relay_forwards_each_nonempty_frame p c frames end_text rest h :
  transport_accepts E ->
  Forall keeps_reading frames ->
  is_end_control (Some end_text) = Ok true ->
  _process_audio_input E
    (audio_input_stream (map received frames ++ text_frame end_text :: rest)) p c h
  = (Ok tt, h ++ map (forwarded p c) (filter nonempty (audio_of frames))).
Proof.
  intros Hacc Hframes Hend. revert h.
  induction Hframes as [| f frames Hf _ IH]; intros h.
  - simpl app. rewrite audio_input_stream_end by assumption.
    simpl. unfold ret. now rewrite app_nil_r.
  - destruct f as [pcm | text]; simpl map; simpl app; simpl received.
    + rewrite audio_input_stream_binary. simpl _process_audio_input.
      rewrite (bind_ok _ _ _ _ _ (forward_audio_chunk_run p c pcm h Hacc)).
      rewrite IH. simpl audio_of. simpl filter. destruct (nonempty pcm); simpl.
      * now rewrite <- app_assoc.
      * now rewrite app_nil_r.
    + rewrite audio_input_stream_control by exact Hf. apply IH.
Qed.
End InputRelay.

Lemma quiet_transport_accepts : transport_accepts quiet.
Proof. intros h payload. reflexivity. Qed.

Lemma end_control_is_end :
  is_end_control (Some (dumps (JObj [("type", JStr "end")]))) = Ok true.
Proof. vm_compute. reflexivity. Qed.

(** Claim C6 fails as stated: of two binary frames, the empty one yields
    no [audioInput] event. *)
Lemma empty_binary_frame_is_not_forwarded :
  tx_sent (snd (relay quiet [binary_frame []; binary_frame abc; end_control]))
  = [wire (audio_input_event "p1" "a1" "YWJj")].
Proof. vm_compute. reflexivity. Qed.

Lemma mute_control_keeps_reading :
  keeps_reading (Control (dumps (JObj [("type", JStr "mute")]))).
Proof. vm_compute. reflexivity. Qed.

(** Three audio frames with a control message among them, the [end]
    message, and a frame that arrives too late. *)
Lemma relay_forwards_each_nonempty_frame_witness :
  _process_audio_input quiet
    (audio_input_stream
       (map received [Audio abc; Control (dumps (JObj [("type", JStr "mute")]));
                      Audio abc; Audio abc]
        ++ end_control :: [binary_frame abc])) "p1" "a1" []
  = (Ok tt, [forwarded "p1" "a1" abc; forwarded "p1" "a1" abc; forwarded "p1" "a1" abc]).
Proof.
  apply (relay_forwards_each_nonempty_frame quiet "p1" "a1"
           [Audio abc; Control (dumps (JObj [("type", JStr "mute")])); Audio abc; Audio abc]
           (dumps (JObj [("type", JStr "end")])) [binary_frame abc] []
           quiet_transport_accepts).
  - constructor; [exact I |]. constructor; [exact mute_control_keeps_reading |].
    repeat constructor.
  - exact end_control_is_end.
Defined.

(* ===================================================================== *)
(** ** The session: handshake, streaming, teardown *)
(* ===================================================================== *)

#[export] Hint Resolve get_tool_definitions_keeps invoke_tool_keeps cache_set_keeps
  add_tool_call_keeps add_message_keeps send_raw_event_keeps send_tool_result_keeps
  output_iteration_keeps process_output_events_from_keeps forward_audio_chunk_keeps
  process_audio_input_keeps gather_keeps send_initialization_keeps end_stream_keeps
  stream_conversation_keeps update_session_state_keeps : emits.

Section Session.
Context {L : PyLib} (E : Env) (settings : Settings).

Lemma bind_call_cases {B} c (k : unit -> M B) h :
  bind (call E c) k h = k tt (h ++ [Did c None])
  \/ exists e, bind (call E c) k h = (Raise e, h ++ [Did c (Some e)]).
Proof.
  unfold bind, call. destruct (raises E h c) as [e |]; [right; now exists e | now left].
Qed.


(** Whatever the two tasks do, the [try] around [gather] ends normally. *)
Lemma streaming_errors_are_swallowed sid g outs sched p a h :
  exists t,
    try_except (gather E settings sched g no_tool outs sid p a)
      (fun _ => logger_error "Streaming error") h = (Ok tt, h ++ t)
    /\ Forall keeps_marker t.
Proof.
  destruct (gather_keeps E settings sched g no_tool outs sid p a h) as [t [Et Ft]].
  unfold try_except.
  destruct (gather E settings sched g no_tool outs sid p a h) as [[[] | e] hg];
    simpl in Et; subst hg.
  - now exists t.
  - exists (t ++ [Logged "error" "Streaming error"]). unfold logger_error.
    rewrite app_assoc. split; [reflexivity |].
    apply Forall_app. split; [assumption | repeat constructor].
Qed.

Lemma end_stream_run p a h :
  accepts_lifecycle E ->
  end_stream E p a h
  = (Ok tt, h ++ map (fun ev => Did (TxSend (wire ev)) None) (closing_events p a)).
Proof.
  intros [_ Hlife].
  unfold end_stream, _send_audio_content_end, _send_prompt_end, _send_session_end,
    _send_raw_event.
  run_with ltac:(apply Hlife; simpl; tauto).
  simpl map. unfold wire. repeat rewrite <- app_assoc. reflexivity.
Qed.

Lemma send_initialization_run p c a tools h :
  accepts_lifecycle E ->
  send_initialization E settings p c a tools h
  = (Ok tt, h ++ map (fun ev => Did (TxSend (wire ev)) None)
                   (handshake_events settings p c a tools)).
Proof.
  intros [_ Hlife].
  unfold send_initialization, _send_session_start, _send_prompt_start,
    _send_system_prompt, _send_audio_content_start, _send_raw_event.
  run_with ltac:(apply Hlife; simpl; tauto).
  simpl map. unfold wire. repeat rewrite <- app_assoc. reflexivity.
Qed.
End Session.

(** Split on whether the next call of a coroutine is accepted. *)
Ltac call_cases e :=
  match goal with
  | |- context [bind (call ?E ?c) ?k ?h] =>
      destruct (bind_call_cases E c k h) as [-> | [e ->]]
  end.


Section Conversation.
Context {L : PyLib} (E : Env) (settings : Settings).

(** With tools available and a transport that takes the lifecycle
    events, a conversation ends normally, its last three effects the
    closing sends. *)
Lemma stream_conversation_completes sid g outs sched h :
  tools_available E settings ->
  accepts_lifecycle E ->
  exists p a t,
    stream_conversation E settings sid g outs sched h
    = (Ok tt, (h ++ t) ++ closing_sends p a)
    /\ Forall keeps_marker t.
Proof.
  intros Htools Hlife. unfold stream_conversation.
  rewrite bind_str_uuid4. set (p := uuid4 E h). set (h1 := h ++ [GotUuid p]).
  rewrite bind_str_uuid4. set (c := uuid4 E h1). set (h2 := h1 ++ [GotUuid c]).
  rewrite bind_str_uuid4. set (a := uuid4 E h2). set (h3 := h2 ++ [GotUuid a]).
  destruct (Htools h3) as (tools & h4 & Hg).
  destruct (get_tool_definitions_keeps E settings h3) as [tg [Etg Ftg]].
  rewrite Hg in Etg. simpl in Etg. subst h4.
  rewrite (bind_ok _ _ _ _ _ Hg).
  rewrite bind_call_accepted by apply Hlife.
  rewrite (bind_ok _ _ _ _ _ (send_initialization_run E settings p c a tools _ Hlife)).
  set (h6 := ((h3 ++ tg) ++ _) ++ _).
  unfold try_finally.
  destruct (streaming_errors_are_swallowed E settings sid g outs sched p a h6) as [ts [Es Fs]].
  rewrite Es. rewrite end_stream_run by assumption.
  exists p, a,
    ([GotUuid p; GotUuid c; GotUuid a] ++ tg
     ++ [Did (OpenStream (bedrock_model_id settings)) None]
     ++ map (fun ev => Did (TxSend (wire ev)) None) (handshake_events settings p c a tools)
     ++ ts).
  split.
  - unfold closing_sends. f_equal. f_equal. subst h6 h3 h2 h1.
    repeat rewrite <- app_assoc. reflexivity.
  - repeat (apply Forall_app; split); try assumption; repeat constructor.
Qed.

(** Claim C2, as the code has it.  When the tool definitions can be
    fetched and the model stream opens and takes the lifecycle events,
    [stream_conversation] returns normally whatever the client sends,
    whatever the model stream delivers or raises, however the two tasks
    interleave and whatever the other collaborators do: an exception of
    the relay or the dispatcher is logged and swallowed. *)
Theorem stream_conversation_returns_normally sid client_in outs sched h :
  tools_available E settings ->
  accepts_lifecycle E ->
  fst (stream_conversation E settings sid (audio_input_stream client_in) outs sched h) = Ok tt.
Proof.
  intros Htools Hlife.
  destruct (stream_conversation_completes sid (audio_input_stream client_in) outs sched h
              Htools Hlife) as (p & a & t & Hrun & _).
  now rewrite Hrun.
Qed.


End Conversation.

Section Handler.
Context {L : PyLib} (E : Env) (settings : Settings).

Lemma off_transport_tx_attempted t : Forall off_transport t -> tx_attempted t = [].
Proof.
  induction 1 as [| e t He _ IH]; [reflexivity |].
  destruct e as [[] ?| | | | | |]; simpl in *; try assumption; contradiction.
Qed.

Lemma cache_set_run key v ttl h :
  exists b t, cache_set E key v ttl h = (Ok b, h ++ t) /\ Forall keeps_marker t.
Proof.
  unfold cache_set, try_except, bind, call, logger_error, ret.
  destruct (raises E h (RedisSetex key ttl (json_dumps v))) as [e |].
  - exists false. eexists. rewrite <- app_assoc. split; [reflexivity | repeat constructor].
  - exists true. eexists. split; [reflexivity | repeat constructor].
Qed.

(** [cache.delete] calls Redis once and never raises. *)
Lemma cache_delete_run key h :
  exists b r t,
    cache_delete E key h = (Ok b, h ++ Did (RedisDelete key) r :: t)
    /\ redis_deletes t = [] /\ tx_attempted t = [].
Proof.
  unfold cache_delete, try_except, bind, call, logger_error, ret.
  destruct (raises E h (RedisDelete key)) as [e |].
  - exists false, (Some e), [Logged "error" "Redis delete error"].
    rewrite <- app_assoc. repeat split.
  - exists true, None, []. repeat split.
Qed.

Lemma update_session_state_off_transport sid state :
  emits off_transport (update_session_state E settings sid state).
Proof. unfold update_session_state, get_session. emits_tac. Qed.

(** Claim C7, as the code has it.  For a session that reaches the audio
    phase (the socket is accepted, the tools are fetched, the stream
    opens and takes the lifecycle events) and whose row can be marked
    ended: whatever the client sends or however it disconnects, whatever
    the model stream delivers or raises, and whatever goes wrong in the
    relay or the dispatcher, the handler returns normally, the three
    closing events are the last things sent on the model transport, in
    order, and [redis.delete] is called on the session-active key exactly
    once. *)
Theorem session_is_torn_down_and_unmarked sid client_in outs sched h :
  (forall h0, raises E h0 WsAccept = None) ->
  tools_available E settings ->
  accepts_lifecycle E ->
  session_can_end E settings sid ->
  let run := handle_audio_stream E settings sid client_in outs sched h in
  fst run = Ok tt
  /\ (exists before p a after,
        snd run = (before ++ closing_sends p a) ++ after /\ tx_attempted after = [])
  /\ redis_deletes (snd run) = redis_deletes h ++ [session_active_key sid].
Proof.
  intros Hacc Htools Hlife Hend. cbv zeta. unfold handle_audio_stream.
  rewrite bind_call_accepted by apply Hacc. rewrite bind_logger_info.
  set (h2 := (h ++ _) ++ _).
  assert (Hh2 : redis_deletes h2 = redis_deletes h).
  { subst h2. repeat rewrite redis_deletes_app. simpl. now repeat rewrite app_nil_r. }
  clearbody h2.
  destruct (cache_set_run (session_active_key sid) (JBool true) (JInt 600) h2)
    as (b & ts & Hs & Fs).
  rewrite (bind_ok _ _ _ _ _ Hs).
  destruct (stream_conversation_completes E settings sid (audio_input_stream client_in)
              outs sched (h2 ++ ts) Htools Hlife) as (p & a & t & Hrun & Ft).
  unfold try_finally, try_except. rewrite Hrun.
  set (h3 := ((h2 ++ ts) ++ t) ++ closing_sends p a).
  destruct (Hend h3) as (hu & Hu).
  destruct (update_session_state_keeps E settings sid "ended" h3) as [tu [Etu Ftu]].
  destruct (update_session_state_off_transport sid "ended" h3) as [tu' [Etu' Ftu']].
  rewrite Hu in Etu, Etu'. simpl in Etu, Etu'. subst hu.
  apply app_inv_head in Etu'. subst tu'.
  rewrite (bind_ok _ _ _ _ _ Hu).
  destruct (cache_delete_run (session_active_key sid) (h3 ++ tu)) as (b' & r & td & Hd & Rd & Td).
  rewrite (bind_ok _ _ _ _ _ Hd). unfold logger_info. simpl fst. simpl snd.
  split; [reflexivity |]. split.
  - exists ((h2 ++ ts) ++ t), p, a,
      (tu ++ Did (RedisDelete (session_active_key sid)) r :: td
       ++ [Logged "info" "Session ended"]).
    split.
    + subst h3. repeat rewrite <- app_assoc. simpl. reflexivity.
    + assert (Hk : forall x, tx_attempted (Did (RedisDelete (session_active_key sid)) r :: x)
                             = tx_attempted x) by reflexivity.
      rewrite tx_attempted_app, (off_transport_tx_attempted tu) by assumption.
      rewrite Hk, tx_attempted_app, Td. reflexivity.
  - subst h3. repeat rewrite redis_deletes_app. rewrite Hh2.
    rewrite (keeps_marker_redis_deletes ts), (keeps_marker_redis_deletes t),
      (keeps_marker_redis_deletes tu) by assumption.
    assert (Hc : redis_deletes (closing_sends p a) = []) by reflexivity.
    assert (Hk : redis_deletes (Did (RedisDelete (session_active_key sid)) r :: td)
                 = session_active_key sid :: redis_deletes td) by reflexivity.
    rewrite Hc, Hk, Rd. simpl. now repeat rewrite app_nil_r.
Qed.
End Handler.

(* --------------------------------------------------------------------- *)
(** *** Sessions on concrete worlds *)

Lemma quiet_tools_available : tools_available quiet settings0.
Proof. intros h. do 2 eexists. cbv -[app List.length Z.of_nat Z.mul Z.quot]. reflexivity. Qed.

Lemma quiet_accepts_lifecycle : accepts_lifecycle quiet.
Proof. split; intros; reflexivity. Qed.

Lemma quiet_session_can_end : session_can_end quiet settings0 "s1".
Proof. intros h. eexists. cbv -[app List.length Z.of_nat Z.mul Z.quot]. reflexivity. Qed.

(** Claim C2 fails as stated: when the transport stops taking sends after
    the handshake, the first closing send raises, the exception leaves
    [stream_conversation], and [promptEnd] and [sessionEnd] are never
    attempted; when it stops after two sends, the handshake's exception
    leaves it as well and no closing event is attempted. *)
Lemma failed_closing_send_escapes :
  let late := conversation (transport_closes_after 6) [end_control] [completion_end_output] [] in
  let early := conversation (transport_closes_after 2) [end_control] [completion_end_output] [] in
  fst late = Raise (Exception "stream closed")
  /\ tx_attempted (snd late)
     = map wire (handshake_events settings0 "uuid-0" "uuid-1" "uuid-2" (JArr [])
                 ++ [content_end_event "uuid-0" "uuid-2"])
  /\ fst early = Raise (Exception "stream closed")
  /\ tx_attempted (snd early)
     = map wire [session_start_event;
                 prompt_start_event settings0 "uuid-0" (JArr []);
                 text_content_start_event "uuid-0" "uuid-1"].
Proof. vm_compute. repeat split; reflexivity. Qed.

(** The client sends a frame and disconnects; the model stream breaks. *)
Lemma stream_conversation_returns_normally_witness :
  fst (stream_conversation quiet settings0 "s1"
         (audio_input_stream [binary_frame abc; WsRaises WebSocketDisconnect])
         [OutRaises (Exception "stream reset")] [true; false] []) = Ok tt.
Proof.
  exact (stream_conversation_returns_normally quiet settings0 "s1"
           [binary_frame abc; WsRaises WebSocketDisconnect]
           [OutRaises (Exception "stream reset")] [true; false] []
           quiet_tools_available quiet_accepts_lifecycle).
Defined.

(** Claim C7 fails as stated.  When the sessions table has no row for the
    session, [update_session_state] raises in the handler's [finally] and
    [redis.delete] is never called, although the conversation itself
    closed in order.  When the transport stops taking sends after the
    handshake, only the first closing event is attempted. *)
Lemma marker_survives_failed_session_update :
  let lost := session no_session_row [end_control] [completion_end_output] [] in
  let closed := session (transport_closes_after 6) [end_control] [completion_end_output] [] in
  fst lost = Raise TypeError
  /\ tx_sent (snd lost)
     = map wire (handshake_events settings0 "uuid-3" "uuid-4" "uuid-5" (JArr [])
                 ++ closing_events "uuid-3" "uuid-5")
  /\ redis_deletes (snd lost) = []
  /\ tx_attempted (snd closed)
     = map wire (handshake_events settings0 "uuid-3" "uuid-4" "uuid-5" (JArr [])
                 ++ [content_end_event "uuid-3" "uuid-5"]).
Proof. vm_compute. repeat split; reflexivity. Qed.

(** The client sends a frame and disconnects abruptly. *)
Lemma session_is_torn_down_and_unmarked_witness :
  let run := session quiet [binary_frame abc; WsRaises WebSocketDisconnect]
               [completion_end_output] [true; false] in
  fst run = Ok tt /\ redis_deletes (snd run) = ["session_active:s1"].
Proof.
  destruct (session_is_torn_down_and_unmarked quiet settings0 "s1"
              [binary_frame abc; WsRaises WebSocketDisconnect]
              [completion_end_output] [true; false] [])
    as (Hok & _ & Hdel).
  - intros h0. reflexivity.
  - exact quiet_tools_available.
  - exact quiet_accepts_lifecycle.
  - exact quiet_session_can_end.
  - split; [exact Hok | exact Hdel].
Defined.


(** Claim C3 fails as stated: with the gateway unreachable the
    conversation raises before anything is sent, and on a transport that
    stops taking sends after two, only [sessionStart] and [promptStart]
    go out. *)
Lemma failed_handshake_step_cuts_the_handshake :
  let down := conversation gateway_down [binary_frame abc; end_control]
                [completion_end_output] [true; false] in
  let closed := conversation (transport_closes_after 2) [binary_frame abc; end_control]
                  [completion_end_output] [true; false] in
  fst down = Raise (Exception "ConnectError")
  /\ tx_attempted (snd down) = []
  /\ fst closed = Raise (Exception "stream closed")
  /\ tx_sent (snd closed)
     = map wire [session_start_event; prompt_start_event settings0 "uuid-0" (JArr [])].
Proof. vm_compute. repeat split; reflexivity. Qed.


(** A session whose handshake goes through: the first six payloads. *)
Example handshake_of_a_quiet_conversation :
  firstn 6 (tx_sent (snd (conversation quiet [end_control] [completion_end_output] [])))
  = map wire (handshake_events settings0 "uuid-0" "uuid-1" "uuid-2" (JArr [])).
Proof. vm_compute. reflexivity. Qed.

(* ===================================================================== *)
(** ** The Redis cache *)
(* ===================================================================== *)

Section CacheFacts.
Context {L : PyLib} (E : Env).

Lemma cache_get_hit key h s v :
  redis_get E h key = Ok (Some s) ->
  (s =? "") = false ->
  json_loads s = Some v ->
  cache_get E key h = (Ok v, h ++ [GotRedis key (Ok (Some s))]).
Proof.
  intros Hr Hs Hv. unfold cache_get, try_except, bind, client_get.
  rewrite Hr. simpl. rewrite Hs. simpl. unfold lift, loads_value. now rewrite Hv.
Qed.

Lemma cache_get_miss key h :
  redis_get E h key = Ok None ->
  cache_get E key h = (Ok JNull, h ++ [GotRedis key (Ok None)]).
Proof.
  intros Hr. unfold cache_get, try_except, bind, client_get. now rewrite Hr.
Qed.

Lemma cache_get_run key h :
  exists t,
    cache_get E key h = (Ok (cached_value (redis_get E h key)),
                         h ++ GotRedis key (redis_get E h key) :: t)
    /\ Forall (fun e => e = Logged "error" "Redis get error") t.
Proof.
  unfold cache_get, try_except, bind, client_get, cached_value.
  destruct (redis_get E h key) as [[s |] | e]; simpl.
  - destruct (s =? ""); simpl.
    + exists []. now split.
    + unfold lift, loads_value. destruct (json_loads s); simpl.
      * exists []. now split.
      * eexists. rewrite <- app_assoc. simpl. split; [reflexivity |]. repeat constructor.
  - exists []. now split.
  - eexists. rewrite <- app_assoc. simpl. split; [reflexivity |]. repeat constructor.
Qed.

Lemma cache_set_writes key v ttl h :
  exists b hs,
    cache_set E key v ttl h = (Ok b, hs)
    /\ redis_writes hs = redis_writes h ++ [(key, ttl, json_dumps v)].
Proof.
  unfold cache_set, try_except, bind, call, logger_error, ret.
  destruct (raises E h (RedisSetex key ttl (json_dumps v))); do 2 eexists;
    (split; [reflexivity |]); unfold redis_writes; repeat rewrite flat_map_app; simpl;
    now repeat rewrite app_nil_r.
Qed.

Lemma cache_set_extends key v ttl h :
  exists b t,
    cache_set E key v ttl h = (Ok b, h ++ t)
    /\ Forall gateway_side t
    /\ redis_writes t = [(key, ttl, json_dumps v)].
Proof.
  unfold cache_set, try_except, bind, call, logger_error, ret.
  destruct (raises E h (RedisSetex key ttl (json_dumps v))); do 2 eexists;
    rewrite <- ?app_assoc; (split; [reflexivity |]); split; try reflexivity;
    repeat constructor.
Qed.

(** X1.  [cache.get] never raises: it returns the parsed value, and
    [None] when Redis raises, has no value or an empty one under the key,
    or holds text that is not JSON. *)
Theorem cache_get_never_raises key h :
  fst (cache_get E key h) = Ok (cached_value (redis_get E h key))
  /\ exists t, snd (cache_get E key h) = h ++ GotRedis key (redis_get E h key) :: t
               /\ Forall (fun e => e = Logged "error" "Redis get error") t.
Proof.
  destruct (cache_get_run key h) as (t & Hrun & Ht). rewrite Hrun.
  split; [reflexivity |]. now exists t.
Qed.

(** X2.  [cache.set] and [cache.delete] never raise: each makes one call
    to Redis and answers whether it went through. *)
Theorem cache_writes_report_failure key v ttl h :
  fst (cache_set E key v ttl h)
  = Ok (match raises E h (RedisSetex key ttl (json_dumps v)) with
        | None => true
        | Some _ => false
        end)
  /\ redis_writes (snd (cache_set E key v ttl h)) = redis_writes h ++ [(key, ttl, json_dumps v)]
  /\ fst (cache_delete E key h)
     = Ok (match raises E h (RedisDelete key) with None => true | Some _ => false end)
  /\ redis_deletes (snd (cache_delete E key h)) = redis_deletes h ++ [key].
Proof.
  unfold cache_set, cache_delete, try_except, bind, call, logger_error, ret.
  destruct (raises E h (RedisSetex key ttl (json_dumps v)));
    destruct (raises E h (RedisDelete key)); simpl;
    unfold redis_writes, redis_deletes;
    repeat rewrite flat_map_app; simpl; repeat rewrite app_nil_r; repeat split.
Qed.
End CacheFacts.

(* ===================================================================== *)
(** ** The gateway client *)
(* ===================================================================== *)

Lemma redis_writes_app h t : redis_writes (h ++ t) = redis_writes h ++ redis_writes t.
Proof. apply flat_map_app. Qed.

Lemma http_requests_app h t : http_requests (h ++ t) = http_requests h ++ http_requests t.
Proof. apply flat_map_app. Qed.

Section GatewayFacts.
Context {L : PyLib} (E : Env) (settings : Settings).

(** X3.  A token found in the cache is returned as it is: no request goes
    to the token endpoint and nothing is written to the cache. *)
Theorem token_is_served_from_cache h s token :
  redis_get E h "gateway_oauth_token" = Ok (Some s) ->
  (s =? "") = false ->
  json_loads s = Some token ->
  truthy token = true ->
  _get_oauth_token E settings h
  = (Ok token, h ++ [GotRedis "gateway_oauth_token" (Ok (Some s))]).
Proof.
  intros Hr Hs Hv Ht. unfold _get_oauth_token.
  rewrite (bind_ok _ _ _ _ _ (cache_get_hit E _ _ _ _ Hr Hs Hv)). now rewrite Ht.
Qed.

(** X4.  On a cache miss the token endpoint is asked once; the access
    token of its answer is returned and written to the cache for
    [expires_in - 300] seconds, [expires_in] being 3600 when the answer
    does not give it, whether or not Redis takes the write. *)
Theorem fetched_token_is_cached_with_margin h kvs token expires_in :
  redis_get E h "gateway_oauth_token" = Ok None ->
  http_post E (h ++ [GotRedis "gateway_oauth_token" (Ok None)])
    (oauth_token_url settings) token_headers (token_form settings) = Ok (JObj kvs) ->
  assoc "access_token" kvs = Some token ->
  match assoc "expires_in" kvs with
  | Some v => v = JInt expires_in
  | None => expires_in = 3600%Z
  end ->
  let run := _get_oauth_token E settings h in
  fst run = Ok token
  /\ http_requests (snd run) = http_requests h ++ [oauth_token_url settings]
  /\ redis_writes (snd run)
     = redis_writes h ++ [("gateway_oauth_token", JInt (expires_in - 300), json_dumps token)].
Proof.
  intros Hr Hp Ha He. cbv zeta. unfold _get_oauth_token.
  rewrite (bind_ok _ _ _ _ _ (cache_get_miss E _ _ Hr)). cbn [truthy].
  assert (Hs : sub_int (match assoc "expires_in" kvs with
                        | Some v => v
                        | None => JInt 3600
                        end) 300 = Ok (JInt (expires_in - 300))).
  { destruct (assoc "expires_in" kvs); subst; reflexivity. }
  unfold try_except, httpx_post, bind, lift, getitem, dict_get, cache_set, try_except,
    call, logger_error, logger_info, ret.
  cbv beta zeta. unfold token_headers, token_form in Hp. rewrite Hp.
  cbv beta iota zeta. rewrite Ha. cbv beta iota zeta. rewrite Hs. cbv beta iota zeta.
  unfold bind. cbv beta iota zeta.
  match goal with
  | |- context [raises E ?hh ?c] => destruct (raises E hh c)
  end; cbv beta iota zeta; cbn [fst snd];
    repeat rewrite http_requests_app; repeat rewrite redis_writes_app; simpl;
    repeat rewrite app_nil_r; repeat rewrite <- app_assoc; repeat split.
Qed.

(** X5.  When the token endpoint raises, or answers without an access
    token, [_get_oauth_token] raises that exception and writes nothing to
    the cache. *)
Theorem failed_token_fetch_is_raised h e :
  redis_get E h "gateway_oauth_token" = Ok None ->
  let answer := http_post E (h ++ [GotRedis "gateway_oauth_token" (Ok None)])
                  (oauth_token_url settings) token_headers (token_form settings) in
  (answer = Raise e
   \/ exists token_data, answer = Ok token_data /\ getitem token_data "access_token" = Raise e) ->
  let run := _get_oauth_token E settings h in
  fst run = Raise e /\ redis_writes (snd run) = redis_writes h.
Proof.
  intros Hr answer Hans. cbv zeta. unfold _get_oauth_token.
  rewrite (bind_ok _ _ _ _ _ (cache_get_miss E _ _ Hr)). cbn [truthy].
  unfold try_except, httpx_post, bind, lift, logger_error, raise.
  cbv beta zeta. subst answer. unfold token_headers, token_form in Hans.
  destruct Hans as [Hp | (td & Hp & Hget)]; rewrite Hp; cbv beta iota zeta.
  - cbn [fst snd]. repeat rewrite redis_writes_app. simpl. now repeat rewrite app_nil_r.
  - rewrite Hget. cbv beta iota zeta. cbn [fst snd].
    repeat rewrite redis_writes_app. simpl. now repeat rewrite app_nil_r.
Qed.

(** X6.  With a token in hand, [_call_mcp] posts one JSON-RPC request.
    An answer with an [error] entry raises [MCP error: ...], even when a
    result comes with it; otherwise the [result] entry is returned, or
    the empty object when there is none. *)
Theorem call_mcp_outcome method params h token h1 kvs :
  _get_oauth_token E settings h = (Ok token, h1) ->
  let now := time_time E h1 in
  http_post E (h1 ++ [GotTime now]) (gateway_mcp_url settings)
    (mcp_headers token) (mcp_payload method params now) = Ok (JObj kvs) ->
  fst (_call_mcp E settings method params h)
  = match assoc "error" kvs with
    | Some err => Raise (Exception ("MCP error: " ++ py_str err))
    | None => Ok (match assoc "result" kvs with
                  | Some result => result
                  | None => JObj []
                  end)
    end.
Proof.
  intros Ht now Hp. unfold _call_mcp.
  rewrite (bind_ok _ _ _ _ _ Ht). rewrite bind_time. fold now.
  unfold try_except, httpx_post, bind at 1. cbv beta zeta.
  unfold mcp_headers, mcp_payload in Hp. rewrite Hp.
  unfold contains, getitem, dict_get.
  destruct (assoc "error" kvs) as [err |]; reflexivity.
Qed.
End GatewayFacts.

(* --------------------------------------------------------------------- *)
(** *** What a kind of effect leaves untouched *)

Lemma flat_map_none {A B} (f : A -> list B) (t : list A) :
  Forall (fun a => f a = []) t -> flat_map f t = [].
Proof. induction 1 as [| a t Ha _ IH]; simpl; [reflexivity | now rewrite Ha, IH]. Qed.

Lemma ws_bytes_sent_app h t : ws_bytes_sent (h ++ t) = ws_bytes_sent h ++ ws_bytes_sent t.
Proof. apply flat_map_app. Qed.

Lemma db_updates_app h t : db_updates (h ++ t) = db_updates h ++ db_updates t.
Proof. apply flat_map_app. Qed.

Lemma streams_opened_app h t : streams_opened (h ++ t) = streams_opened h ++ streams_opened t.
Proof. apply flat_map_app. Qed.

(** Close a goal [projection t = []] from [Forall kind t], by cases on
    the effect. *)
Ltac untouched H :=
  apply flat_map_none; eapply Forall_impl; [| exact H];
  let e := fresh "e" in
  intros e; destruct e as [[] ?| | | | | |]; simpl; intros; trivial; contradiction.

Section Untouched.
Variable t : History.

Lemma gateway_side_quiet :
  Forall gateway_side t ->
  tx_attempted t = [] /\ ws_json_sent t = [] /\ ws_bytes_sent t = []
  /\ db_put t = [] /\ db_updates t = [] /\ redis_deletes t = [] /\ streams_opened t = [].
Proof. intros H. repeat split; untouched H. Qed.

Lemma persistence_side_quiet :
  Forall persistence_side t ->
  tx_attempted t = [] /\ ws_json_sent t = [] /\ ws_bytes_sent t = []
  /\ redis_deletes t = [] /\ redis_writes t = [] /\ streams_opened t = []
  /\ http_requests t = [].
Proof. intros H. repeat split; untouched H. Qed.
End Untouched.

Section GatewayReach.
Context {L : PyLib} (E : Env) (settings : Settings).

(** X7.  The gateway client touches only its HTTP endpoints, its Redis
    cache, the clock and the log: neither invoking a tool nor fetching
    the tool definitions sends anything to the model or the client,
    writes to DynamoDB, deletes a Redis key or opens a model stream. *)
Theorem gateway_client_stays_on_its_side name args h :
  let invoked := snd (invoke_tool E settings name args h) in
  let fetched := snd (get_tool_definitions E settings h) in
  (tx_attempted invoked = tx_attempted h /\ ws_json_sent invoked = ws_json_sent h
   /\ ws_bytes_sent invoked = ws_bytes_sent h /\ db_put invoked = db_put h
   /\ db_updates invoked = db_updates h /\ redis_deletes invoked = redis_deletes h
   /\ streams_opened invoked = streams_opened h)
  /\ (tx_attempted fetched = tx_attempted h /\ ws_json_sent fetched = ws_json_sent h
      /\ ws_bytes_sent fetched = ws_bytes_sent h /\ db_put fetched = db_put h
      /\ db_updates fetched = db_updates h /\ redis_deletes fetched = redis_deletes h
      /\ streams_opened fetched = streams_opened h).
Proof.
  cbv zeta.
  destruct (invoke_tool_gateway E settings name args h) as [ti [Ei Fi]].
  destruct (get_tool_definitions_gateway E settings h) as [tf [Ef Ff]].
  rewrite Ei, Ef.
  destruct (gateway_side_quiet ti Fi) as (A1 & A2 & A3 & A4 & A5 & A6 & A7).
  destruct (gateway_side_quiet tf Ff) as (B1 & B2 & B3 & B4 & B5 & B6 & B7).
  rewrite !tx_attempted_app, !ws_json_sent_app, !ws_bytes_sent_app, !db_put_app,
    !db_updates_app, !redis_deletes_app, !streams_opened_app.
  rewrite A1, A2, A3, A4, A5, A6, A7, B1, B2, B3, B4, B5, B6, B7.
  rewrite !app_nil_r. repeat split.
Qed.

Lemma only_logs_http_requests t :
  Forall (fun e => e = Logged "error" "Redis get error") t -> http_requests t = [].
Proof. intros H. apply flat_map_none. eapply Forall_impl; [| exact H]. now intros e ->. Qed.

Lemma only_logs_redis_writes t :
  Forall (fun e => e = Logged "error" "Redis get error") t -> redis_writes t = [].
Proof. intros H. apply flat_map_none. eapply Forall_impl; [| exact H]. now intros e ->. Qed.

(** X8.  A tool list found in the cache and not empty is returned without
    a request to the gateway. *)
Theorem cached_tools_are_served h :
  truthy (cached_value (redis_get E h "gateway_tools_list")) = true ->
  let run := list_tools E settings h in
  fst run = Ok (cached_value (redis_get E h "gateway_tools_list"))
  /\ http_requests (snd run) = http_requests h
  /\ redis_writes (snd run) = redis_writes h.
Proof.
  intros Ht. cbv zeta. unfold list_tools.
  destruct (cache_get_run E "gateway_tools_list" h) as (t & Hrun & Flog).
  rewrite (bind_ok _ _ _ _ _ Hrun), Ht. unfold ret. cbn [fst snd].
  split; [reflexivity |].
  rewrite http_requests_app, redis_writes_app. simpl.
  rewrite (only_logs_http_requests t Flog), (only_logs_redis_writes t Flog).
  now rewrite !app_nil_r.
Qed.

(** X9.  When the cache gives no tool list, or an empty one, the gateway
    is asked for [tools/list]; the list it answers (empty when the answer
    has no [tools] entry) is returned and written to the cache for an
    hour.  An empty list is thus fetched again on every call. *)
Theorem uncached_tools_are_fetched_and_cached h result h2 tools n :
  truthy (cached_value (redis_get E h "gateway_tools_list")) = false ->
  _call_mcp E settings "tools/list" JNull (snd (cache_get E "gateway_tools_list" h))
  = (Ok result, h2) ->
  dict_get result "tools" (JArr []) = Ok tools ->
  len tools = Ok n ->
  let run := list_tools E settings h in
  fst run = Ok tools
  /\ redis_writes (snd run)
     = redis_writes h2 ++ [("gateway_tools_list", JInt 3600, json_dumps tools)].
Proof.
  intros Ht Hmcp Htools Hlen. cbv zeta. unfold list_tools.
  destruct (cache_get_run E "gateway_tools_list" h) as (t & Hrun & Flog).
  rewrite Hrun in Hmcp. cbn [snd] in Hmcp.
  rewrite (bind_ok _ _ _ _ _ Hrun), Ht.
  rewrite (bind_ok _ _ _ _ _ Hmcp). rewrite Htools, bind_lift.
  destruct (cache_set_writes E "gateway_tools_list" tools (JInt 3600) h2) as (b & hs & Hset & Hw).
  rewrite (bind_ok _ _ _ _ _ Hset). rewrite Hlen, bind_lift.
  unfold bind, logger_info, ret. cbn [fst snd].
  split; [reflexivity |]. rewrite redis_writes_app, Hw. simpl. now rewrite app_nil_r.
Qed.

(** X10.  Converting the gateway's tools keeps their number, their order
    and their names. *)
Theorem tool_definitions_keep_names (tools : list json) :
  Forall (fun tool => exists kvs name, tool = JObj kvs /\ assoc "name" kvs = Some name) tools ->
  exists converted,
    bedrock_tools tools = Ok converted
    /\ List.length converted = List.length tools
    /\ map tool_spec_name converted = map (fun tool => getitem tool "name") tools.
Proof.
  induction 1 as [| tool rest (kvs & name & -> & Hname) _ (converted & Hc & Hl & Hn)].
  - exists []. repeat split.
  - eexists. simpl. unfold bedrock_tool, getitem, dict_get. rewrite Hname, Hc.
    split; [reflexivity |]. simpl. rewrite Hl, Hn. now split.
Qed.

(** X11.  One tool without a name makes the whole conversion raise: no
    partial list of definitions is produced. *)
Theorem unnamed_tool_fails_the_conversion (tools : list json) tool e :
  In tool tools ->
  getitem tool "name" = Raise e ->
  exists e', bedrock_tools tools = Raise e'.
Proof.
  intros Hin Hname. induction tools as [| t rest IH]; [contradiction |].
  simpl. destruct Hin as [-> | Hin].
  - unfold bedrock_tool. rewrite Hname. now exists e.
  - destruct (bedrock_tool t); [| eauto].
    destruct (IH Hin) as [e' ->]. now exists e'.
Qed.
End GatewayReach.

(* ===================================================================== *)
(** ** The persistence layer and the routes *)
(* ===================================================================== *)

Section PersistenceFacts.
Context {L : PyLib} (E : Env) (settings : Settings).

Lemma get_session_run sid h :
  exists v t,
    get_session E settings sid h
    = (Ok v, h ++ GotQuery (dynamodb_sessions_table settings) sid
                    (db_query E h (dynamodb_sessions_table settings) sid) :: t)
    /\ Forall (fun e => e = Logged "error" "Get session error") t.
Proof.
  unfold get_session, try_except, bind, table_query, lift, logger_error, ret.
  destruct (db_query E h (dynamodb_sessions_table settings) sid) as [response | e]; simpl.
  - destruct (dict_get response "Items" (JArr [])) as [items | e]; simpl.
    + destruct (truthy items); simpl.
      * destruct (first_item items); simpl.
        -- do 2 eexists. split; [reflexivity | constructor].
        -- do 2 eexists. rewrite <- app_assoc. simpl. split; [reflexivity | repeat constructor].
      * do 2 eexists. split; [reflexivity | constructor].
    + do 2 eexists. rewrite <- app_assoc. simpl. split; [reflexivity | repeat constructor].
  - do 2 eexists. rewrite <- app_assoc. simpl. split; [reflexivity | repeat constructor].
Qed.

Lemma get_session_persistence sid : emits persistence_side (get_session E settings sid).
Proof. unfold get_session. emits_tac. Qed.

Lemma update_session_state_persistence sid state :
  emits persistence_side (update_session_state E settings sid state).
Proof. unfold update_session_state, get_session. emits_tac. Qed.

(** X12.  [get_session] never raises.  It returns [None] when the query
    raises and when the answer has no items, and the first item
    otherwise. *)
Theorem get_session_never_raises sid h :
  let answer := db_query E h (dynamodb_sessions_table settings) sid in
  let found := fst (get_session E settings sid h) in
  (exists v, found = Ok v)
  /\ (forall e, answer = Raise e -> found = Ok JNull)
  /\ (forall kvs, answer = Ok (JObj kvs) ->
        assoc "Items" kvs = None \/ assoc "Items" kvs = Some (JArr []) -> found = Ok JNull)
  /\ (forall kvs row rest, answer = Ok (JObj kvs) ->
        assoc "Items" kvs = Some (JArr (row :: rest)) -> found = Ok row).
Proof.
  cbv zeta. split.
  - destruct (get_session_run sid h) as (v & t & Hrun & _). rewrite Hrun. now exists v.
  - unfold get_session, try_except, bind, table_query, lift, logger_error, ret.
    repeat split.
    + intros e ->. reflexivity.
    + intros kvs -> [Hi | Hi]; simpl; rewrite Hi; reflexivity.
    + intros kvs row rest -> Hi. simpl. rewrite Hi. reflexivity.
Qed.

(** X13.  [update_session_state] on a session that [get_session] does not
    find raises a [TypeError] and calls [update_item] not at all. *)
Theorem update_of_a_missing_session_raises sid state h :
  fst (get_session E settings sid h) = Ok JNull ->
  let run := update_session_state E settings sid state h in
  fst run = Raise TypeError /\ db_updates (snd run) = db_updates h.
Proof.
  intros Hnone. cbv zeta.
  destruct (get_session_run sid h) as (v & t & Hrun & Flog).
  rewrite Hrun in Hnone. cbn [fst] in Hnone. injection Hnone as ->.
  unfold update_session_state. rewrite (bind_ok _ _ _ _ _ Hrun).
  cbn [getitem]. unfold bind, lift. cbn [fst snd]. split; [reflexivity |].
  rewrite db_updates_app. simpl.
  assert (Ht : db_updates t = []).
  { apply flat_map_none. eapply Forall_impl; [| exact Flog]. now intros e ->. }
  now rewrite Ht, app_nil_r.
Qed.

(** X14.  For a session that is found, [update_session_state] makes one
    [update_item] call on the row keyed by the session id and the row's
    [start_time], setting the state and the time of the update. *)
Theorem update_targets_the_session_row sid state h row h1 start_time :
  get_session E settings sid h = (Ok row, h1) ->
  getitem row "start_time" = Ok start_time ->
  db_updates (snd (update_session_state E settings sid state h))
  = db_updates h
    ++ [(JObj [("session_id", JStr sid); ("start_time", start_time)],
         JObj [(":state", JStr state);
               (":ts", JInt (py_int (Binary64.mul (time_time E h1) (1000 # 1))))])].
Proof.
  intros Hget Hstart.
  destruct (get_session_run sid h) as (v & t & Hrun & Flog).
  rewrite Hrun in Hget. injection Hget as -> <-.
  unfold update_session_state. rewrite (bind_ok _ _ _ _ _ Hrun).
  rewrite Hstart, bind_lift, bind_time. unfold call.
  assert (Ht : db_updates t = []).
  { apply flat_map_none. eapply Forall_impl; [| exact Flog]. now intros e ->. }
  destruct (raises E _ _); cbn [snd]; repeat rewrite db_updates_app; simpl;
    rewrite Ht; now repeat rewrite app_nil_r.
Qed.

(** X15.  [end_session] answers 404 [Session not found] when the session
    has no row and also when the query itself raises, since [get_session]
    turns that into [None]; nothing is updated and no cache key is
    deleted. *)
Theorem end_session_answers_404 sid h :
  (let answer := db_query E h (dynamodb_sessions_table settings) sid in
   (exists e, answer = Raise e)
   \/ (exists kvs, answer = Ok (JObj kvs)
                   /\ (assoc "Items" kvs = None \/ assoc "Items" kvs = Some (JArr [])))) ->
  let run := end_session E settings sid h in
  fst run = Raise (HTTPException 404 "Session not found")
  /\ db_updates (snd run) = db_updates h
  /\ redis_deletes (snd run) = redis_deletes h.
Proof.
  intros Hans. cbv zeta.
  destruct (get_session_run sid h) as (v & t & Hrun & Flog).
  assert (Hv : v = JNull).
  { revert Hrun. unfold get_session, try_except, bind, table_query, lift, logger_error, ret.
    cbv zeta in Hans. destruct Hans as [[e ->] | (kvs & -> & [Hi | Hi])];
      simpl; try rewrite Hi; simpl; now intros [= <- _]. }
  subst v. unfold end_session. rewrite (bind_ok _ _ _ _ _ Hrun). cbn [truthy negb].
  unfold raise. cbn [fst snd]. split; [reflexivity |].
  rewrite db_updates_app, redis_deletes_app. simpl.
  assert (Ht : db_updates t = [] /\ redis_deletes t = []).
  { split; apply flat_map_none; (eapply Forall_impl; [| exact Flog]); now intros e ->. }
  destruct Ht as [-> ->]. now rewrite !app_nil_r.
Qed.

(** X16.  When the session is found and its row updated, [end_session]
    deletes the cached session and then the session-active marker, and
    answers with status [ended]. *)
Theorem end_session_clears_both_keys sid h row h1 h2 :
  get_session E settings sid h = (Ok row, h1) ->
  truthy row = true ->
  update_session_state E settings sid "ended" h1 = (Ok tt, h2) ->
  let run := end_session E settings sid h in
  fst run = Ok (JObj [("status", JStr "ended"); ("session_id", JStr sid)])
  /\ redis_deletes (snd run)
     = redis_deletes h ++ [session_key sid; session_active_key sid].
Proof.
  intros Hget Hrow Hupd. cbv zeta. unfold end_session.
  rewrite (bind_ok _ _ _ _ _ Hget), Hrow. cbn [negb].
  rewrite (bind_ok _ _ _ _ _ Hupd).
  destruct (cache_delete_run E (session_key sid) h2) as (b1 & r1 & t1 & Hd1 & R1 & _).
  rewrite (bind_ok _ _ _ _ _ Hd1).
  destruct (cache_delete_run E (session_active_key sid)
              (h2 ++ Did (RedisDelete (session_key sid)) r1 :: t1))
    as (b2 & r2 & t2 & Hd2 & R2 & _).
  rewrite (bind_ok _ _ _ _ _ Hd2).
  unfold bind, logger_info, ret. cbn [fst snd]. split; [reflexivity |].
  destruct (get_session_persistence sid h) as [tg [Eg Fg]].
  destruct (update_session_state_persistence sid "ended" h1) as [tu [Eu Fu]].
  rewrite Hget in Eg. rewrite Hupd in Eu. cbn [snd] in Eg, Eu. subst h1 h2.
  destruct (persistence_side_quiet tg Fg) as (_ & _ & _ & Dg & _).
  destruct (persistence_side_quiet tu Fu) as (_ & _ & _ & Du & _).
  assert (K1 : forall k r x, redis_deletes (Did (RedisDelete k) r :: x) = k :: redis_deletes x)
    by reflexivity.
  rewrite !redis_deletes_app, !K1, R1, R2, Dg, Du. simpl.
  rewrite !app_nil_r, <- !app_assoc. reflexivity.
Qed.

(** X17.  [start_session] stores a new row, caches it for an hour under
    the session's key and answers with the same identifier everywhere:
    in the row, in the cache key, in the WebSocket URL and in the
    response, whose [created_at] is the row's [start_time].  The row is
    [active], and its user is [anonymous] when none was given. *)
Theorem start_session_is_consistent user_id h :
  (forall h0 item, raises E h0 (DbPutItem (dynamodb_sessions_table settings) item) = None) ->
  let run := start_session E settings user_id h in
  let id := uuid4 E h in
  exists item created_at,
    fst run = Ok (JObj [("session_id", JStr id);
                        ("websocket_url",
                         JStr ("ws://localhost:8000/ws/audio?session_id=" ++ id));
                        ("created_at", created_at)])
    /\ db_put (snd run) = db_put h ++ [(dynamodb_sessions_table settings, item)]
    /\ redis_writes (snd run)
       = redis_writes h ++ [(session_key id, JInt 3600, json_dumps item)]
    /\ getitem item "session_id" = Ok (JStr id)
    /\ getitem item "start_time" = Ok created_at
    /\ getitem item "last_updated" = Ok created_at
    /\ getitem item "state" = Ok (JStr "active")
    /\ getitem item "user_id" = Ok (if truthy user_id then user_id else JStr "anonymous").
Proof.
  intros Hput. cbv zeta. unfold start_session, create_session.
  rewrite bind_str_uuid4. rewrite !bind_assoc. rewrite bind_time.
  rewrite !bind_assoc. rewrite bind_time. rewrite !bind_assoc.
  rewrite bind_call_accepted by apply Hput.
  rewrite !bind_assoc, bind_logger_info, bind_ret.
  match goal with
  | |- context [bind (cache_set E ?k ?v ?ttl) _ ?hh] =>
      destruct (cache_set_extends E k v ttl hh) as (b & ts & Hset & Fs & Hw)
  end.
  rewrite (bind_ok _ _ _ _ _ Hset), bind_logger_info.
  cbn [getitem assoc String.eqb Ascii.eqb Bool.eqb]. rewrite bind_lift.
  unfold ret. cbn [fst snd]. do 2 eexists. split; [reflexivity |].
  destruct (gateway_side_quiet ts Fs) as (_ & _ & _ & Dp & _).
  split; [| split].
  - repeat rewrite db_put_app. rewrite Dp. simpl. now repeat rewrite app_nil_r.
  - repeat rewrite redis_writes_app. rewrite Hw. simpl. now repeat rewrite app_nil_r.
  - repeat split.
Qed.

(** X18.  When DynamoDB refuses the new row, [start_session] raises that
    exception and caches nothing. *)
Theorem start_session_needs_the_store user_id h e :
  (forall h0 item, raises E h0 (DbPutItem (dynamodb_sessions_table settings) item) = Some e) ->
  let run := start_session E settings user_id h in
  fst run = Raise e /\ redis_writes (snd run) = redis_writes h /\ db_put (snd run) = db_put h.
Proof.
  intros Hput. cbv zeta. unfold start_session, create_session.
  rewrite bind_str_uuid4. rewrite !bind_assoc. rewrite bind_time.
  rewrite !bind_assoc. rewrite bind_time. rewrite !bind_assoc.
  erewrite bind_call_refused by apply Hput.
  cbn [fst snd]. split; [reflexivity |].
  repeat rewrite redis_writes_app. repeat rewrite db_put_app. simpl.
  now repeat rewrite app_nil_r.
Qed.
End PersistenceFacts.

(* ===================================================================== *)
(** ** More on the relay and the dispatcher *)
(* ===================================================================== *)

Section RelayFacts.
Context {L : PyLib} (E : Env).

(** X19.  A text frame that cannot be read as a control message (it is
    not JSON, or not a JSON object) ends the relay: the error is logged
    and no frame that arrives after it is forwarded. *)
Theorem unreadable_control_ends_the_relay p c text what rest h :
  is_end_control (Some text) = Raise (Exception what) ->
  _process_audio_input E (audio_input_stream (text_frame text :: rest)) p c h
  = (Ok tt, h ++ [Logged "error" "Audio receive error"]).
Proof.
  intros Hctl. cbn -[is_end_control]. rewrite Hctl. reflexivity.
Qed.

(** X20.  A message that has a [bytes] key is taken for audio whatever
    its [text]: an [end] message delivered with a null [bytes] entry
    beside it does not stop the relay, which goes on with the frames
    that follow. *)
Theorem end_beside_a_bytes_key_is_not_seen p c text rest h :
  _process_audio_input E
    (audio_input_stream
       (WsData {| ws_bytes := Some None; ws_text := Some (Some text) |} :: rest)) p c h
  = _process_audio_input E (audio_input_stream rest) p c h.
Proof. reflexivity. Qed.

(** X21.  A send that raises ends the relay with that exception: the
    frames that follow are neither read nor sent. *)
Theorem failed_send_ends_the_relay p c b bs rest h e :
  raises E h (TxSend (wire (audio_input_event p c (Base64.b64encode (b :: bs))))) = Some e ->
  _process_audio_input E (audio_input_stream (binary_frame (b :: bs) :: rest)) p c h
  = (Raise e,
     h ++ [Did (TxSend (wire (audio_input_event p c (Base64.b64encode (b :: bs))))) (Some e)]).
Proof.
  intros Hr. rewrite audio_input_stream_binary. simpl _process_audio_input.
  unfold forward_audio_chunk, _send_raw_event.
  now rewrite (bind_call_refused _ _ _ _ _ Hr).
Qed.
End RelayFacts.

Section DispatcherFacts.
Context {L : PyLib} (E : Env) (settings : Settings).

Lemma output_iteration_returns sid p st o h :
  exists r h', output_iteration E settings sid p st o h = (Ok r, h').
Proof.
  unfold output_iteration, try_except.
  destruct (process_output E settings sid p st o h) as [[r | e] h']; [eauto |].
  destruct e; unfold bind, logger_error, ret; eauto.
Qed.

(** X22.  The dispatcher returns normally on every stream of outputs and
    in every world: whatever is raised inside its loop is caught there. *)
Theorem dispatcher_never_raises outs sid p h :
  fst (_process_output_events E settings outs sid p h) = Ok tt.
Proof.
  unfold _process_output_events. generalize no_tool as st. revert h.
  induction outs as [| o rest IH]; intros h st; [reflexivity |].
  simpl. destruct (output_iteration_returns sid p st o h) as ([ctl st'] & h' & Hit).
  rewrite (bind_ok _ _ _ _ _ Hit). destruct ctl; [apply IH | reflexivity].
Qed.

(** X23.  A [contentEnd] of type TOOL that comes while no tool name or no
    tool payload is captured, as before any announcement, is passed
    over: no tool is invoked and nothing is persisted or sent. *)
Theorem tool_content_end_without_announcement sid p st kvs h :
  tool_content_end_event kvs ->
  truthy (tool_name st) = false \/ truthy (tool_content st) = false ->
  dispatch_event E settings sid p st (JObj kvs) h = (Ok (Continue, st), h).
Proof.
  intros Hev Hst. rewrite dispatch_tool_content_end by assumption.
  unfold on_tool_content_end.
  assert (Hg : andb (truthy (tool_name st)) (truthy (tool_content st)) = false).
  { destruct Hst as [-> | ->]; [reflexivity | apply andb_false_r]. }
  rewrite Hg. reflexivity.
Qed.

(** X24.  A [toolUse] announcement replaces whatever was pending with its
    own identifier, name and payload, and tells the client
    [tool_call_start] with the tool's name and its parsed input, which is
    the empty object's text when the announcement has no [content]. *)
Theorem tool_use_is_captured_and_announced sid p st kvs tu id name input h :
  assoc "audioOutput" kvs = None ->
  assoc "toolUse" kvs = Some (JObj tu) ->
  assoc "toolUseId" tu = Some id ->
  assoc "toolName" tu = Some name ->
  loads_value (match assoc "content" tu with Some content => content | None => JStr "{}" end)
  = Ok input ->
  (forall h0 m, raises E h0 (WsSendJson m) = None) ->
  dispatch_event E settings sid p st (JObj kvs) h
  = (Ok (Continue, {| tool_use_id := id; tool_name := name; tool_content := JObj tu |}),
     h ++ [Logged "info" "Tool use detected";
           Did (WsSendJson (JObj [("type", JStr "tool_call_start");
                                  ("tool", name);
                                  ("input", input)])) None]).
Proof.
  intros Ha Ht Hid Hname Hin Hws.
  unfold dispatch_event, on_tool_use, contains, getitem, dict_get.
  rewrite Ha, bind_lift. rewrite Ht, bind_lift.
  rewrite !bind_assoc, bind_lift. cbv beta iota. rewrite Hid.
  rewrite !bind_assoc, bind_lift. rewrite Hname.
  rewrite !bind_assoc, bind_lift. rewrite !bind_assoc, bind_logger_info.
  rewrite !bind_assoc, bind_lift. rewrite Hin.
  rewrite !bind_assoc, bind_lift.
  rewrite !bind_assoc, bind_call_accepted by apply Hws.
  unfold bind, ret. now rewrite <- app_assoc.
Qed.

(** X25.  A [textOutput] event appends one message to the transcript:
    its text, its role as [str.lower()] returns it, and no tool call. *)
Theorem text_output_is_persisted sid p st kvs fields text role h :
  assoc "audioOutput" kvs = None ->
  assoc "toolUse" kvs = None ->
  is_tool_content_end (JObj kvs) = Ok false ->
  assoc "textOutput" kvs = Some (JObj fields) ->
  assoc "content" fields = Some text ->
  assoc "role" fields = Some (JStr role) ->
  (forall h0 item, raises E h0 (DbPutItem (dynamodb_messages_table settings) item) = None) ->
  let t1 := time_time E h in
  let t2 := time_time E (h ++ [GotTime t1]) in
  let item := JObj [("session_id", JStr sid);
                    ("ts_message", JInt (py_int (Binary64.mul t1 (1000 # 1))));
                    ("role", JStr (py_lower role));
                    ("text", text);
                    ("expires_at", JInt (py_int t2 + session_ttl_hours settings * 3600))] in
  dispatch_event E settings sid p st (JObj kvs) h
  = (Ok (Continue, st),
     h ++ [GotTime t1; GotTime t2;
           Did (DbPutItem (dynamodb_messages_table settings) item) None]).
Proof.
  intros Ha Ht Hc Hx Htext Hrole Hput. cbv zeta.
  unfold dispatch_event. unfold contains at 1. rewrite Ha, bind_lift.
  unfold contains at 1. rewrite Ht, bind_lift. rewrite Hc, bind_lift.
  unfold contains at 1. rewrite Hx, bind_lift.
  unfold on_text_output, add_message, getitem, str_lower. rewrite Hx.
  rewrite !bind_assoc, bind_lift. cbv beta iota. rewrite Htext.
  rewrite !bind_assoc, bind_lift. rewrite Hrole.
  rewrite !bind_assoc, bind_lift. cbv beta iota.
  rewrite !bind_assoc, bind_lift.
  rewrite !bind_assoc, bind_time. rewrite !bind_assoc, bind_time.
  cbn [truthy]. rewrite bind_call_accepted by apply Hput.
  unfold ret. now rewrite <- !app_assoc.
Qed.

(** X26.  A [completionEnd] event ends the dispatcher at once: the
    outputs that follow it are not read. *)
Theorem completion_end_stops_the_dispatcher sid p st b bs s top kvs v rest h :
  bytes_decode (b :: bs) = Some s ->
  json_loads s = Some (JObj top) ->
  assoc "event" top = Some (JObj kvs) ->
  assoc "audioOutput" kvs = None ->
  assoc "toolUse" kvs = None ->
  is_tool_content_end (JObj kvs) = Ok false ->
  assoc "textOutput" kvs = None ->
  assoc "completionEnd" kvs = Some v ->
  process_output_events_from E settings st (OutResult (Some (b :: bs)) :: rest) sid p h
  = (Ok tt, h).
Proof.
  intros Hdec Hload Hev Ha Ht Hc Hx Hd.
  assert (Hp : process_output E settings sid p st (OutResult (Some (b :: bs))) h
               = (Ok (Break, st), h)).
  { unfold process_output, decode_utf8, loads_value.
    rewrite Hdec, bind_lift. rewrite Hload, bind_lift.
    unfold contains at 1. rewrite Hev, bind_lift.
    unfold getitem. rewrite Hev, bind_lift.
    unfold dispatch_event. unfold contains at 1. rewrite Ha, bind_lift.
    unfold contains at 1. rewrite Ht, bind_lift. rewrite Hc, bind_lift.
    unfold contains at 1. rewrite Hx, bind_lift.
    unfold contains at 1. rewrite Hd, bind_lift. reflexivity. }
  simpl. unfold output_iteration, try_except, bind. now rewrite Hp.
Qed.

(** X27.  After a successful gateway call the gateway's result is what is
    persisted as the record's output, with status [success], what is
    serialized into the [toolResult] sent to the model, and what the
    client's [tool_call_end] carries. *)
Theorem successful_round_trip_carries_the_result sid p st kvs tool_input h result hg :
  tool_content_end_event kvs ->
  pending_tool st tool_input ->
  accepts_round_trip E ->
  _call_mcp E settings "tools/invoke"
    (JObj [("name", tool_name st); ("arguments", tool_input)])
    (h ++ [GotTime (time_time E h)]) = (Ok result, hg) ->
  exists latency_ms h1 t item name,
    invoke_tool E settings (tool_name st) tool_input h
    = (Ok (tool_success result latency_ms), h1)
    /\ dispatch_event E settings sid p st (JObj kvs) h = (Ok (Continue, st), h1 ++ t)
    /\ db_put t = [(dynamodb_tools_table settings, item)]
    /\ getitem item "status" = Ok (JStr "success")
    /\ getitem item "output" = Ok result
    /\ getitem item "input" = Ok tool_input
    /\ tx_sent t = map wire [tool_content_start_event p name (tool_use_id st);
                             tool_result_event p name result;
                             content_end_event p name]
    /\ ws_json_sent t = [JObj [("type", JStr "tool_call_end");
                               ("tool", tool_name st);
                               ("result", result);
                               ("latency_ms", JInt latency_ms)]].
Proof.
  intros Hev Hpend Hacc Hmcp.
  pose proof (invoke_tool_run E settings (tool_name st) tool_input h) as Hrun.
  cbv zeta in Hrun. rewrite Hmcp in Hrun. cbn [fst snd] in Hrun.
  do 5 eexists. split; [exact Hrun |]. split.
  - eapply dispatch_round_trip; try eassumption; reflexivity.
  - repeat split; reflexivity.
Qed.
(** X30.  An [audioOutput] event is checked for first: whatever other
    keys the event has, its content is decoded from base64 and sent to
    the client as one binary frame, and nothing else happens. *)
Theorem audio_output_reaches_the_client sid p st kvs fields s audio_bytes h :
  assoc "audioOutput" kvs = Some (JObj fields) ->
  assoc "content" fields = Some (JStr s) ->
  b64decode s = Some audio_bytes ->
  raises E h (WsSendBytes audio_bytes) = None ->
  dispatch_event E settings sid p st (JObj kvs) h
  = (Ok (Continue, st), h ++ [Did (WsSendBytes audio_bytes) None]).
Proof.
  intros Ha Hc Hb Hws.
  unfold dispatch_event, on_audio_output, contains, getitem, b64decode_value.
  rewrite Ha, bind_lift.
  rewrite !bind_assoc, bind_lift. cbv beta iota. rewrite Hc.
  rewrite !bind_assoc, bind_lift. rewrite Hb.
  rewrite !bind_assoc, bind_lift.
  now rewrite bind_call_accepted by exact Hws.
Qed.
End DispatcherFacts.

(* ===================================================================== *)
(** ** More on the session handler and the conversation *)
(* ===================================================================== *)

Section HandlerFacts.
Context {L : PyLib} (E : Env) (settings : Settings).

Lemma cache_delete_extends key h :
  exists b r t,
    cache_delete E key h = (Ok b, h ++ Did (RedisDelete key) r :: t)
    /\ Forall gateway_side t.
Proof.
  unfold cache_delete, try_except, bind, call, logger_error, ret.
  destruct (raises E h (RedisDelete key)) as [e |].
  - exists false, (Some e), [Logged "error" "Redis delete error"].
    rewrite <- app_assoc. split; [reflexivity | repeat constructor].
  - exists true, None, []. split; [reflexivity | constructor].
Qed.

(** Without tool definitions a conversation raises before it opens the
    model stream. *)
Lemma conversation_without_tools sid g outs sched h :
  tools_unavailable E settings ->
  exists what t,
    stream_conversation E settings sid g outs sched h = (Raise (Exception what), h ++ t)
    /\ tx_attempted t = [] /\ ws_json_sent t = []
    /\ streams_opened t = [] /\ redis_deletes t = [].
Proof.
  intros Hno. unfold stream_conversation.
  rewrite bind_str_uuid4. set (p := uuid4 E h). set (h1 := h ++ [GotUuid p]).
  rewrite bind_str_uuid4. set (c := uuid4 E h1). set (h2 := h1 ++ [GotUuid c]).
  rewrite bind_str_uuid4. set (a := uuid4 E h2). set (h3 := h2 ++ [GotUuid a]).
  destruct (Hno h3) as (what & h4 & Hg).
  destruct (get_tool_definitions_gateway E settings h3) as [tg [Etg Ftg]].
  rewrite Hg in Etg. simpl in Etg. subst h4.
  rewrite (bind_raise _ _ _ _ _ Hg).
  destruct (gateway_side_quiet tg Ftg) as (T & W & _ & _ & _ & D & S).
  exists what, ([GotUuid p; GotUuid c; GotUuid a] ++ tg). split.
  - subst h3 h2 h1. now rewrite <- !app_assoc.
  - rewrite tx_attempted_app, ws_json_sent_app, streams_opened_app, redis_deletes_app,
      T, W, S, D. repeat split.
Qed.

(** X28.  When the gateway cannot hand out tool definitions, a session
    never reaches the model: no stream is opened and nothing is sent on
    the model transport; the client is told with one [error] message, and
    the session is still marked ended and its session-active key deleted
    once.  The handler returns normally. *)
Theorem gateway_outage_is_reported_to_the_client sid client_in outs sched h :
  (forall h0, raises E h0 WsAccept = None) ->
  (forall h0 m, raises E h0 (WsSendJson m) = None) ->
  tools_unavailable E settings ->
  session_can_end E settings sid ->
  let run := handle_audio_stream E settings sid client_in outs sched h in
  fst run = Ok tt
  /\ streams_opened (snd run) = streams_opened h
  /\ tx_attempted (snd run) = tx_attempted h
  /\ (exists what,
        ws_json_sent (snd run)
        = ws_json_sent h ++ [JObj [("type", JStr "error"); ("message", JStr what)]])
  /\ redis_deletes (snd run) = redis_deletes h ++ [session_active_key sid].
Proof.
  intros Hacc Hws Hno Hend. cbv zeta. unfold handle_audio_stream.
  rewrite bind_call_accepted by apply Hacc. rewrite bind_logger_info.
  destruct (cache_set_extends E (session_active_key sid) (JBool true) (JInt 600)
              ((h ++ [Did WsAccept None]) ++ [Logged "info" "WebSocket connected"]))
    as (b & ts & Hs & Fs & _).
  rewrite (bind_ok _ _ _ _ _ Hs).
  match goal with
  | |- context [try_finally _ _ ?hh] =>
      destruct (conversation_without_tools sid (audio_input_stream client_in) outs sched hh Hno)
        as (what & tc & Hrun & Tc & Wc & Sc & Dc)
  end.
  unfold try_finally, try_except. rewrite Hrun.
  rewrite bind_logger_error, call_accepted by apply Hws.
  match goal with
  | |- context [bind (update_session_state E settings sid "ended") _ ?hh] =>
      destruct (Hend hh) as (hu & Hu);
      destruct (update_session_state_persistence E settings sid "ended" hh) as [tu [Eu Fu]]
  end.
  rewrite Hu in Eu. cbn [snd] in Eu. subst hu.
  rewrite (bind_ok _ _ _ _ _ Hu).
  match goal with
  | |- context [bind (cache_delete E ?k) _ ?hh] =>
      destruct (cache_delete_extends k hh) as (b' & r & td & Hd & Fd)
  end.
  rewrite (bind_ok _ _ _ _ _ Hd). unfold logger_info. cbn [fst snd].
  destruct (gateway_side_quiet ts Fs) as (Ts & Ws & _ & _ & _ & Ds & Ss).
  destruct (gateway_side_quiet td Fd) as (Td & Wd & _ & _ & _ & Dd & Sd).
  destruct (persistence_side_quiet tu Fu) as (Tu & Wu & _ & Du & _ & Su & _).
  assert (K : forall k r x,
             redis_deletes (Did (RedisDelete k) r :: x) = k :: redis_deletes x
             /\ tx_attempted (Did (RedisDelete k) r :: x) = tx_attempted x
             /\ ws_json_sent (Did (RedisDelete k) r :: x) = ws_json_sent x
             /\ streams_opened (Did (RedisDelete k) r :: x) = streams_opened x)
    by (intros; repeat split).
  destruct (K (session_active_key sid) r td) as (K1 & K2 & K3 & K4).
  split; [reflexivity |]. split; [| split; [| split; [exists what |]]].
  - rewrite !streams_opened_app, K4, Ss, Sc, Su, Sd. simpl. now rewrite !app_nil_r.
  - rewrite !tx_attempted_app, K2, Ts, Tc, Tu, Td. simpl. now rewrite !app_nil_r.
  - rewrite !ws_json_sent_app, K3, Ws, Wc, Wu, Wd. simpl. now rewrite !app_nil_r.
  - rewrite !redis_deletes_app, K1, Ds, Dc, Du, Dd. simpl. now rewrite !app_nil_r.
Qed.
End HandlerFacts.


Section Teardown.
Context {L : PyLib} (E : Env) (settings : Settings).

Lemma closing_tail_keeps p :
  emits keeps_marker (bind (_send_prompt_end E p) (fun _ => _send_session_end E)).
Proof. unfold _send_prompt_end, _send_session_end, _send_raw_event. emits_tac. Qed.

(** X29.  Once the handshake is through, the teardown is always
    attempted: whatever the relay and the dispatcher did or raised, the
    [contentEnd] of the audio block is put on the model transport after
    the six handshake events.  If that send raises, the conversation
    raises the same exception and neither [promptEnd] nor [sessionEnd]
    is attempted.  The only other runs are those whose handshake raised
    before its sixth event. *)
Theorem teardown_is_attempted_after_the_handshake sid g outs sched h :
  let run := stream_conversation E settings sid g outs sched h in
  exists p c a tools,
    (exists e, fst run = Raise e
               /\ (List.length (tx_sent (snd run)) < List.length (tx_sent h) + 6)%nat)
    \/ (exists before r after middle,
          snd run = before ++ Did (TxSend (wire (content_end_event p a))) r :: after
          /\ tx_sent before
             = tx_sent h ++ map wire (handshake_events settings p c a tools) ++ middle
          /\ (r = None
              \/ (exists e, r = Some e /\ after = [] /\ fst run = Raise e))).
Proof.
  cbv zeta. unfold stream_conversation.
  rewrite bind_str_uuid4. set (p := uuid4 E h). set (h1 := h ++ [GotUuid p]).
  rewrite bind_str_uuid4. set (c := uuid4 E h1). set (h2 := h1 ++ [GotUuid c]).
  rewrite bind_str_uuid4. set (a := uuid4 E h2). set (h3 := h2 ++ [GotUuid a]).
  assert (Hh3 : tx_sent h3 = tx_sent h).
  { subst h3 h2 h1. repeat rewrite tx_sent_app. simpl. now repeat rewrite app_nil_r. }
  clearbody h3.
  destruct (get_tool_definitions_gateway E settings h3) as [tg [Etg Ftg]].
  assert (Htg : tx_sent tg = []).
  { apply off_transport_tx_sent. eapply Forall_impl; [| exact Ftg].
    apply gateway_side_off_transport. }
  destruct (get_tool_definitions E settings h3) as [[tools | e] h4] eqn:Hg;
    simpl in Etg; subst h4.
  2:{ rewrite (bind_raise _ _ _ _ _ Hg). exists p, c, a, JNull. left. exists e.
      cbn [fst snd]. split; [reflexivity |]. rewrite tx_sent_app, Htg, Hh3, app_nil_r. lia. }
  rewrite (bind_ok _ _ _ _ _ Hg).
  exists p, c, a, tools.
  unfold send_initialization, _send_session_start, _send_prompt_start,
    _send_system_prompt, _send_audio_content_start, _send_raw_event.
  repeat rewrite bind_assoc.
  do 7 (repeat rewrite bind_assoc; call_cases e;
        [| left; exists e; cbn [fst snd]; split; [reflexivity |];
           repeat rewrite tx_sent_app; rewrite Htg, Hh3; simpl;
           repeat rewrite length_app; simpl; lia ]).
  unfold try_finally.
  match goal with
  | |- context [try_except _ _ ?h6] =>
      destruct (streaming_errors_are_swallowed E settings sid g outs sched p a h6)
        as [ts [Es _]]; rewrite Es;
      assert (Hh6 : tx_sent (h6 ++ ts)
                    = tx_sent h ++ map wire (handshake_events settings p c a tools)
                      ++ tx_sent ts)
        by (repeat rewrite tx_sent_app; rewrite Htg, Hh3; simpl;
            repeat rewrite <- app_assoc; reflexivity);
      set (hs := h6 ++ ts) in *; clearbody hs
  end.
  right. unfold end_stream, _send_audio_content_end, _send_raw_event.
  fold (wire (content_end_event p a)).
  match goal with
  | |- context [bind (call E ?c0) ?k hs] =>
      destruct (bind_call_cases E c0 k hs) as [Hc | [e Hc]]; rewrite Hc
  end.
  - destruct (closing_tail_keeps p (hs ++ [Did (TxSend (wire (content_end_event p a))) None]))
      as [tc [Ec _]].
    fold (_send_raw_event E (json_dumps (prompt_end_event p))) in Ec |- *.
    exists hs, None, tc, (tx_sent ts). split; [| split; [exact Hh6 | now left]].
    unfold _send_prompt_end, _send_session_end in Ec.
    match goal with
    | |- snd (let (r, h') := ?m in _) = _ =>
        change (snd m = (hs ++ [Did (TxSend (wire (content_end_event p a))) None]) ++ tc) in Ec;
        destruct m as [[[] | e'] hh]; cbn [snd] in Ec |- *; rewrite Ec;
        now rewrite <- app_assoc
    end.
  - exists hs, (Some e), [], (tx_sent ts). cbn [fst snd].
    split; [reflexivity |]. split; [exact Hh6 |]. right. now exists e.
Qed.
End Teardown.


(* ===================================================================== *)
(** ** Caches, gateway, persistence and routes on concrete worlds *)
(* ===================================================================== *)

Lemma token_is_served_from_cache_witness :
  _get_oauth_token (Worlds.redis_holds "gateway_oauth_token" (dumps (JStr "cached")))
    settings0 []
  = (Ok (JStr "cached"),
     [GotRedis "gateway_oauth_token" (Ok (Some (dumps (JStr "cached"))))]).
Proof.
  apply (token_is_served_from_cache
           (Worlds.redis_holds "gateway_oauth_token" (dumps (JStr "cached"))) settings0 []
           (dumps (JStr "cached")) (JStr "cached")); reflexivity.
Defined.

Lemma fetched_token_is_cached_with_margin_witness :
  let run := _get_oauth_token quiet settings0 [] in
  fst run = Ok (JStr "token")
  /\ http_requests (snd run) = ["https://auth.example/token"]
  /\ redis_writes (snd run)
     = [("gateway_oauth_token", JInt 3300, dumps (JStr "token"))].
Proof.
  exact (fetched_token_is_cached_with_margin quiet settings0 []
           [("access_token", JStr "token");
            ("expires_in", JInt 3600);
            ("result", JObj [("tools", JArr []); ("answer", JInt 42)])]
           (JStr "token") 3600 eq_refl eq_refl eq_refl eq_refl).
Defined.

Lemma failed_token_fetch_is_raised_witness :
  let run := _get_oauth_token Worlds.token_endpoint_down settings0 [] in
  fst run = Raise (Exception "ConnectError") /\ redis_writes (snd run) = [].
Proof.
  exact (failed_token_fetch_is_raised Worlds.token_endpoint_down settings0 []
           (Exception "ConnectError") eq_refl (or_introl eq_refl)).
Defined.

Lemma call_mcp_outcome_witness :
  fst (_call_mcp (Worlds.gateway_answers (JObj [("error", JStr "boom")])) settings0
         "tools/list" JNull [])
  = Raise (Exception "MCP error: boom").
Proof.
  pose (E := Worlds.gateway_answers (JObj [("error", JStr "boom")])).
  exact (call_mcp_outcome E settings0 "tools/list" JNull [] (JStr "token")
           (snd (_get_oauth_token E settings0 [])) [("error", JStr "boom")]
           eq_refl eq_refl).
Defined.

Lemma cached_tools_are_served_witness :
  let run := list_tools
               (Worlds.redis_holds "gateway_tools_list" (dumps (JArr [Worlds.search_tool])))
               settings0 [] in
  fst run = Ok (JArr [Worlds.search_tool])
  /\ http_requests (snd run) = []
  /\ redis_writes (snd run) = [].
Proof.
  exact (cached_tools_are_served
           (Worlds.redis_holds "gateway_tools_list" (dumps (JArr [Worlds.search_tool])))
           settings0 [] eq_refl).
Defined.

Lemma uncached_tools_are_fetched_and_cached_witness :
  let E := Worlds.gateway_answers
             (JObj [("result", JObj [("tools", JArr [Worlds.search_tool])])]) in
  fst (list_tools E settings0 []) = Ok (JArr [Worlds.search_tool]).
Proof.
  intros E.
  exact (proj1 (uncached_tools_are_fetched_and_cached E settings0 []
                  (JObj [("tools", JArr [Worlds.search_tool])])
                  (snd (_call_mcp E settings0 "tools/list" JNull
                          (snd (cache_get E "gateway_tools_list" []))))
                  (JArr [Worlds.search_tool]) 1 eq_refl eq_refl eq_refl eq_refl)).
Defined.

Lemma tool_definitions_keep_names_witness :
  exists converted,
    bedrock_tools [Worlds.search_tool] = Ok converted
    /\ List.length converted = 1%nat
    /\ map tool_spec_name converted = [Ok (JStr "search")].
Proof.
  refine (tool_definitions_keep_names [Worlds.search_tool] _).
  constructor; [| constructor].
  exists [("name", JStr "search"); ("description", JStr "Search mail")], (JStr "search").
  split; reflexivity.
Defined.

Lemma unnamed_tool_fails_the_conversion_witness :
  exists e, bedrock_tools [Worlds.search_tool; Worlds.unnamed_tool] = Raise e.
Proof.
  exact (unnamed_tool_fails_the_conversion [Worlds.search_tool; Worlds.unnamed_tool]
           Worlds.unnamed_tool KeyError (or_intror (or_introl eq_refl)) eq_refl).
Defined.

Lemma get_session_never_raises_witness :
  fst (get_session Worlds.dynamo_down settings0 "s1" []) = Ok JNull.
Proof.
  destruct (get_session_never_raises Worlds.dynamo_down settings0 "s1" [])
    as (_ & Hdown & _).
  exact (Hdown (Exception "EndpointConnectionError") eq_refl).
Defined.

Lemma update_of_a_missing_session_raises_witness :
  let run := update_session_state no_session_row settings0 "s1" "ended" [] in
  fst run = Raise TypeError /\ db_updates (snd run) = [].
Proof.
  exact (update_of_a_missing_session_raises no_session_row settings0 "s1" "ended" [] eq_refl).
Defined.

Lemma update_targets_the_session_row_witness :
  exists ts,
    db_updates (snd (update_session_state quiet settings0 "s1" "ended" []))
    = [(JObj [("session_id", JStr "s1"); ("start_time", JInt 0)],
        JObj [(":state", JStr "ended"); (":ts", JInt ts)])].
Proof.
  eexists.
  exact (update_targets_the_session_row quiet settings0 "s1" "ended" []
           (JObj [("session_id", JStr "s1"); ("start_time", JInt 0)])
           (snd (get_session quiet settings0 "s1" [])) (JInt 0) eq_refl eq_refl).
Defined.

Lemma end_session_answers_404_witness :
  let run := end_session Worlds.dynamo_down settings0 "s1" [] in
  fst run = Raise (HTTPException 404 "Session not found")
  /\ db_updates (snd run) = []
  /\ redis_deletes (snd run) = [].
Proof.
  exact (end_session_answers_404 Worlds.dynamo_down settings0 "s1" []
           (or_introl (ex_intro _ (Exception "EndpointConnectionError") eq_refl))).
Defined.

Lemma end_session_clears_both_keys_witness :
  let run := end_session quiet settings0 "s1" [] in
  fst run = Ok (JObj [("status", JStr "ended"); ("session_id", JStr "s1")])
  /\ redis_deletes (snd run) = ["session:s1"; "session_active:s1"].
Proof.
  pose (h1 := snd (get_session quiet settings0 "s1" [])).
  exact (end_session_clears_both_keys quiet settings0 "s1" []
           (JObj [("session_id", JStr "s1"); ("start_time", JInt 0)])
           h1 (snd (update_session_state quiet settings0 "s1" "ended" h1))
           eq_refl eq_refl eq_refl).
Defined.

Lemma start_session_is_consistent_witness :
  let run := start_session quiet settings0 JNull [] in
  exists item created_at,
    fst run = Ok (JObj [("session_id", JStr "uuid-0");
                        ("websocket_url",
                         JStr "ws://localhost:8000/ws/audio?session_id=uuid-0");
                        ("created_at", created_at)])
    /\ db_put (snd run) = [("RobinSessions", item)]
    /\ redis_writes (snd run) = [("session:uuid-0", JInt 3600, dumps item)]
    /\ getitem item "session_id" = Ok (JStr "uuid-0")
    /\ getitem item "start_time" = Ok created_at
    /\ getitem item "last_updated" = Ok created_at
    /\ getitem item "state" = Ok (JStr "active")
    /\ getitem item "user_id" = Ok (JStr "anonymous").
Proof.
  exact (start_session_is_consistent quiet settings0 JNull [] (fun _ _ => eq_refl)).
Defined.

Lemma start_session_needs_the_store_witness :
  let run := start_session Worlds.dynamo_refuses_writes settings0 JNull [] in
  fst run = Raise (Exception "ClientError")
  /\ redis_writes (snd run) = [] /\ db_put (snd run) = [].
Proof.
  exact (start_session_needs_the_store Worlds.dynamo_refuses_writes settings0 JNull []
           (Exception "ClientError") (fun _ _ => eq_refl)).
Defined.

Lemma unreadable_control_ends_the_relay_witness :
  relay quiet [text_frame "{"; binary_frame abc]
  = (Ok tt, [Logged "error" "Audio receive error"]).
Proof.
  exact (unreadable_control_ends_the_relay quiet "p1" "a1" "{" "JSONDecodeError"
           [binary_frame abc] [] eq_refl).
Defined.

Lemma failed_send_ends_the_relay_witness :
  fst (relay Worlds.transport_refuses [binary_frame abc; binary_frame abc])
  = Raise (Exception "stream closed")
  /\ List.length (snd (relay Worlds.transport_refuses [binary_frame abc; binary_frame abc]))
     = 1%nat.
Proof.
  unfold relay.
  rewrite (failed_send_ends_the_relay Worlds.transport_refuses "p1" "a1"
             (hd x00 abc) (tl abc) [binary_frame abc] [] (Exception "stream closed") eq_refl).
  split; reflexivity.
Defined.

Lemma tool_content_end_without_announcement_witness :
  dispatch_event quiet settings0 "s1" "p1" no_tool (JObj tool_end_fields) []
  = (Ok (Continue, no_tool), []).
Proof.
  exact (tool_content_end_without_announcement quiet settings0 "s1" "p1" no_tool
           tool_end_fields [] tool_end_fields_event (or_introl eq_refl)).
Defined.

Lemma tool_use_is_captured_and_announced_witness :
  dispatch_event quiet settings0 "s1" "p1" no_tool
    (JObj [("toolUse", tool_content announced)]) []
  = (Ok (Continue, announced),
     [Logged "info" "Tool use detected";
      Did (WsSendJson (JObj [("type", JStr "tool_call_start");
                             ("tool", JStr "search");
                             ("input", JObj [])])) None]).
Proof.
  exact (tool_use_is_captured_and_announced quiet settings0 "s1" "p1" no_tool
           [("toolUse", tool_content announced)]
           [("toolUseId", JStr "t1"); ("toolName", JStr "search"); ("content", JStr "{}")]
           (JStr "t1") (JStr "search") (JObj []) []
           eq_refl eq_refl eq_refl eq_refl eq_refl (fun _ _ => eq_refl)).
Defined.

Lemma text_output_is_persisted_witness :
  db_put (snd (dispatch_event quiet settings0 "s1" "p1" no_tool
                 (JObj [("textOutput",
                         JObj [("content", JStr "Hello"); ("role", JStr "ASSISTANT")])]) []))
  = [("RobinSessionMessages",
      JObj [("session_id", JStr "s1");
            ("ts_message", JInt 0);
            ("role", JStr "assistant");
            ("text", JStr "Hello");
            ("expires_at", JInt 86400)])].
Proof.
  rewrite (text_output_is_persisted quiet settings0 "s1" "p1" no_tool
             [("textOutput", JObj [("content", JStr "Hello"); ("role", JStr "ASSISTANT")])]
             [("content", JStr "Hello"); ("role", JStr "ASSISTANT")]
             (JStr "Hello") "ASSISTANT" []
             eq_refl eq_refl eq_refl eq_refl eq_refl eq_refl (fun _ _ => eq_refl)).
  reflexivity.
Defined.

Lemma completion_end_stops_the_dispatcher_witness :
  dispatch quiet [completion_end_output; tool_content_end_output] = (Ok tt, []).
Proof.
  pose (top := [("event", JObj [("completionEnd", JObj [])])]).
  pose (bytes := list_byte_of_string (dumps (JObj top))).
  exact (completion_end_stops_the_dispatcher quiet settings0 "s1" "p1" no_tool
           (hd x00 bytes) (tl bytes) (dumps (JObj top)) top
           [("completionEnd", JObj [])] (JObj []) [tool_content_end_output] []
           eq_refl eq_refl eq_refl eq_refl eq_refl eq_refl eq_refl eq_refl).
Defined.

Lemma successful_round_trip_carries_the_result_witness :
  exists latency_ms h1 t,
    dispatch_event quiet settings0 "s1" "p1" announced (JObj tool_end_fields) []
    = (Ok (Continue, announced), h1 ++ t)
    /\ ws_json_sent t
       = [JObj [("type", JStr "tool_call_end");
                ("tool", JStr "search");
                ("result", JObj [("tools", JArr []); ("answer", JInt 42)]);
                ("latency_ms", JInt latency_ms)]].
Proof.
  edestruct (successful_round_trip_carries_the_result quiet settings0 "s1" "p1" announced
               tool_end_fields (JObj []) []
               (JObj [("tools", JArr []); ("answer", JInt 42)]))
    as (latency_ms & h1 & t & item & name & _ & Hd & _ & _ & _ & _ & _ & Hn).
  - exact tool_end_fields_event.
  - exact announced_pending.
  - exact quiet_accepts_round_trip.
  - vm_compute. reflexivity.
  - exists latency_ms, h1, t. split; [exact Hd | exact Hn].
Defined.

Lemma gateway_down_tools_unavailable : tools_unavailable gateway_down settings0.
Proof. intros h. do 2 eexists. cbv -[app List.length Z.of_nat Z.mul Z.quot]. reflexivity. Qed.

Lemma gateway_down_session_can_end : session_can_end gateway_down settings0 "s1".
Proof. intros h. eexists. cbv -[app List.length Z.of_nat Z.mul Z.quot]. reflexivity. Qed.

Lemma gateway_outage_is_reported_to_the_client_witness :
  let run := session gateway_down [binary_frame abc] [completion_end_output] [] in
  fst run = Ok tt
  /\ streams_opened (snd run) = []
  /\ tx_attempted (snd run) = []
  /\ (exists what,
        ws_json_sent (snd run) = [JObj [("type", JStr "error"); ("message", JStr what)]])
  /\ redis_deletes (snd run) = ["session_active:s1"].
Proof.
  exact (gateway_outage_is_reported_to_the_client gateway_down settings0 "s1"
           [binary_frame abc] [completion_end_output] [] []
           (fun _ => eq_refl) (fun _ _ => eq_refl)
           gateway_down_tools_unavailable gateway_down_session_can_end).
Defined.

Lemma audio_output_reaches_the_client_witness :
  dispatch_event quiet settings0 "s1" "p1" announced
    (JObj [("audioOutput", JObj [("content", JStr "TWFu")]);
           ("contentEnd", JObj [("type", JStr "TOOL")])]) []
  = (Ok (Continue, announced), [Did (WsSendBytes (list_byte_of_string "Man")) None]).
Proof.
  exact (audio_output_reaches_the_client quiet settings0 "s1" "p1" announced
           [("audioOutput", JObj [("content", JStr "TWFu")]);
            ("contentEnd", JObj [("type", JStr "TOOL")])]
           [("content", JStr "TWFu")] "TWFu" (list_byte_of_string "Man") []
           eq_refl eq_refl eq_refl eq_refl).
Defined.
